(** * MCP quickstart: the chat client and the weather server

    A shallow embedding of the two TypeScript programs of the repository:

    - the MCP client ([processQuery], [directToolCall], [chatLoop]), the
      version with logging, per-call error handling and result flattening;
    - the weather server ([makeNWSRequest], [withErrorHandling], the
      [get-alerts] and [get-forecast] handlers).

    The model provider, the MCP server reached by the client and the HTTP
    upstream of the weather server are external: they are oracles over an
    abstract world.  Every interaction with them, every console line and
    every logger call is recorded, in order, in a trace.

    The set-up of the connection and of the tool catalog, [cleanup] and
    [main] of the client are modelled apart, in [Startup], over the same
    oracles and with the calls to the MCP client of the SDK and the exit
    of the process added to the trace.

    Not modelled: the [get-installed-apps] tool and the start-up of the
    server. *)

From Stdlib Require Import String Ascii List Bool Arith ZArith QArith Lia.
From Stdlib Require Import DecimalString DecimalNat DecimalFacts.
From Stdlib Require Import RelationClasses.
Import ListNotations.
Open Scope list_scope.
Open Scope string_scope.

(* ===================================================================== *)
(** ** The pieces of the JavaScript runtime the programs use *)
(* ===================================================================== *)

Module JS.

(** Strings are byte strings; the line feed and the double quote are
    named because they cannot be written inside a literal. *)
Definition LF : string := String (ascii_of_nat 10) EmptyString.
Definition DQ : string := String (ascii_of_nat 34) EmptyString.

(** A thrown value: [error instanceof Error] with its name and message,
    or any other value together with [String(value)]. *)
Inductive Thrown : Type :=
| ErrorObject (name message : string)
| ThrownValue (rendering : string).

(** [error instanceof Error ? error.message : String(error)] *)
Definition describe (e : Thrown) : string :=
  match e with
  | ErrorObject _ m => m
  | ThrownValue s => s
  end.

(** A parsed JSON value ([any] in the sources).  Numbers are kept as
    integers: the functions modelled here pass payloads on and test a
    body for falsiness at most. *)
#[warnings="-register-all"]
Inductive Json : Type :=
| JNull
| JBool (b : bool)
| JNum (n : Z)
| JStr (s : string)
| JArr (items : list Json)
| JObj (fields : list (string * Json)).

(** The object literal [{}]. *)
Definition emptyObject : Json := JObj [].

(** Truthiness of a [string | null | undefined]. *)
Definition truthy (o : option string) : bool :=
  match o with
  | Some s => negb (s =? "")
  | None => false
  end.

(** [o || d] for a [string | null | undefined] on the left. *)
Definition orElse (o : option string) (d : string) : string :=
  match o with
  | Some s => if s =? "" then d else s
  | None => d
  end.

(** [Array.prototype.join] on an array of strings. *)
Definition join (sep : string) (l : list string) : string := String.concat sep l.

(** Decimal rendering of an array length. *)
Definition showNat (n : nat) : string := NilEmpty.string_of_uint (Nat.to_uint n).

(** [String.prototype.toLowerCase], on the ASCII letters (bytes of a
    multi-byte character are left as they are). *)
Definition lowerChar (c : ascii) : ascii :=
  let n := nat_of_ascii c in
  if (65 <=? n)%nat && (n <=? 90)%nat then ascii_of_nat (n + 32) else c.

Fixpoint toLowerCase (s : string) : string :=
  match s with
  | EmptyString => EmptyString
  | String c r => String (lowerChar c) (toLowerCase r)
  end.

(** [String.prototype.toUpperCase], likewise. *)
Definition upperChar (c : ascii) : ascii :=
  let n := nat_of_ascii c in
  if (97 <=? n)%nat && (n <=? 122)%nat then ascii_of_nat (n - 32) else c.

Fixpoint toUpperCase (s : string) : string :=
  match s with
  | EmptyString => EmptyString
  | String c r => String (upperChar c) (toUpperCase r)
  end.

(** [s.startsWith(p)] *)
Definition startsWith (s p : string) : bool := String.prefix p s.

(** [s.substring(n)] *)
Fixpoint substringFrom (n : nat) (s : string) : string :=
  match n, s with
  | O, _ => s
  | S n', String _ r => substringFrom n' r
  | S _, EmptyString => EmptyString
  end.

(** White space removed by [trim] and skipped by [parseInt] (the ASCII
    part: tab, line feed, vertical tab, form feed, carriage return,
    space). *)
Definition isWhiteSpace (c : ascii) : bool :=
  let n := nat_of_ascii c in
  ((9 <=? n)%nat && (n <=? 13)%nat) || (n =? 32)%nat.

Fixpoint trimStart (s : string) : string :=
  match s with
  | EmptyString => EmptyString
  | String c r => if isWhiteSpace c then trimStart r else s
  end.

Fixpoint trimEnd (s : string) : string :=
  match s with
  | EmptyString => EmptyString
  | String c r =>
      let r' := trimEnd r in
      if isWhiteSpace c && (r' =? "") then EmptyString else String c r'
  end.

(** [s.trim()] *)
Definition trim (s : string) : string := trimEnd (trimStart s).

(** [s.split(" ")]: empty pieces are kept, and the empty string splits
    into one empty piece. *)
Fixpoint splitOn (sep : ascii) (s : string) : list string :=
  match s with
  | EmptyString => [EmptyString]
  | String c r =>
      if Ascii.eqb c sep then EmptyString :: splitOn sep r
      else match splitOn sep r with
           | h :: t => String c h :: t
           | [] => [String c EmptyString]
           end
  end.

Definition space : ascii := ascii_of_nat 32.

(** [parseInt(s)] with no radix: leading white space, an optional sign,
    an optional [0x] / [0X] prefix, then the longest run of digits of
    the radix.  [None] is NaN. *)
Definition digitValue (radix : Z) (c : ascii) : option Z :=
  let n := Z.of_nat (nat_of_ascii c) in
  let v := if (48 <=? n)%Z && (n <=? 57)%Z then Some (n - 48)%Z
           else if (97 <=? n)%Z && (n <=? 122)%Z then Some (n - 87)%Z
           else if (65 <=? n)%Z && (n <=? 90)%Z then Some (n - 55)%Z
           else None in
  match v with
  | Some d => if (d <? radix)%Z then Some d else None
  | None => None
  end.

Fixpoint digitsFrom (radix : Z) (s : string) (acc : option Z) : option Z :=
  match s with
  | EmptyString => acc
  | String c r =>
      match digitValue radix c with
      | Some d =>
          digitsFrom radix r
            (Some (match acc with Some a => a * radix + d | None => d end)%Z)
      | None => acc
      end
  end.

Definition parseUnsigned (s : string) : option Z :=
  if String.prefix "0x" s || String.prefix "0X" s
  then digitsFrom 16 (substringFrom 2 s) None
  else digitsFrom 10 s None.

Definition parseInt (s : string) : option Z :=
  match trimStart s with
  | String "-" r => option_map Z.opp (parseUnsigned r)
  | String "+" r => parseUnsigned r
  | t => parseUnsigned t
  end.

End JS.

Import JS.

(* ===================================================================== *)
(** ** Effects: a store, exceptions and unfinished computations *)
(* ===================================================================== *)

Module Eff.

(** How an [async] function ends: it returns, it throws, or it is still
    waiting (for a line the operator never types, or for a retry the
    bound of the unrolling does not reach). *)
Inductive Result (A : Type) : Type :=
| Return (a : A)
| Throw (e : Thrown)
| Pending.

Arguments Return {A} a.
Arguments Throw {A} e.
Arguments Pending {A}.

Definition M (S A : Type) : Type := S -> Result A * S.

Definition ret {S A} (a : A) : M S A := fun s => (Return a, s).

Definition bind {S A B} (m : M S A) (k : A -> M S B) : M S B :=
  fun s =>
    match m s with
    | (Return a, s') => k a s'
    | (Throw e, s') => (Throw e, s')
    | (Pending, s') => (Pending, s')
    end.

Definition throw {S A} (e : Thrown) : M S A := fun s => (Throw e, s).

Definition pending {S A} : M S A := fun s => (Pending, s).

(** [try { body } catch (e) { handler }]: what [body] did to the store
    before it threw stays done. *)
Definition tryCatch {S A} (body : M S A) (handler : Thrown -> M S A) : M S A :=
  fun s =>
    match body s with
    | (Throw e, s') => handler e s'
    | r => r
    end.

(** [try { body } finally { cleanup }] *)
Definition tryFinally {S A} (body : M S A) (cleanup : M S unit) : M S A :=
  fun s =>
    match body s with
    | (Return a, s') =>
        match cleanup s' with
        | (Return _, s'') => (Return a, s'')
        | (Throw e, s'') => (Throw e, s'')
        | (Pending, s'') => (Pending, s'')
        end
    | (Throw e, s') =>
        match cleanup s' with
        | (Return _, s'') => (Throw e, s'')
        | (Throw e', s'') => (Throw e', s'')
        | (Pending, s'') => (Pending, s'')
        end
    | (Pending, s') => (Pending, s')
    end.

(** An operation that returns a value or throws, lifted. *)
Definition liftSum {S A} (r : Thrown + A) : M S A :=
  match r with
  | inl e => throw e
  | inr a => ret a
  end.

(** [for (const x of l) { body }] *)
Fixpoint forOf {S A} (l : list A) (body : A -> M S unit) : M S unit :=
  match l with
  | [] => ret tt
  | x :: rest => bind (body x) (fun _ => forOf rest body)
  end.

End Eff.

Import Eff.

Declare Scope eff_scope.
Delimit Scope eff_scope with eff.
Notation "x <- m ;; k" := (bind m (fun x => k))
  (at level 100, m at next level, right associativity) : eff_scope.
Notation "m ;; k" := (bind m (fun _ => k))
  (at level 100, right associativity) : eff_scope.
Open Scope eff_scope.

(* ===================================================================== *)
(** ** The MCP client *)
(* ===================================================================== *)

Module Client.

(** *** Data *)

(** One entry of [tool_calls] in a model response. *)
Record FunctionCall : Type := mkFunctionCall {
  fn_name : string;
  fn_arguments : option string
}.

Record ToolCall : Type := mkToolCall {
  tc_id : string;
  tc_type : string;
  tc_function : FunctionCall
}.

(** [toolCall.function.name] *)
Definition calledName (toolCall : ToolCall) : string := fn_name (tc_function toolCall).

(** [toolCall.function.arguments || "{}"] *)
Definition argumentsText (toolCall : ToolCall) : string :=
  orElse (fn_arguments (tc_function toolCall)) "{}".

(** [interface ChatCompletionMessage], with the [content] of a model
    response allowed to be null. *)
Record ChatCompletionMessage : Type := mkMessage {
  role : string;
  content : option string;
  tool_call_id : option string;
  name : option string;
  tool_calls : option (list ToolCall)
}.

(** [interface ChatCompletionTool] *)
Record ChatCompletionTool : Type := mkTool {
  tool_type : string;
  tool_name : string;
  tool_description : option string;
  tool_parameters : Json
}.

Record Choice : Type := mkChoice { message : ChatCompletionMessage }.

Record ChatResponse : Type := mkResponse { choices : option (list Choice) }.

(** [r.choices && r.choices.length > 0], then [r.choices[0]] *)
Definition firstChoice (r : ChatResponse) : option Choice :=
  match choices r with
  | Some (c :: _) => Some c
  | _ => None
  end.

(** The argument of [openai.chat.completions.create]. *)
Record ChatRequest : Type := mkRequest {
  req_model : string;
  req_max_tokens : Z;
  req_messages : list ChatCompletionMessage;
  req_tools : option (list ChatCompletionTool)
}.

(** One element of a tool result's [content] array: a [type] and, for
    text elements, a [text]. *)
Record ContentItem : Type := mkItem {
  item_type : string;
  item_text : option string
}.

(** [result.content]: an array, a string, or anything else. *)
Inductive Content : Type :=
| ContentArray (items : list ContentItem)
| ContentString (s : string)
| ContentOther (j : Json).

Record ToolResult : Type := mkToolResult { result_content : Content }.

Inductive Level : Type := DEBUG | INFO | WARN | ERROR.

(** What the client does that can be observed from outside, in the
    order it happens.  A logger call is recorded with its message (the
    objects passed after the message are left out); whether it reaches
    the console depends on [LOG_LEVEL], which is read once at start. *)
Inductive Event : Type :=
| Log (level : Level) (msg : string)
| LogError (msg : string) (error : Thrown)
| ConsoleLog (line : string)
| ModelCall (req : ChatRequest)
| McpCallTool (toolName : string) (args : Json)
| SetEnv (key value : string)
| Question (prompt : string)
| RlClose.

(** The environment of the client: the JSON functions of the runtime,
    the model provider and the connected MCP server. *)
Record Runtime : Type := mkRuntime {
  World : Type;
  JSON_parse : string -> Thrown + Json;
  JSON_stringify : Json -> string;
  JSON_stringify_indent : Json -> string;
  chat_completions_create : ChatRequest -> World -> (Thrown + ChatResponse) * World;
  mcp_callTool : string -> Json -> World -> (Thrown + ToolResult) * World
}.

(** The store: the world, the trace, the catalog [this.tools], and the
    three arrays [processQuery] allocates and mutates. *)
Record State (R : Runtime) : Type := mkState {
  world : World R;
  trace : list Event;
  tools : list ChatCompletionTool;
  messages : list ChatCompletionMessage;
  finalText : list string;
  toolResults : list ToolResult
}.

Arguments mkState {R} _ _ _ _ _ _.
Arguments world {R} _.
Arguments trace {R} _.
Arguments tools {R} _.
Arguments messages {R} _.
Arguments finalText {R} _.
Arguments toolResults {R} _.

(** Programs over the store. *)
Definition Prog (R : Runtime) (A : Type) : Type := M (State R) A.

Section Operations.

Variable R : Runtime.

(** *** Primitive operations on the store *)

Definition emit (e : Event) : Prog R unit :=
  fun s => (Return tt,
            mkState (world s) (trace s ++ [e])%list (tools s)
                    (messages s) (finalText s) (toolResults s)).

Definition logger_debug (msg : string) : Prog R unit := emit (Log DEBUG msg).
Definition logger_info (msg : string) : Prog R unit := emit (Log INFO msg).
Definition logger_warn (msg : string) : Prog R unit := emit (Log WARN msg).
Definition logger_error (msg : string) (error : Thrown) : Prog R unit :=
  emit (LogError msg error).
Definition console_log (line : string) : Prog R unit := emit (ConsoleLog line).

Definition getTools : Prog R (list ChatCompletionTool) :=
  fun s => (Return (tools s), s).

Definition getMessages : Prog R (list ChatCompletionMessage) :=
  fun s => (Return (messages s), s).

Definition getFinalText : Prog R (list string) :=
  fun s => (Return (finalText s), s).

(** [const messages = [...]], [const finalText = []],
    [const toolResults = []] *)
Definition newMessages (l : list ChatCompletionMessage) : Prog R unit :=
  fun s => (Return tt,
            mkState (world s) (trace s) (tools s) l (finalText s) (toolResults s)).

Definition newFinalText : Prog R unit :=
  fun s => (Return tt,
            mkState (world s) (trace s) (tools s) (messages s) [] (toolResults s)).

Definition newToolResults : Prog R unit :=
  fun s => (Return tt,
            mkState (world s) (trace s) (tools s) (messages s) (finalText s) []).

(** [messages.push(m)], [finalText.push(t)], [toolResults.push(r)] *)
Definition pushMessage (m : ChatCompletionMessage) : Prog R unit :=
  fun s => (Return tt,
            mkState (world s) (trace s) (tools s)
                    (messages s ++ [m])%list (finalText s) (toolResults s)).

Definition pushFinalText (t : string) : Prog R unit :=
  fun s => (Return tt,
            mkState (world s) (trace s) (tools s)
                    (messages s) (finalText s ++ [t])%list (toolResults s)).

Definition pushToolResult (r : ToolResult) : Prog R unit :=
  fun s => (Return tt,
            mkState (world s) (trace s) (tools s)
                    (messages s) (finalText s) (toolResults s ++ [r])%list).

(** [await this.openai.chat.completions.create(req)] *)
Definition openai_create (req : ChatRequest) : Prog R ChatResponse :=
  fun s =>
    let (r, w) := chat_completions_create R req (world s) in
    let s' := mkState w (trace s ++ [ModelCall req])%list (tools s)
                      (messages s) (finalText s) (toolResults s) in
    match r with
    | inl e => (Throw e, s')
    | inr resp => (Return resp, s')
    end.

(** [await this.mcp.callTool({ name, arguments })] *)
Definition mcp_call (toolName : string) (args : Json) : Prog R ToolResult :=
  fun s =>
    let (r, w) := mcp_callTool R toolName args (world s) in
    let s' := mkState w (trace s ++ [McpCallTool toolName args])%list (tools s)
                      (messages s) (finalText s) (toolResults s) in
    match r with
    | inl e => (Throw e, s')
    | inr res => (Return res, s')
    end.

(** *** [processQuery] *)

(** [item.text || ""] *)
Definition itemText (item : ContentItem) : string := orElse (item_text item) "".

(** The [content] of the tool message:
    [Array.isArray(c) ? c.map(item => item.text || "").join("\n")
     : typeof c === 'string' ? c : JSON.stringify(c)] *)
Definition flattenContent (c : Content) : string :=
  match c with
  | ContentArray items => join LF (map itemText items)
  | ContentString s => s
  | ContentOther j => JSON_stringify R j
  end.

Definition userMessage (query : string) : ChatCompletionMessage :=
  mkMessage "user" (Some query) None None None.

Definition toolMessage (toolCall : ToolCall) (toolName : string) (result : ToolResult)
  : ChatCompletionMessage :=
  mkMessage "tool" (Some (flattenContent (result_content result)))
            (Some (tc_id toolCall)) (Some toolName) None.

(** The line pushed by the [catch (toolError)] of one tool call. *)
Definition toolErrorLine (toolName : string) (toolError : Thrown) : string :=
  "[错误] 工具 " ++ toolName ++ " 调用失败: " ++ describe toolError.

(** The line pushed after a successful [callTool]. *)
Definition toolCalledLine (toolName : string) (toolArgs : Json) : string :=
  "[调用工具 " ++ toolName ++ "，参数：" ++ JSON_stringify R toolArgs ++ "]".

(** The text returned by the [catch (error)] around the whole query. *)
Definition queryErrorText (error : Thrown) : string :=
  "处理查询时发生错误: " ++ describe error.

(** The body of [for (const toolCall of choice.message.tool_calls)]. *)
Definition handleToolCall (choice : Choice) (toolCall : ToolCall) : Prog R unit :=
  if tc_type toolCall =? "function" then
    let toolName := calledName toolCall in
    toolArgs <- liftSum (JSON_parse R (argumentsText toolCall)) ;;
    logger_info ("准备调用工具: " ++ toolName ++ "，参数:") ;;
    tryCatch
      (logger_debug ("开始调用MCP工具: " ++ toolName) ;;
       result <- mcp_call toolName toolArgs ;;
       logger_debug "工具调用结果:" ;;
       pushToolResult result ;;
       pushFinalText (toolCalledLine toolName toolArgs) ;;
       logger_info ("工具 " ++ toolName ++ ".callTool() 调用成功") ;;
       pushMessage (message choice) ;;
       pushMessage (toolMessage toolCall toolName result) ;;
       logger_debug "将工具结果添加到消息中:" ;;
       logger_debug "将工具结果发送回DeepSeek模型..." ;;
       msgs <- getMessages ;;
       followUpResponse <- openai_create (mkRequest "deepseek-chat" 1000 msgs None) ;;
       logger_debug "收到模型对工具结果的响应:" ;;
       match firstChoice followUpResponse with
       | Some first =>
           if truthy (content (message first)) then
             logger_debug "添加模型对工具结果的响应到输出" ;;
             pushFinalText (orElse (content (message first)) "")
           else ret tt
       | None => ret tt
       end)
      (fun toolError =>
         logger_error ("工具 " ++ toolName ++ " 调用失败") toolError ;;
         pushFinalText (toolErrorLine toolName toolError))
  else ret tt.

Definition processQuery (query : string) : Prog R string :=
  tryCatch
    (logger_info ("处理用户查询: " ++ DQ ++ query ++ DQ) ;;
     newMessages [userMessage query] ;;
     logger_debug "发送消息到模型:" ;;
     logger_debug "发送请求到DeepSeek模型..." ;;
     msgs <- getMessages ;;
     catalog <- getTools ;;
     response <- openai_create (mkRequest "deepseek-chat" 1000 msgs (Some catalog)) ;;
     newFinalText ;;
     newToolResults ;;
     match firstChoice response with
     | Some choice =>
         logger_debug "模型选择:" ;;
         (if truthy (content (message choice)) then
            logger_debug "收到模型文本响应:" ;;
            pushFinalText (orElse (content (message choice)) "")
          else ret tt) ;;
         match tool_calls (message choice) with
         | Some (tc :: tcs) =>
             logger_info ("模型选择调用工具，数量: " ++ showNat (length (tc :: tcs))) ;;
             forOf (tc :: tcs) (handleToolCall choice)
         | _ => logger_warn "模型未选择调用任何工具，直接返回文本响应"
         end
     | None => logger_warn "DeepSeek模型未返回任何选择"
     end ;;
     logger_debug "最终文本片段:" ;;
     pieces <- getFinalText ;;
     ret (join LF pieces))
    (fun error =>
       logger_error "处理查询时发生错误" error ;;
       ret (queryErrorText error)).

(** *** [directToolCall] *)

(** As [flattenContent], with [JSON.stringify(c, null, 2)] in the
    last case. *)
Definition flattenContentIndented (c : Content) : string :=
  match c with
  | ContentArray items => join LF (map itemText items)
  | ContentString s => s
  | ContentOther j => JSON_stringify_indent R j
  end.

Definition directResultText (toolName : string) (result : ToolResult) : string :=
  "工具 " ++ toolName ++ " 调用结果:" ++ LF
    ++ flattenContentIndented (result_content result).

Definition directFailureText (toolName : string) (error : Thrown) : string :=
  "调用工具 " ++ toolName ++ " 失败: " ++ describe error.

Definition directToolCall (toolName : string) (args : Json) : Prog R string :=
  tryCatch
    (logger_info ("直接调用工具: " ++ toolName ++ "，参数:") ;;
     result <- mcp_call toolName args ;;
     logger_debug "工具调用结果:" ;;
     ret (directResultText toolName result))
    (fun error =>
       logger_error ("直接工具调用失败: " ++ toolName) error ;;
       ret (directFailureText toolName error)).

(** *** [chatLoop] *)

Definition prompt : string := LF ++ "问题: ".

(** [message.substring(5).trim().split(" ")] *)
Definition toolPartsOf (message : string) : list string :=
  splitOn space (trim (substringFrom 5 message)).

(** The arguments of a direct call: [{}], replaced by the parsed text
    after the name when there is one and it parses. *)
Definition directArgs (toolParts : list string) : Prog R Json :=
  if (1 <? length toolParts)%nat then
    tryCatch
      (liftSum (JSON_parse R (join " " (tl toolParts))))
      (fun _ =>
         logger_warn "无法解析参数JSON，使用空参数" ;;
         ret emptyObject)
  else ret emptyObject.

(** The [while (true)] of [chatLoop], on the lines the operator
    types; when they run out the loop waits for the next one. *)
Fixpoint whileTrue (input : list string) : Prog R unit :=
  match input with
  | [] => emit (Question prompt) ;; pending
  | message :: rest =>
      emit (Question prompt) ;;
      if toLowerCase message =? "quit" then ret tt
      else if toLowerCase message =? "debug" then
        emit (SetEnv "LOG_LEVEL" "debug") ;;
        console_log (LF ++ "已切换到调试模式，将显示详细日志信息") ;;
        whileTrue rest
      else if toLowerCase message =? "info" then
        emit (SetEnv "LOG_LEVEL" "info") ;;
        console_log (LF ++ "已切换到标准模式，将只显示重要日志信息") ;;
        whileTrue rest
      else if startsWith message "tool:" then
        tryCatch
          (let toolParts := toolPartsOf message in
           let toolName := hd "" toolParts in
           args <- directArgs toolParts ;;
           response <- directToolCall toolName args ;;
           console_log (LF ++ response))
          (fun error =>
             logger_error "直接工具调用失败" error ;;
             console_log (LF ++ "直接工具调用失败: " ++ describe error)) ;;
        whileTrue rest
      else
        tryCatch
          (logger_info "开始处理查询..." ;;
           response <- processQuery message ;;
           logger_info "查询处理完成" ;;
           console_log (LF ++ response))
          (fun error =>
             logger_error "处理消息时发生错误" error ;;
             console_log (LF ++ "处理消息时发生错误: " ++ describe error)) ;;
        whileTrue rest
  end.

Definition banner : list Event :=
  [ ConsoleLog (LF ++ "MCP客户端已启动！");
    ConsoleLog "输入您的问题或输入'quit'退出。";
    ConsoleLog "输入'debug'切换到调试模式，'info'切换到标准模式。";
    ConsoleLog "输入'tool:名称 [参数]'直接调用工具，例如 'tool:get-installed-apps'" ].

Definition chatLoop (input : list string) : Prog R unit :=
  tryFinally
    (tryCatch
       (forOf banner emit ;;
        whileTrue input)
       (fun error =>
          logger_error "聊天循环中发生错误" error ;;
          throw error))
    (emit RlClose).

End Operations.

(** *** Reading a trace *)

(** The conversations sent to the model, in order. *)
Fixpoint modelCalls (t : list Event) : list ChatRequest :=
  match t with
  | [] => []
  | ModelCall req :: rest => req :: modelCalls rest
  | _ :: rest => modelCalls rest
  end.

(** The tools invoked on the MCP server, in order. *)
Fixpoint toolCallsMade (t : list Event) : list (string * Json) :=
  match t with
  | [] => []
  | McpCallTool n a :: rest => (n, a) :: toolCallsMade rest
  | _ :: rest => toolCallsMade rest
  end.

(** The lines written with [console.log], in order. *)
Fixpoint printed (t : list Event) : list string :=
  match t with
  | [] => []
  | ConsoleLog l :: rest => l :: printed rest
  | _ :: rest => printed rest
  end.

(** What a follow-up response adds to the output: the text of its
    first choice, when there is one and it is not empty. *)
Definition followUpText (r : ChatResponse) : list string :=
  match firstChoice r with
  | Some first =>
      if truthy (content (message first)) then [orElse (content (message first)) ""]
      else []
  | None => []
  end.

(** *** Reading a conversation *)

(** The tool-call requests a conversation carries. *)
Definition requestsIn (conv : list ChatCompletionMessage) : list ToolCall :=
  flat_map (fun m => match tool_calls m with Some l => l | None => [] end) conv.

(** The tool-role messages of a conversation that carry [id]. *)
Definition answersTo (id : string) (conv : list ChatCompletionMessage)
  : list ChatCompletionMessage :=
  filter (fun m => (role m =? "tool")
                   && match tool_call_id m with Some i => i =? id | None => false end)
         conv.

(** Every request of the conversation has exactly one tool-role
    message with its id. *)
Definition everyRequestAnswered (conv : list ChatCompletionMessage) : bool :=
  forallb (fun tc => (length (answersTo (tc_id tc) conv) =? 1)%nat) (requestsIn conv).

(** *** Reading an input line *)

(** All the ways of writing a word in upper and lower case letters. *)
Fixpoint casings (s : string) : list string :=
  match s with
  | EmptyString => [EmptyString]
  | String c r =>
      flat_map (fun t => [String (lowerChar c) t; String (upperChar c) t]) (casings r)
  end.





End Client.

(* ===================================================================== *)
(** ** The weather server *)
(* ===================================================================== *)

Module Weather.

Definition NWS_API_BASE : string := "https://api.weather.gov".
Definition USER_AGENT : string := "weather-app/1.0".

(** *** Data *)

(** What [fetch] resolves to: the status, the header lookup and what
    [response.json()] gives. *)
Record Response : Type := mkResponse {
  status : Z;
  headers_get : string -> option string;
  json : Thrown + Json
}.

(** [response.ok]: the status is in the range 200-299. *)
Definition ok (r : Response) : bool := (200 <=? status r)%Z && (status r <=? 299)%Z.

Record AlertProperties : Type := mkAlertProperties {
  event : option string;
  areaDesc : option string;
  severity : option string;
  alert_status : option string;
  headline : option string;
  sent : option Z
}.

Record AlertFeature : Type := mkAlertFeature { properties : AlertProperties }.

Record AlertsResponse : Type := mkAlerts { features : option (list AlertFeature) }.

(** [pointsData.properties?.forecast] *)
Record PointsResponse : Type := mkPoints { points_forecast : option string }.

Record ForecastPeriod : Type := mkPeriod {
  period_name : option string;
  temperature : option Q;
  temperatureUnit : option string;
  windSpeed : option string;
  windDirection : option string;
  shortForecast : option string
}.

(** [forecastData.properties?.periods] *)
Record ForecastResponse : Type := mkForecast { periods : option (list ForecastPeriod) }.

(** One element of the [content] a tool returns, and the whole result. *)
Record TextContent : Type := mkText { text_type : string; text : string }.

Definition ToolResponse : Type := list TextContent.

(** [{ content: [{ type: "text", text }] }] *)
Definition textResponse (t : string) : ToolResponse := [mkText "text" t].

Record AlertsArgs : Type := mkAlertsArgs { state : string }.

(** Numbers of the tool arguments are the rationals they denote. *)
Record ForecastArgs : Type := mkForecastArgs { latitude : Q; longitude : Q }.

Inductive Level : Type := DEBUG | INFO | WARN | ERROR.

Inductive Event : Type :=
| Log (level : Level) (msg : string)
| LogError (msg : string) (error : Thrown)
| SetTimeout (ms : option Z)
| Fetch (url : string) (headers : list (string * string)).

(** [SetTimeout ms] is a timer set with the delay [ms] (NaN is [None])
    and awaited; [Fetch] is one HTTP request. *)

(** The environment of the server: the HTTP upstream behind [fetch],
    the clock, the rendering of dates and numbers, and the reading of a
    parsed body at the type the caller asserts ([data as T]). *)
Record Runtime : Type := mkRuntime {
  World : Type;
  fetch : string -> list (string * string) -> World -> (Thrown + Response) * World;
  Date_now : World -> Z;
  toLocaleString : Z -> string;
  numberText : Q -> string;
  toFixed4 : Q -> string;
  asAlertsResponse : Json -> AlertsResponse;
  asPointsResponse : Json -> PointsResponse;
  asForecastResponse : Json -> ForecastResponse
}.

Record State (R : Runtime) : Type := mkState {
  world : World R;
  trace : list Event
}.

Arguments mkState {R} _ _.
Arguments world {R} _.
Arguments trace {R} _.

(** [!data] on a parsed body. *)
Definition falsy (j : Json) : bool :=
  match j with
  | JNull => true
  | JBool b => negb b
  | JNum n => (n =? 0)%Z
  | JStr s => s =? ""
  | _ => false
  end.

Definition showZ (z : Z) : string := NilEmpty.string_of_int (Z.to_int z).

(** Programs over the store. *)
Definition Prog (R : Runtime) (A : Type) : Type := M (State R) A.

Section Operations.

Variable R : Runtime.

Definition emit (e : Event) : Prog R unit :=
  fun s => (Return tt, mkState (world s) (trace s ++ [e])%list).

Definition logger_debug (msg : string) : Prog R unit := emit (Log DEBUG msg).
Definition logger_info (msg : string) : Prog R unit := emit (Log INFO msg).
Definition logger_warn (msg : string) : Prog R unit := emit (Log WARN msg).
Definition logger_error (msg : string) (error : Thrown) : Prog R unit :=
  emit (LogError msg error).

(** [await new Promise(resolve => setTimeout(resolve, ms))] *)
Definition sleep (ms : option Z) : Prog R unit := emit (SetTimeout ms).

Definition getWorld : Prog R (World R) := fun s => (Return (world s), s).

(** [await fetch(url, { headers })] *)
Definition doFetch (url : string) (headers : list (string * string)) : Prog R Response :=
  fun s =>
    let (r, w) := fetch R url headers (world s) in
    let s' := mkState w (trace s ++ [Fetch url headers])%list in
    match r with
    | inl e => (Throw e, s')
    | inr resp => (Return resp, s')
    end.

(** *** [makeNWSRequest] *)

Definition requestHeaders : list (string * string) :=
  [("User-Agent", USER_AGENT); ("Accept", "application/geo+json")].

(** [response.headers.get('Retry-After') || '5'] *)
Definition retryAfterOf (response : Response) : string :=
  orElse (headers_get response "Retry-After") "5".

(** [parseInt(retryAfter) * 1000]; [None] is NaN. *)
Definition retryDelay (retryAfter : string) : option Z :=
  option_map (fun n => n * 1000)%Z (parseInt retryAfter).

Definition httpError (response : Response) (url : string) : Thrown :=
  ErrorObject "Error"
    ("HTTP错误！状态码: " ++ showZ (status response) ++ ", URL: " ++ url).

(** The helper calls itself after a 429 without any limit; [fuel]
    bounds the unrolling, and a call that exhausts it is [Pending].
    [null] is [JNull]. *)
Fixpoint makeNWSRequest (fuel : nat) (url : string) : Prog R Json :=
  match fuel with
  | O => pending
  | S fuel' =>
      tryCatch
        (logger_debug ("发起请求: " ++ url) ;;
         sleep (Some 500%Z) ;;
         response <- doFetch url requestHeaders ;;
         if (status response =? 429)%Z then
           let retryAfter := retryAfterOf response in
           logger_warn ("请求速率受限，将在" ++ retryAfter ++ "秒后重试: " ++ url) ;;
           sleep (retryDelay retryAfter) ;;
           makeNWSRequest fuel' url
         else if negb (ok response) then
           throw (httpError response url)
         else
           data <- liftSum (json response) ;;
           logger_debug ("请求成功: " ++ url) ;;
           ret data)
        (fun error =>
           logger_error ("请求NWS API时发生错误: " ++ url) error ;;
           ret JNull)
  end.

(** *** [formatAlert] *)

(** [new Date(props.sent || Date.now()).toLocaleString()] *)
Definition sentText (w : World R) (props : AlertProperties) : string :=
  toLocaleString R
    (match sent props with
     | Some t => if (t =? 0)%Z then Date_now R w else t
     | None => Date_now R w
     end).

Definition formatAlert (w : World R) (feature : AlertFeature) : string :=
  let props := properties feature in
  join LF
    [ "发布时间: " ++ sentText w props;
      "Event: " ++ orElse (event props) "Unknown";
      "Area: " ++ orElse (areaDesc props) "Unknown";
      "Severity: " ++ orElse (severity props) "Unknown";
      "Status: " ++ orElse (alert_status props) "Unknown";
      "Headline: " ++ orElse (headline props) "No headline";
      "---" ].

(** *** [withErrorHandling] *)

Definition handlerErrorText (error : Thrown) : string :=
  "执行工具时发生错误: " ++ describe error.

Definition withErrorHandling {A : Type} (toolName : string)
           (handler : A -> Prog R ToolResponse) (args : A) : Prog R ToolResponse :=
  tryCatch
    (logger_debug ("执行工具: " ++ toolName ++ ", 参数:") ;;
     result <- handler args ;;
     logger_debug ("工具执行成功: " ++ toolName) ;;
     ret result)
    (fun error =>
       logger_error ("工具执行失败: " ++ toolName) error ;;
       ret (textResponse (handlerErrorText error))).

(** *** The handler of [get-alerts] *)

Definition alertsUrlOf (stateCode : string) : string :=
  NWS_API_BASE ++ "/alerts?area=" ++ stateCode.

Definition getAlertsHandler (fuel : nat) (args : AlertsArgs) : Prog R ToolResponse :=
  let stateCode := toUpperCase (state args) in
  logger_info ("获取州/省的天气警报: " ++ stateCode) ;;
  let alertsUrl := alertsUrlOf stateCode in
  alertsData <- makeNWSRequest fuel alertsUrl ;;
  if falsy alertsData then
    logger_warn ("无法获取" ++ stateCode ++ "的警报数据") ;;
    ret (textResponse "Failed to retrieve alerts data")
  else
    let feats := match features (asAlertsResponse R alertsData) with
                 | Some l => l
                 | None => []
                 end in
    if (length feats =? 0)%nat then
      logger_info (stateCode ++ "没有活动警报") ;;
      ret (textResponse ("No active alerts for " ++ stateCode))
    else
      logger_info (stateCode ++ "找到" ++ showNat (length feats) ++ "个活动警报") ;;
      w <- getWorld ;;
      let formattedAlerts := map (formatAlert w) feats in
      let alertsText := "Active alerts for " ++ stateCode ++ ":" ++ LF ++ LF
                          ++ join LF formattedAlerts in
      ret (textResponse alertsText).

(** *** The handler of [get-forecast] *)

(** [(${latitude}, ${longitude})] *)
Definition coordText (args : ForecastArgs) : string :=
  "(" ++ numberText R (latitude args) ++ ", " ++ numberText R (longitude args) ++ ")".

Definition pointsUrlOf (args : ForecastArgs) : string :=
  NWS_API_BASE ++ "/points/" ++ toFixed4 R (latitude args) ++ ","
    ++ toFixed4 R (longitude args).

(** [period.temperature || "未知"] inside a template. *)
Definition temperatureText (t : option Q) : string :=
  match t with
  | Some q => if Qeq_bool q 0 then "未知" else numberText R q
  | None => "未知"
  end.

Definition formatPeriod (period : ForecastPeriod) : string :=
  join LF
    [ orElse (period_name period) "未知" ++ ":";
      "温度: " ++ temperatureText (temperature period) ++ "°"
        ++ orElse (temperatureUnit period) "F";
      "风速: " ++ orElse (windSpeed period) "未知" ++ " "
        ++ orElse (windDirection period) "";
      orElse (shortForecast period) "无可用预报";
      "---" ].

Definition noPointsText (args : ForecastArgs) : string :=
  "无法获取坐标" ++ coordText args
    ++ "的网格点数据。该位置可能不受NWS API支持（仅支持美国地区）。".

Definition getForecastHandler (fuel : nat) (args : ForecastArgs) : Prog R ToolResponse :=
  logger_info ("获取位置天气预报: " ++ coordText args) ;;
  let pointsUrl := pointsUrlOf args in
  pointsData <- makeNWSRequest fuel pointsUrl ;;
  if falsy pointsData then
    logger_warn ("无法获取坐标" ++ coordText args ++ "的网格点数据") ;;
    ret (textResponse (noPointsText args))
  else
    let forecastUrl := points_forecast (asPointsResponse R pointsData) in
    if negb (truthy forecastUrl) then
      logger_warn ("无法从网格点数据中获取天气预报URL: " ++ coordText args) ;;
      ret (textResponse "无法从网格点数据中获取天气预报URL")
    else
      forecastData <- makeNWSRequest fuel (orElse forecastUrl "") ;;
      if falsy forecastData then
        logger_warn ("无法获取天气预报数据: " ++ orElse forecastUrl "") ;;
        ret (textResponse "无法获取天气预报数据")
      else
        let ps := match periods (asForecastResponse R forecastData) with
                  | Some l => l
                  | None => []
                  end in
        if (length ps =? 0)%nat then
          logger_warn ("没有可用的天气预报周期数据: " ++ coordText args) ;;
          ret (textResponse "没有可用的天气预报周期数据")
        else
          logger_debug ("找到" ++ showNat (length ps) ++ "个预报周期: " ++ coordText args) ;;
          let formattedForecast := map formatPeriod ps in
          let forecastText := "位置" ++ coordText args ++ "的天气预报:" ++ LF ++ LF
                                ++ join LF formattedForecast in
          logger_info ("成功获取天气预报: " ++ coordText args) ;;
          ret (textResponse forecastText).

(** *** The registered tools *)

(** A tool as [server.tool(name, description, schema, callback)]
    registers it: the check of the input schema and the callback. *)
Record Tool (A : Type) : Type := mkToolReg {
  toolName : string;
  description : string;
  inputSchema : A -> bool;
  callback : A -> Prog R ToolResponse
}.

Arguments mkToolReg {A} _ _ _ _.
Arguments toolName {A} _.
Arguments description {A} _.
Arguments inputSchema {A} _.
Arguments callback {A} _.

(** Modelled from the spec: the range check of the schema
    [z.number().min(lo).max(hi)], made by the validation library, which
    is not part of the sources; both bounds are inclusive. *)
Definition numberMinMax (lo hi x : Q) : bool := Qle_bool lo x && Qle_bool x hi.

(** Modelled from the spec: the check of the schema
    [z.string().length(n)], likewise. *)
Definition stringLength (n : nat) (s : string) : bool := (String.length s =? n)%nat.

Definition LAT_MIN : Q := 24396308 # 1000000.
Definition LAT_MAX : Q := 49384358 # 1000000.
Definition LON_MIN : Q := (-124848974) # 1000000.
Definition LON_MAX : Q := (-66885444) # 1000000.

Definition getAlertsTool (fuel : nat) : Tool AlertsArgs :=
  mkToolReg "get-alerts" "Get weather alerts for a state"
            (fun args => stringLength 2 (state args))
            (withErrorHandling "get-alerts" (getAlertsHandler fuel)).

Definition getForecastTool (fuel : nat) : Tool ForecastArgs :=
  mkToolReg "get-forecast" "获取指定位置的天气预报"
            (fun args => numberMinMax LAT_MIN LAT_MAX (latitude args)
                         && numberMinMax LON_MIN LON_MAX (longitude args))
            (withErrorHandling "get-forecast" (getForecastHandler fuel)).

(** The answer to a [tools/call] request. *)
Inductive CallOutcome : Type :=
| InvalidParams
| Handled (r : ToolResponse).

(** Modelled from the spec: the request dispatcher of the MCP server
    SDK, which is not part of the sources.  The arguments are checked
    against the input schema of the tool before the handler runs; a
    call that fails the check is rejected and the handler is not
    run. *)
Definition dispatch {A : Type} (t : Tool A) (args : A) : Prog R CallOutcome :=
  if inputSchema t args then
    r <- callback t args ;;
    ret (Handled r)
  else ret InvalidParams.

End Operations.

Arguments mkToolReg {R A} _ _ _ _.
Arguments toolName {R A} _.
Arguments description {R A} _.
Arguments inputSchema {R A} _.
Arguments callback {R A} _.

(** *** Reading a trace *)

(** The URLs requested, in order. *)
Fixpoint fetched (t : list Event) : list string :=
  match t with
  | [] => []
  | Fetch url _ :: rest => url :: fetched rest
  | _ :: rest => fetched rest
  end.



(** The timers and the requests, in order, without the logger calls. *)
Definition isLog (e : Event) : bool :=
  match e with
  | Log _ _ | LogError _ _ => true
  | _ => false
  end.

Definition network (t : list Event) : list Event := filter (fun e => negb (isLog e)) t.


End Weather.

(* ===================================================================== *)
(** ** Concrete environments *)
(* ===================================================================== *)

(** Small closed environments on which the programs run by computation. *)

Module ClientDemo.

Import Client.

Definition xIsOne : string := "{" ++ DQ ++ "x" ++ DQ ++ ":1}".

(** [JSON.parse] on the three texts used below: [{}], [{"x":1}] and
    the malformed [{bad]. *)
Definition parse (s : string) : Thrown + Json :=
  if s =? "{}" then inr emptyObject
  else if s =? xIsOne then inr (JObj [("x", JNum 1)])
  else inl (ErrorObject "SyntaxError" "Unexpected token b in JSON at position 1").

(** [JSON.stringify] on values without strings that need escaping. *)
Fixpoint stringify (j : Json) : string :=
  match j with
  | JNull => "null"
  | JBool true => "true"
  | JBool false => "false"
  | JNum n => NilEmpty.string_of_int (Z.to_int n)
  | JStr s => DQ ++ s ++ DQ
  | JArr items => "[" ++ join "," (map stringify items) ++ "]"
  | JObj fields =>
      "{" ++ join "," (map (fun kv => DQ ++ fst kv ++ DQ ++ ":" ++ stringify (snd kv)) fields)
          ++ "}"
  end.

(** A provider that gives one answer to the call that carries the tool
    catalog and another to every follow-up call, and an MCP server
    whose answer depends on the tool name only. *)
Record Script : Type := mkScript {
  firstAnswer : Thrown + ChatResponse;
  followUpAnswer : Thrown + ChatResponse;
  toolAnswer : string -> Thrown + ToolResult
}.

Definition runtime (sc : Script) : Runtime :=
  mkRuntime unit parse stringify stringify
    (fun req w =>
       (match req_tools req with
        | Some _ => firstAnswer sc
        | None => followUpAnswer sc
        end, w))
    (fun toolName _ w => (toolAnswer sc toolName, w)).

Definition start (sc : Script) : State (runtime sc) :=
  @mkState (runtime sc) tt [] [] [] [] [].

Definition call (id toolName args : string) : ToolCall :=
  mkToolCall id "function" (mkFunctionCall toolName (Some args)).

Definition assistant (text : option string) (calls : option (list ToolCall))
  : ChatCompletionMessage :=
  mkMessage "assistant" text None None calls.

Definition answer (m : ChatCompletionMessage) : Thrown + ChatResponse :=
  inr (mkResponse (Some [mkChoice m])).

Definition textResult (t : string) : Thrown + ToolResult :=
  inr (mkToolResult (ContentArray [mkItem "text" (Some t)])).

Definition echoServer (toolName : string) : Thrown + ToolResult :=
  textResult ("ran " ++ toolName).

Definition brokenServer (toolName : string) : Thrown + ToolResult :=
  inl (ErrorObject "Error" "tool crashed").

(** The model answers "hello" and asks for no tool. *)
Definition helloScript : Script :=
  mkScript (answer (assistant (Some "hello") None)) (answer (assistant (Some "done") None))
           echoServer.

(** The model asks for one tool, with well-formed arguments. *)
Definition oneCall : ChatCompletionMessage :=
  assistant None (Some [call "call_1" "echo" xIsOne]).

Definition oneCallScript : Script :=
  mkScript (answer oneCall) (answer (assistant (Some "done") None)) echoServer.

Definition oneCallBrokenScript : Script :=
  mkScript (answer oneCall) (answer (assistant (Some "done") None)) brokenServer.

Definition oneCallNoFollowUpScript : Script :=
  mkScript (answer oneCall) (inl (ErrorObject "Error" "provider down")) echoServer.

(** The model asks for two tools, both with well-formed arguments. *)
Definition twoCalls : ChatCompletionMessage :=
  assistant None (Some [call "call_1" "echo" "{}"; call "call_2" "date" "{}"]).

Definition twoCallsScript : Script :=
  mkScript (answer twoCalls) (answer (assistant (Some "done") None)) echoServer.

(** The model asks for two tools; the arguments of the first are not
    JSON. *)
Definition badThenGood : ChatCompletionMessage :=
  assistant None (Some [call "call_1" "echo" "{bad"; call "call_2" "date" "{}"]).

Definition badThenGoodScript : Script :=
  mkScript (answer badThenGood) (answer (assistant (Some "done") None)) echoServer.

End ClientDemo.

Module WeatherDemo.

Import Weather.

(** Numbers are rendered as fractions. *)
Definition fraction (q : Q) : string := showZ (Qnum q) ++ "/" ++ showZ (Zpos (Qden q)).

(** An upstream that answers the [n]-th request (counted from 0) as
    [upstream n url] says; the clock stands at 0, dates are rendered
    by their number, and parsed bodies carry no optional field. *)
Definition runtime (upstream : nat -> string -> Thrown + Response) : Runtime :=
  mkRuntime nat
    (fun url _ n => (upstream n url, S n))
    (fun _ => 0%Z)
    showZ
    fraction
    fraction
    (fun _ => mkAlerts None)
    (fun _ => mkPoints None)
    (fun _ => mkForecast None).

Definition start (upstream : nat -> string -> Thrown + Response)
  : State (runtime upstream) :=
  @mkState (runtime upstream) O [].

Definition tooManyRequests (retryAfter : option string) : Response :=
  mkResponse 429
    (fun h => if h =? "Retry-After" then retryAfter else None)
    (inl (ErrorObject "SyntaxError" "Unexpected end of JSON input")).

Definition success (body : Json) : Response :=
  mkResponse 200 (fun _ => None) (inr body).

Definition notFound : Response :=
  mkResponse 404 (fun _ => None)
    (inl (ErrorObject "SyntaxError" "Unexpected end of JSON input")).

Definition someBody : Json := JObj [("type", JStr "FeatureCollection")].

Definition alertsCA : string := "https://api.weather.gov/alerts?area=CA".


(** Every request is answered 404. *)
Definition alwaysNotFound (n : nat) (url : string) : Thrown + Response :=
  inr notFound.

End WeatherDemo.

(* ===================================================================== *)
(** ** Ways of speaking about a program over a store *)
(* ===================================================================== *)

Module Laws.

(** The program never stays unfinished. *)
Definition Settles {S A : Type} (p : M S A) : Prop :=
  forall s, fst (p s) <> Pending.

(** The program always returns a value: it neither throws nor stays
    unfinished. *)
Definition Returns {S A : Type} (p : M S A) : Prop :=
  forall s, exists a s', p s = (Return a, s').

(** Whatever the outcome, the store the program leaves is related by
    [P] to the store it started from. *)
Definition Keeps {S A : Type} (P : S -> S -> Prop) (p : M S A) : Prop :=
  forall s, P s (snd (p s)).

End Laws.

(* ===================================================================== *)
(** ** More of the client: what a query and the loop keep *)
(* ===================================================================== *)

Module ClientMore.

Import Client.

(** [l2] continues [l1]: arrays are only pushed to. *)
Definition extends {A : Type} (l1 l2 : list A) : Prop :=
  exists rest, l2 = (l1 ++ rest)%list.

(** The shape of a follow-up request: the fixed model and token budget,
    and no tool catalog. *)
Definition isFollowUp (req : ChatRequest) : Prop :=
  req_model req = "deepseek-chat" /\ req_max_tokens req = 1000%Z /\ req_tools req = None.

(** What the loop over the tool calls does to the store between [s]
    and [s']: the catalog is kept, the conversation and the output
    buffer are continued, and the model is only sent follow-up requests,
    each on a conversation that continues the one of [s] and is continued
    by the one of [s']. *)
Record Progress (R : Runtime) (s s' : State R) : Prop := mkProgress {
  keeps_tools : tools s' = tools s;
  grows_messages : extends (messages s) (messages s');
  grows_output : extends (finalText s) (finalText s');
  only_followUps :
    exists new,
      modelCalls (trace s') = (modelCalls (trace s) ++ new)%list
      /\ Forall (fun req => isFollowUp req
                            /\ extends (messages s) (req_messages req)
                            /\ extends (req_messages req) (messages s'))
                new
}.

(** The invocations a batch of tool calls asks for: one for each call
    of type [function] whose arguments parse, in the order of the batch. *)
Definition planned (R : Runtime) (calls : list ToolCall) : list (string * Json) :=
  flat_map
    (fun toolCall =>
       if tc_type toolCall =? "function" then
         match JSON_parse R (argumentsText toolCall) with
         | inr toolArgs => [(calledName toolCall, toolArgs)]
         | inl _ => []
         end
       else [])
    calls.

(** The tool calls a response asks for: those of its first choice. *)
Definition requested (response : ChatResponse) : list ToolCall :=
  match firstChoice response with
  | Some choice =>
      match tool_calls (message choice) with
      | Some calls => calls
      | None => []
      end
  | None => []
  end.

(** The arguments of a call of type [function] are JSON. *)
Definition wellFormed (R : Runtime) (toolCall : ToolCall) : bool :=
  negb (tc_type toolCall =? "function")
  || match JSON_parse R (argumentsText toolCall) with
     | inr _ => true
     | inl _ => false
     end.

(** The events a query may cause: logger calls, model calls and tool
    invocations; nothing is printed, asked or changed in the process
    environment. *)
Definition isQueryEvent (e : Event) : bool :=
  match e with
  | Log _ _ | LogError _ _ | ModelCall _ | McpCallTool _ _ => true
  | _ => false
  end.

(** From [s] to [s'] the catalog was kept and only events of a query
    were added to the trace. *)
Definition Quietly (R : Runtime) (s s' : State R) : Prop :=
  tools s' = tools s
  /\ exists evs, trace s' = (trace s ++ evs)%list /\ forallb isQueryEvent evs = true.

(** From [s] to [s'] the catalog was kept and the trace continued. *)
Definition Onward (R : Runtime) (s s' : State R) : Prop :=
  tools s' = tools s /\ extends (trace s) (trace s').

(** The tests [chatLoop] makes on a line, in its order. *)
Definition isQuit (line : string) : bool := toLowerCase line =? "quit".
Definition isDebug (line : string) : bool := toLowerCase line =? "debug".
Definition isInfo (line : string) : bool := toLowerCase line =? "info".
Definition isDirect (line : string) : bool := startsWith line "tool:".

(** One turn of [chatLoop] on a line that starts with [tool:]: the
    inner [try] of the loop. *)
Definition directTurn (R : Runtime) (message : string) : Prog R unit :=
  tryCatch
    (let toolParts := toolPartsOf message in
     let toolName := hd "" toolParts in
     args <- directArgs R toolParts ;;
     response <- directToolCall R toolName args ;;
     console_log R (LF ++ response))
    (fun error =>
       logger_error R "直接工具调用失败" error ;;
       console_log R (LF ++ "直接工具调用失败: " ++ describe error)).

(** One turn of [chatLoop] on any other line: the last [try] of the
    loop. *)
Definition queryTurn (R : Runtime) (message : string) : Prog R unit :=
  tryCatch
    (logger_info R "开始处理查询..." ;;
     response <- processQuery R message ;;
     logger_info R "查询处理完成" ;;
     console_log R (LF ++ response))
    (fun error =>
       logger_error R "处理消息时发生错误" error ;;
       console_log R (LF ++ "处理消息时发生错误: " ++ describe error)).

End ClientMore.

(* ===================================================================== *)
(** ** More of the weather server: how requests are paced *)
(* ===================================================================== *)

Module WeatherMore.

Import Weather.

(** The timers and requests of one call of [makeNWSRequest] for [url]:
    each request goes to [url] with the two fixed headers and comes
    right after a timer of 500 ms, and between two requests there is
    exactly one more timer, the delay of the retry. *)
Inductive Paced (url : string) : list Event -> Prop :=
| Paced_none : Paced url []
| Paced_last : Paced url [SetTimeout (Some 500%Z); Fetch url requestHeaders]
| Paced_retry (delay : option Z) (rest : list Event) :
    Paced url rest ->
    Paced url (SetTimeout (Some 500%Z) :: Fetch url requestHeaders
                 :: SetTimeout delay :: rest).

(** The upstream answers every request for [url] with 429 in every
    world it can reach from one that satisfies [Inv]. *)
Definition alwaysRateLimited (R : Runtime) (url : string) (Inv : World R -> Prop) : Prop :=
  forall w, Inv w ->
    exists r w1,
      fetch R url requestHeaders w = (inr r, w1) /\ status r = 429%Z /\ Inv w1.

End WeatherMore.

(* ===================================================================== *)
(** ** The client: connecting, cleaning up, [main] *)
(* ===================================================================== *)

Module Startup.

(** *** Data *)

(** [enum ConnectionMode] *)
Inductive ConnectionMode : Type := LOCAL_SCRIPT | WEBSOCKET | SSE.

Definition modeText (mode : ConnectionMode) : string :=
  match mode with
  | LOCAL_SCRIPT => "local_script"
  | WEBSOCKET => "websocket"
  | SSE => "sse"
  end.

(** The three transports of the SDK, each with what it is constructed
    from; a URL object is kept as the text it was parsed from. *)
Inductive Transport : Type :=
| StdioClientTransport (command : string) (args : list string)
| WebSocketClientTransport (url : string)
| SSEClientTransport (url : string).

(** One element of [toolsResult.tools]. *)
Record McpTool : Type := mkMcpTool {
  mcp_name : string;
  mcp_description : option string;
  mcp_inputSchema : Json
}.

(** What the client does besides what [Client.Event] records: the calls
    to the MCP client of the SDK and the end of the process. *)
Inductive Event : Type :=
| InClient (e : Client.Event)
| McpConnect (transport : Transport)
| McpListTools
| McpClose
| ProcessExit (code : Z).

(** The environment of the whole program: that of the queries, and
    with it the constructors of the two SDK clients, [new URL], the
    platform, the path of the Node executable, the variable
    [MCP_SERVER_URL] as read when the module is loaded, and the MCP
    client.  [mcp.connect] is called without [await]: it changes the
    world and its outcome is never looked at. *)
Record Env : Type := mkEnv {
  base : Client.Runtime;
  newClients : Thrown + unit;
  newURL : string -> Thrown + string;
  process_platform : string;
  process_execPath : string;
  MCP_SERVER_URL : string;
  mcp_connect : Transport -> Client.World base -> Client.World base;
  mcp_listTools : Client.World base -> (Thrown + list McpTool) * Client.World base;
  mcp_close : Client.World base -> (Thrown + unit) * Client.World base
}.

(** The store: the world, the trace, and the fields [this.tools] and
    [this.transport] of the client object. *)
Record State (E : Env) : Type := mkState {
  world : Client.World (base E);
  trace : list Event;
  tools : list Client.ChatCompletionTool;
  transport : option Transport
}.

Arguments mkState {E} _ _ _ _.
Arguments world {E} _.
Arguments trace {E} _.
Arguments tools {E} _.
Arguments transport {E} _.

Definition Prog (E : Env) (A : Type) : Type := M (State E) A.

(** [s.endsWith(suffix)] *)
Definition endsWith (s suffix : string) : bool :=
  (String.length suffix <=? String.length s)%nat
  && (substringFrom (String.length s - String.length suffix) s =? suffix).

Section Operations.

Variable E : Env.

Definition emit (e : Event) : Prog E unit :=
  fun s => (Return tt, mkState (world s) (trace s ++ [e])%list (tools s) (transport s)).

(** A method of the client that works on the world and the catalog
    only, run in this store: its events are added to the trace in
    their order, and the arrays of a query start empty. *)
Definition lift {A : Type} (p : Client.Prog (base E) A) : Prog E A :=
  fun s =>
    let (r, c) := p (Client.mkState (world s) [] (tools s) [] [] []) in
    (r, mkState (Client.world c) (trace s ++ map InClient (Client.trace c))%list
                (Client.tools c) (transport s)).

Definition logger_debug (msg : string) : Prog E unit :=
  emit (InClient (Client.Log Client.DEBUG msg)).
Definition logger_info (msg : string) : Prog E unit :=
  emit (InClient (Client.Log Client.INFO msg)).
Definition logger_error (msg : string) (error : Thrown) : Prog E unit :=
  emit (InClient (Client.LogError msg error)).
Definition console_log (line : string) : Prog E unit :=
  emit (InClient (Client.ConsoleLog line)).

Definition getTransport : Prog E (option Transport) := fun s => (Return (transport s), s).

Definition setTransport (t : Transport) : Prog E unit :=
  fun s => (Return tt, mkState (world s) (trace s) (tools s) (Some t)).

Definition setTools (catalog : list Client.ChatCompletionTool) : Prog E unit :=
  fun s => (Return tt, mkState (world s) (trace s) catalog (transport s)).

(** [this.mcp.connect(this.transport)], not awaited. *)
Definition connect (t : Transport) : Prog E unit :=
  fun s =>
    (Return tt,
     mkState (mcp_connect E t (world s)) (trace s ++ [McpConnect t])%list
             (tools s) (transport s)).

(** [await this.mcp.listTools()] *)
Definition listTools : Prog E (list McpTool) :=
  fun s =>
    let (r, w) := mcp_listTools E (world s) in
    let s' := mkState w (trace s ++ [McpListTools])%list (tools s) (transport s) in
    match r with
    | inl e => (Throw e, s')
    | inr listed => (Return listed, s')
    end.

(** [await this.mcp.close()] *)
Definition close : Prog E unit :=
  fun s =>
    let (r, w) := mcp_close E (world s) in
    let s' := mkState w (trace s ++ [McpClose])%list (tools s) (transport s) in
    match r with
    | inl e => (Throw e, s')
    | inr _ => (Return tt, s')
    end.

(** [process.exit(code)]: the process ends there, and nothing that
    follows is run. *)
Definition process_exit {A : Type} (code : Z) : Prog E A :=
  emit (ProcessExit code) ;; pending.

(** *** The constructor *)

Definition constructor : Prog E unit :=
  tryCatch
    (logger_info "初始化OpenAI和MCP客户端" ;;
     liftSum (newClients E) ;;
     logger_info "客户端初始化成功")
    (fun error =>
       logger_error "初始化客户端失败" error ;;
       throw error).

(** *** [connectToRemoteServer] and [connectToServer] *)

(** The entry of the catalog made from a listed tool. *)
Definition toChatTool (tool : McpTool) : Client.ChatCompletionTool :=
  Client.mkTool "function" (mcp_name tool) (mcp_description tool) (mcp_inputSchema tool).

Definition connectToRemoteServer (serverUrl : string) (mode : ConnectionMode)
  : Prog E unit :=
  tryCatch
    (logger_info ("尝试连接到远程服务器: " ++ serverUrl ++ "，模式: " ++ modeText mode) ;;
     url <- liftSum (newURL E serverUrl) ;;
     match mode with
     | WEBSOCKET =>
         logger_debug "创建WebSocket传输..." ;;
         setTransport (WebSocketClientTransport url)
     | SSE =>
         logger_debug "创建SSE传输..." ;;
         setTransport (SSEClientTransport url)
     | LOCAL_SCRIPT => ret tt
     end ;;
     current <- getTransport ;;
     match current with
     | None => throw (ErrorObject "Error" "无效的连接模式")
     | Some t =>
         logger_debug "连接到MCP服务器..." ;;
         connect t ;;
         logger_debug "获取可用工具列表..." ;;
         toolsResult <- listTools ;;
         setTools (map toChatTool toolsResult) ;;
         logger_info "已连接到线上服务器，可用工具："
     end)
    (fun error =>
       logger_error "连接MCP服务器失败" error ;;
       throw error).

(** The command that runs a server script. *)
Definition commandFor (isPy : bool) : string :=
  if isPy then
    if process_platform E =? "win32" then "python" else "python3"
  else process_execPath E.

Definition connectToServer (serverScriptPath : string) : Prog E unit :=
  tryCatch
    (logger_info ("尝试连接到本地服务器脚本: " ++ serverScriptPath) ;;
     let isJs := endsWith serverScriptPath ".js" in
     let isPy := endsWith serverScriptPath ".py" in
     (if negb isJs && negb isPy
      then throw (ErrorObject "Error" "Server script must be a .js or .py file")
      else ret tt) ;;
     let command := commandFor isPy in
     logger_debug ("使用命令: " ++ command ++ " 运行脚本") ;;
     let t := StdioClientTransport command [serverScriptPath] in
     setTransport t ;;
     logger_debug "连接到MCP服务器..." ;;
     connect t ;;
     logger_debug "获取可用工具列表..." ;;
     toolsResult <- listTools ;;
     logger_debug "工具列表原始数据:" ;;
     forOf toolsResult (fun tool => logger_debug ("处理工具: " ++ mcp_name tool)) ;;
     setTools (map toChatTool toolsResult) ;;
     logger_info "已连接到服务器，可用工具：" ;;
     logger_debug "工具详情:")
    (fun error =>
       logger_error "连接MCP服务器失败" error ;;
       throw error).

(** *** [cleanup] *)

Definition cleanup : Prog E unit :=
  tryCatch
    (logger_info "清理资源..." ;;
     close ;;
     logger_info "MCP客户端已关闭")
    (fun error => logger_error "清理资源时发生错误" error).

(** *** [main] *)

Definition usage : list string :=
  [ "用法:";
    "1. 本地脚本: node build/index.js <path_to_server_script>";
    "2. WebSocket服务器: node build/index.js --ws <server_url>";
    "3. SSE服务器: node build/index.js --sse <server_url>";
    "环境变量:";
    "- LOG_LEVEL: 设置日志级别 (debug, info, warn, error)" ].

(** [main], for the array [process.argv] and the lines the operator
    types. *)
Definition main (argv : list string) (input : list string) : Prog E unit :=
  constructor ;;
  tryFinally
    (tryCatch
       (if (length argv <? 3)%nat then
          forOf usage console_log ;;
          if negb (MCP_SERVER_URL E =? "") then
            logger_info ("检测到环境变量MCP_SERVER_URL: " ++ MCP_SERVER_URL E
                           ++ "，尝试连接...") ;;
            connectToRemoteServer (MCP_SERVER_URL E) WEBSOCKET ;;
            lift (Client.chatLoop (base E) input)
          else ret tt
        else
          let arg := nth 2 argv "" in
          (if (arg =? "--ws") || (arg =? "--websocket") then
             (if (length argv <? 4)%nat
              then throw (ErrorObject "Error" "缺少WebSocket服务器URL")
              else ret tt) ;;
             connectToRemoteServer (nth 3 argv "") WEBSOCKET
           else if arg =? "--sse" then
             (if (length argv <? 4)%nat
              then throw (ErrorObject "Error" "缺少SSE服务器URL")
              else ret tt) ;;
             connectToRemoteServer (nth 3 argv "") SSE
           else connectToServer arg) ;;
          lift (Client.chatLoop (base E) input))
       (fun error =>
          logger_error "程序运行时发生致命错误" error ;;
          process_exit 1))
    (cleanup ;;
     process_exit 0).

End Operations.

(** *** Reading a trace *)

(** The calls to the MCP client and the exits, without what the
    queries and the logger do. *)
Fixpoint sdkCalls (t : list Event) : list Event :=
  match t with
  | [] => []
  | InClient _ :: rest => sdkCalls rest
  | e :: rest => e :: sdkCalls rest
  end.

(** Neither a call of [mcp.close] nor an exit. *)
Definition isOpen (e : Event) : bool :=
  match e with
  | McpClose | ProcessExit _ => false
  | _ => true
  end.

(** From [s] to [s'] the trace was continued, without a call of
    [mcp.close] and without an exit. *)
Definition Running (E : Env) (s s' : State E) : Prop :=
  exists evs, trace s' = (trace s ++ evs)%list /\ forallb isOpen evs = true.

End Startup.

(* ===================================================================== *)
(** ** More concrete environments *)
(* ===================================================================== *)

Module ClientMoreDemo.

Import Client ClientDemo.

(** The provider cannot be reached. *)
Definition providerDownScript : Script :=
  mkScript (inl (ErrorObject "Error" "provider down"))
           (answer (assistant (Some "done") None)) echoServer.

(** The model returns no choice. *)
Definition silentScript : Script :=
  mkScript (inr (mkResponse (Some []))) (answer (assistant (Some "done") None)) echoServer.

End ClientMoreDemo.

Module WeatherMoreDemo.

Import Weather WeatherDemo.

(** As [WeatherDemo.runtime], with the three readings of a parsed body
    given. *)
Definition runtimeWith (upstream : nat -> string -> Thrown + Response)
           (alerts : AlertsResponse) (points : PointsResponse) (forecast : ForecastResponse)
  : Runtime :=
  mkRuntime nat
    (fun url _ n => (upstream n url, S n))
    (fun _ => 0%Z)
    showZ
    fraction
    fraction
    (fun _ => alerts)
    (fun _ => points)
    (fun _ => forecast).

Definition startWith (upstream : nat -> string -> Thrown + Response)
           (alerts : AlertsResponse) (points : PointsResponse) (forecast : ForecastResponse)
  : State (runtimeWith upstream alerts points forecast) :=
  @mkState (runtimeWith upstream alerts points forecast) O [].

(** Every request is answered 429, without [Retry-After]. *)
Definition alwaysThrottled (n : nat) (url : string) : Thrown + Response :=
  inr (tooManyRequests None).



(** The network is down. *)
Definition fetchFailed : Thrown := ErrorObject "TypeError" "fetch failed".

Definition unreachable (n : nat) (url : string) : Thrown + Response := inl fetchFailed.

(** Every request is answered 200, with the body [null]. *)
Definition alwaysNull (n : nat) (url : string) : Thrown + Response := inr (success JNull).

(** Every request is answered 200, with an object. *)
Definition alwaysOk (n : nat) (url : string) : Thrown + Response := inr (success someBody).

(** The first request is answered 200 and the others 404. *)
Definition okThenNotFound (n : nat) (url : string) : Thrown + Response :=
  match n with
  | O => inr (success someBody)
  | _ => inr notFound
  end.


Definition forecastOfTopeka : string :=
  "https://api.weather.gov/gridpoints/TOP/31,80/forecast".

Definition tonight : ForecastPeriod :=
  mkPeriod (Some "Tonight") (Some (52 # 1)) (Some "F") (Some "5 mph") (Some "NW")
           (Some "Clear").

Definition topeka : ForecastArgs := mkForecastArgs (39 # 1) (-95 # 1).

(** A handler that throws. *)
Definition failingHandler (R : Runtime) (args : unit) : Prog R ToolResponse :=
  throw (ErrorObject "Error" "boom").

End WeatherMoreDemo.

Module StartupDemo.

Import Startup.

(** A Linux machine without [MCP_SERVER_URL]; every URL is well
    formed, and the server lists one tool and closes without error. *)
Definition env : Env :=
  mkEnv (ClientDemo.runtime ClientDemo.helloScript)
        (inr tt)
        (fun serverUrl => inr serverUrl)
        "linux"
        "/usr/bin/node"
        ""
        (fun _ w => w)
        (fun w => (inr [mkMcpTool "echo" (Some "Echoes its input") emptyObject], w))
        (fun w => (inr tt, w)).

Definition start : State env := @mkState env tt [] [] None.

End StartupDemo.

(* ===================================================================== *)
(** ** Properties of the client *)
(* ===================================================================== *)

Module ClientFacts.

Import Client.

(** *** Reading a trace that was extended *)

Lemma modelCalls_app (t u : list Event) :
  modelCalls (t ++ u) = (modelCalls t ++ modelCalls u)%list.
Proof.
  induction t as [|e t IH]; simpl; [reflexivity|].
  destruct e; simpl; rewrite IH; reflexivity.
Qed.

Lemma toolCallsMade_app (t u : list Event) :
  toolCallsMade (t ++ u) = (toolCallsMade t ++ toolCallsMade u)%list.
Proof.
  induction t as [|e t IH]; simpl; [reflexivity|].
  destruct e; simpl; rewrite IH; reflexivity.
Qed.

Lemma printed_app (t u : list Event) :
  printed (t ++ u) = (printed t ++ printed u)%list.
Proof.
  induction t as [|e t IH]; simpl; [reflexivity|].
  destruct e; simpl; rewrite IH; reflexivity.
Qed.

Ltac readers :=
  cbn [trace messages finalText toolResults world tools];
  repeat rewrite <- List.app_assoc;
  rewrite ?modelCalls_app, ?toolCallsMade_app, ?printed_app;
  cbn [modelCalls toolCallsMade printed app];
  rewrite ?List.app_nil_r.

(** Unfolds the operations on the store down to the oracles. *)
(** Runs the operations on the store, by value, down to the oracles. *)
Ltac run :=
  cbv beta iota zeta delta
    [bind tryCatch logger_info logger_debug logger_warn logger_error
     console_log emit mcp_call openai_create pushFinalText pushMessage
     pushToolResult getMessages getTools getFinalText newMessages
     newFinalText newToolResults liftSum ret throw
     world trace messages finalText toolResults tools].

(** Opens a store into its components. *)
Ltac open_store s :=
  let w := fresh "w0" in
  let t := fresh "t0" in
  let c := fresh "catalog" in
  let ms := fresh "msgs" in
  let ft := fresh "out" in
  let tr := fresh "results" in
  destruct s as [w t c ms ft tr];
  cbn [world trace messages finalText toolResults tools] in *.

(** Closes a goal [exists s', run = (r, s') /\ facts about s']. *)
Ltac done_with_store :=
  eexists; split; [reflexivity|]; readers; repeat split; reflexivity.

(** *** One tool call *)

(** A payload that does not parse throws out of the loop body: the
    parse stands before the [try]. *)
Lemma handleToolCall_parse_failure
      (R : Runtime) (choice : Choice) (toolCall : ToolCall) (s : State R) (e : Thrown) :
  tc_type toolCall = "function" ->
  JSON_parse R (argumentsText toolCall) = inl e ->
  handleToolCall R choice toolCall s = (Throw e, s).
Proof.
  intros Hf Hp. unfold handleToolCall. rewrite Hf, String.eqb_refl.
  unfold bind at 1. rewrite Hp. reflexivity.
Qed.

(** [callTool] throws: the [catch] records the error line and the
    body ends normally, the conversation untouched. *)
Lemma handleToolCall_invocation_failure
      (R : Runtime) (choice : Choice) (toolCall : ToolCall) (toolArgs : Json)
      (s : State R) (e : Thrown) (w : World R) :
  tc_type toolCall = "function" ->
  JSON_parse R (argumentsText toolCall) = inr toolArgs ->
  mcp_callTool R (calledName toolCall) toolArgs (world s) = (inl e, w) ->
  exists s',
    handleToolCall R choice toolCall s = (Return tt, s')
    /\ world s' = w
    /\ tools s' = tools s
    /\ messages s' = messages s
    /\ finalText s' = (finalText s ++ [toolErrorLine (calledName toolCall) e])%list
    /\ toolCallsMade (trace s') =
         (toolCallsMade (trace s) ++ [(calledName toolCall, toolArgs)])%list
    /\ modelCalls (trace s') = modelCalls (trace s).
Proof.
  intros Hf Hp Hc. open_store s.
  unfold handleToolCall. rewrite Hf, String.eqb_refl.
  unfold bind at 1. rewrite Hp. run. rewrite Hc.
  done_with_store.
Qed.

(** [callTool] returns and the follow-up model call throws: the
    messages were pushed, and the [catch] records the error line. *)
Lemma handleToolCall_followUp_failure
      (R : Runtime) (choice : Choice) (toolCall : ToolCall) (toolArgs : Json)
      (s : State R) (result : ToolResult) (e : Thrown) (w1 w2 : World R) :
  tc_type toolCall = "function" ->
  JSON_parse R (argumentsText toolCall) = inr toolArgs ->
  mcp_callTool R (calledName toolCall) toolArgs (world s) = (inr result, w1) ->
  chat_completions_create R
    (mkRequest "deepseek-chat" 1000
       (messages s ++ [message choice; toolMessage R toolCall (calledName toolCall) result])
       None) w1 = (inl e, w2) ->
  exists s',
    handleToolCall R choice toolCall s = (Return tt, s')
    /\ world s' = w2
    /\ tools s' = tools s
    /\ messages s' =
         (messages s ++ [message choice; toolMessage R toolCall (calledName toolCall) result])%list
    /\ finalText s' =
         (finalText s ++ [toolCalledLine R (calledName toolCall) toolArgs;
                          toolErrorLine (calledName toolCall) e])%list
    /\ toolCallsMade (trace s') =
         (toolCallsMade (trace s) ++ [(calledName toolCall, toolArgs)])%list
    /\ modelCalls (trace s') =
         (modelCalls (trace s) ++ [mkRequest "deepseek-chat" 1000 (messages s') None])%list.
Proof.
  intros Hf Hp Hc Hm. open_store s.
  unfold handleToolCall. rewrite Hf, String.eqb_refl.
  unfold bind at 1. rewrite Hp. run. rewrite Hc.
  rewrite <- !List.app_assoc. cbn [app]. rewrite Hm.
  done_with_store.
Qed.

(** Both calls succeed. *)
Lemma handleToolCall_success
      (R : Runtime) (choice : Choice) (toolCall : ToolCall) (toolArgs : Json)
      (s : State R) (result : ToolResult) (r : ChatResponse) (w1 w2 : World R) :
  tc_type toolCall = "function" ->
  JSON_parse R (argumentsText toolCall) = inr toolArgs ->
  mcp_callTool R (calledName toolCall) toolArgs (world s) = (inr result, w1) ->
  chat_completions_create R
    (mkRequest "deepseek-chat" 1000
       (messages s ++ [message choice; toolMessage R toolCall (calledName toolCall) result])
       None) w1 = (inr r, w2) ->
  exists s',
    handleToolCall R choice toolCall s = (Return tt, s')
    /\ world s' = w2
    /\ tools s' = tools s
    /\ messages s' =
         (messages s ++ [message choice; toolMessage R toolCall (calledName toolCall) result])%list
    /\ finalText s' =
         (finalText s ++ toolCalledLine R (calledName toolCall) toolArgs :: followUpText r)%list
    /\ toolCallsMade (trace s') =
         (toolCallsMade (trace s) ++ [(calledName toolCall, toolArgs)])%list
    /\ modelCalls (trace s') =
         (modelCalls (trace s) ++ [mkRequest "deepseek-chat" 1000 (messages s') None])%list.
Proof.
  intros Hf Hp Hc Hm. open_store s.
  unfold handleToolCall. rewrite Hf, String.eqb_refl.
  unfold bind at 1. rewrite Hp. run. rewrite Hc.
  rewrite <- !List.app_assoc. cbn [app]. rewrite Hm.
  unfold followUpText.
  destruct (firstChoice r) as [first|]; [destruct (truthy (content (message first)))|];
    done_with_store.
Qed.

(** Whatever the follow-up call does, a call that was invoked with
    success ends normally, with the two messages pushed and the
    follow-up call made on the extended conversation. *)
Lemma handleToolCall_invoked
      (R : Runtime) (choice : Choice) (toolCall : ToolCall) (toolArgs : Json)
      (s : State R) (result : ToolResult) (w1 : World R) :
  tc_type toolCall = "function" ->
  JSON_parse R (argumentsText toolCall) = inr toolArgs ->
  mcp_callTool R (calledName toolCall) toolArgs (world s) = (inr result, w1) ->
  exists s',
    handleToolCall R choice toolCall s = (Return tt, s')
    /\ tools s' = tools s
    /\ messages s' =
         (messages s ++ [message choice; toolMessage R toolCall (calledName toolCall) result])%list
    /\ toolCallsMade (trace s') =
         (toolCallsMade (trace s) ++ [(calledName toolCall, toolArgs)])%list
    /\ modelCalls (trace s') =
         (modelCalls (trace s) ++ [mkRequest "deepseek-chat" 1000 (messages s') None])%list.
Proof.
  intros Hf Hp Hc.
  destruct (chat_completions_create R
              (mkRequest "deepseek-chat" 1000
                 (messages s ++ [message choice;
                                 toolMessage R toolCall (calledName toolCall) result])
                 None) w1) as [[e|r] w2] eqn:Hm.
  - destruct (handleToolCall_followUp_failure R choice toolCall toolArgs s result e w1 w2 Hf Hp Hc Hm)
      as (s' & H & _ & Ht & Hmsg & _ & Htc & Hmc).
    exists s'. repeat split; assumption.
  - destruct (handleToolCall_success R choice toolCall toolArgs s result r w1 w2 Hf Hp Hc Hm)
      as (s' & H & _ & Ht & Hmsg & _ & Htc & Hmc).
    exists s'. repeat split; assumption.
Qed.

(** *** The whole query *)

(** The store in which the loop over the tool calls starts. *)
Lemma processQuery_batch
      (R : Runtime) (query : string) (s : State R) (response : ChatResponse)
      (w : World R) (choice : Choice) (toolCall : ToolCall) (rest : list ToolCall) :
  chat_completions_create R
    (mkRequest "deepseek-chat" 1000 [userMessage query] (Some (tools s))) (world s)
    = (inr response, w) ->
  firstChoice response = Some choice ->
  tool_calls (message choice) = Some (toolCall :: rest) ->
  exists s1,
    world s1 = w
    /\ tools s1 = tools s
    /\ messages s1 = [userMessage query]
    /\ finalText s1 = (if truthy (content (message choice))
                       then [orElse (content (message choice)) ""] else [])
    /\ toolCallsMade (trace s1) = toolCallsMade (trace s)
    /\ modelCalls (trace s1) =
         (modelCalls (trace s)
            ++ [mkRequest "deepseek-chat" 1000 [userMessage query] (Some (tools s))])%list
    /\ processQuery R query s =
         match forOf (toolCall :: rest) (handleToolCall R choice) s1 with
         | (Return _, s2) =>
             (Return (join LF (finalText s2)),
              mkState (world s2) (trace s2 ++ [Log DEBUG "最终文本片段:"])
                      (tools s2) (messages s2) (finalText s2) (toolResults s2))
         | (Throw e, s2) =>
             (Return (queryErrorText e),
              mkState (world s2) (trace s2 ++ [LogError "处理查询时发生错误" e])
                      (tools s2) (messages s2) (finalText s2) (toolResults s2))
         | (Pending, s2) => (Pending, s2)
         end.
Proof.
  intros Hm Hfc Htc. open_store s.
  unfold processQuery. run. rewrite Hm. run. rewrite Hfc. run. rewrite Htc.
  destruct (truthy (content (message choice))); run;
    match goal with
    | |- context [forOf _ _ ?st] =>
        exists st; repeat split;
        [ .. | destruct (forOf (toolCall :: rest) (handleToolCall R choice) st)
                 as [[u|e|] s2]; reflexivity ]
    end;
    readers; reflexivity.
Qed.

(** *** The claims on the query orchestrator *)

(** C1, as the code behaves: the arguments of a tool call are parsed
    before the [try] that guards the call, so when the arguments of the
    first call of a batch are not JSON the exception leaves the loop
    and is caught by the [catch] around the whole query.  The query then
    returns the text of that [catch], which does not name the tool; no
    tool of the batch is invoked and no follow-up call is made. *)
Theorem unparsable_arguments_abort_the_query
        (R : Runtime) (query : string) (s : State R) (response : ChatResponse)
        (w : World R) (choice : Choice) (toolCall : ToolCall) (rest : list ToolCall)
        (e : Thrown) :
  chat_completions_create R
    (mkRequest "deepseek-chat" 1000 [userMessage query] (Some (tools s))) (world s)
    = (inr response, w) ->
  firstChoice response = Some choice ->
  tool_calls (message choice) = Some (toolCall :: rest) ->
  tc_type toolCall = "function" ->
  JSON_parse R (argumentsText toolCall) = inl e ->
  exists s',
    processQuery R query s = (Return ("处理查询时发生错误: " ++ describe e), s')
    /\ toolCallsMade (trace s') = toolCallsMade (trace s)
    /\ modelCalls (trace s') =
         (modelCalls (trace s)
            ++ [mkRequest "deepseek-chat" 1000 [userMessage query] (Some (tools s))])%list.
Proof.
  intros Hm Hfc Htc Hf Hp.
  destruct (processQuery_batch R query s response w choice toolCall rest Hm Hfc Htc)
    as (s1 & _ & _ & _ & _ & Hcalls & Hmodel & Hrun).
  rewrite Hrun. cbn [forOf]. unfold bind at 1.
  rewrite (handleToolCall_parse_failure R choice toolCall s1 e Hf Hp).
  eexists; split; [reflexivity|].
  readers. split; assumption.
Qed.

(** C2: in a batch of tool calls, when [callTool] throws for one call,
    or when it returns and the follow-up model call throws, the body of
    the loop ends normally for that call, the line
    [[错误] 工具 <name> 调用失败: <message>] naming the tool is the last one
    pushed to the output buffer, and the loop goes on with the calls
    that remain. *)
Theorem tool_failure_does_not_abort_the_batch
        (R : Runtime) (choice : Choice) (toolCall : ToolCall) (rest : list ToolCall)
        (toolArgs : Json) (s : State R) (e : Thrown) :
  tc_type toolCall = "function" ->
  JSON_parse R (argumentsText toolCall) = inr toolArgs ->
  ((exists w, mcp_callTool R (calledName toolCall) toolArgs (world s) = (inl e, w))
   \/ (exists result w1 w2,
         mcp_callTool R (calledName toolCall) toolArgs (world s) = (inr result, w1)
         /\ chat_completions_create R
              (mkRequest "deepseek-chat" 1000
                 (messages s ++ [message choice;
                                 toolMessage R toolCall (calledName toolCall) result])
                 None) w1 = (inl e, w2))) ->
  exists s' announced,
    handleToolCall R choice toolCall s = (Return tt, s')
    /\ forOf (toolCall :: rest) (handleToolCall R choice) s
       = forOf rest (handleToolCall R choice) s'
    /\ finalText s' =
         (finalText s ++ announced
            ++ [("[错误] 工具 " ++ calledName toolCall ++ " 调用失败: "
                   ++ describe e)%string])%list
    /\ (announced = [] \/ announced = [toolCalledLine R (calledName toolCall) toolArgs]).
Proof.
  intros Hf Hp [[w Hc] | (result & w1 & w2 & Hc & Hm)].
  - destruct (handleToolCall_invocation_failure R choice toolCall toolArgs s e w Hf Hp Hc)
      as (s' & H & _ & _ & _ & Hft & _).
    exists s', []. repeat split.
    + exact H.
    + cbn [forOf]. unfold bind. rewrite H. reflexivity.
    + exact Hft.
    + left; reflexivity.
  - destruct (handleToolCall_followUp_failure R choice toolCall toolArgs s result e w1 w2 Hf Hp Hc Hm)
      as (s' & H & _ & _ & _ & Hft & _).
    exists s', [toolCalledLine R (calledName toolCall) toolArgs]. repeat split.
    + exact H.
    + cbn [forOf]. unfold bind. rewrite H. reflexivity.
    + exact Hft.
    + right; reflexivity.
Qed.

(** C7: when [callTool] returns a result, the orchestrator pushes the
    message of the model and then a tool-role message that carries the
    id of the call, the name of the tool, and the content of the result
    flattened into one string: the texts of the elements joined by line
    feeds for an array, the string itself for a string,
    [JSON.stringify] of the content otherwise. *)
Theorem tool_result_is_flattened_into_a_tool_message
        (R : Runtime) (choice : Choice) (toolCall : ToolCall) (toolArgs : Json)
        (s : State R) (result : ToolResult) (w1 : World R) :
  tc_type toolCall = "function" ->
  JSON_parse R (argumentsText toolCall) = inr toolArgs ->
  mcp_callTool R (calledName toolCall) toolArgs (world s) = (inr result, w1) ->
  exists s',
    handleToolCall R choice toolCall s = (Return tt, s')
    /\ messages s' =
         (messages s
            ++ [ message choice;
                 mkMessage "tool"
                   (Some match result_content result with
                         | ContentArray items =>
                             join LF (map (fun item => orElse (item_text item) "") items)
                         | ContentString str => str
                         | ContentOther j => JSON_stringify R j
                         end)
                   (Some (tc_id toolCall))
                   (Some (fn_name (tc_function toolCall)))
                   None ])%list.
Proof.
  intros Hf Hp Hc.
  destruct (handleToolCall_invoked R choice toolCall toolArgs s result w1 Hf Hp Hc)
    as (s' & H & _ & Hmsg & _).
  exists s'. split; [exact H|].
  rewrite Hmsg. unfold toolMessage, flattenContent, calledName.
  destruct (result_content result); reflexivity.
Qed.

(** C4: when the first choice of the model response carries a text and
    no tool call, [processQuery] returns that text, unchanged; no tool
    is invoked and the model is called once. *)
Theorem text_only_response_is_returned_verbatim
        (R : Runtime) (query : string) (s : State R) (response : ChatResponse)
        (w : World R) (choice : Choice) (others : list Choice) (text : string) :
  chat_completions_create R
    (mkRequest "deepseek-chat" 1000 [userMessage query] (Some (tools s))) (world s)
    = (inr response, w) ->
  choices response = Some (choice :: others) ->
  content (message choice) = Some text ->
  (tool_calls (message choice) = None \/ tool_calls (message choice) = Some []) ->
  exists s',
    processQuery R query s = (Return text, s')
    /\ toolCallsMade (trace s') = toolCallsMade (trace s)
    /\ modelCalls (trace s') =
         (modelCalls (trace s)
            ++ [mkRequest "deepseek-chat" 1000 [userMessage query] (Some (tools s))])%list.
Proof.
  intros Hm Hch Hc Htc.
  assert (Hfc : firstChoice response = Some choice)
    by (unfold firstChoice; rewrite Hch; reflexivity).
  open_store s. unfold processQuery. run. rewrite Hm. run. rewrite Hfc. run. rewrite Hc.
  destruct text as [|c text'];
    cbn [truthy String.eqb negb orElse];
    destruct Htc as [-> | ->]; run; done_with_store.
Qed.

(** C3, the claim as stated fails.  With two tool calls in one
    response, the follow-up call made for the first one is sent a
    conversation whose assistant message also carries the second
    request, for which no tool-role message exists yet.  And with one
    tool call whose arguments are valid JSON but whose invocation
    throws, nothing is appended: the conversation stays the user
    message alone. *)
Lemma request_without_tool_message :
  forallb (fun req => everyRequestAnswered (req_messages req))
          (modelCalls (trace (snd (processQuery (ClientDemo.runtime ClientDemo.twoCallsScript)
                                                "hi"
                                                (ClientDemo.start ClientDemo.twoCallsScript)))))
    = false
  /\ ClientDemo.parse (argumentsText (ClientDemo.call "call_1" "echo" ClientDemo.xIsOne))
     = inr (JObj [("x", JNum 1)])
  /\ messages (snd (processQuery (ClientDemo.runtime ClientDemo.oneCallBrokenScript)
                                 "hi"
                                 (ClientDemo.start ClientDemo.oneCallBrokenScript)))
     = [userMessage "hi"].
Proof. repeat split; vm_compute; reflexivity. Qed.

(** C3, amended.  For every function-type tool call whose arguments
    parse and whose invocation returns, the orchestrator appends the
    message of the model and, right after it, one tool-role message
    carrying the id of the call, and makes the follow-up model call on
    the conversation that ends with these two messages.  In particular,
    after a response with exactly one such tool call the conversation
    is the user message, the assistant message with the tool call and
    the tool-role message with the id of the call, and in it every
    request has exactly one tool-role message. *)
Theorem tool_message_follows_the_assistant_message :
  (forall (R : Runtime) (choice : Choice) (toolCall : ToolCall) (toolArgs : Json)
          (s : State R) (result : ToolResult) (w1 : World R),
      tc_type toolCall = "function" ->
      JSON_parse R (argumentsText toolCall) = inr toolArgs ->
      mcp_callTool R (calledName toolCall) toolArgs (world s) = (inr result, w1) ->
      exists s',
        handleToolCall R choice toolCall s = (Return tt, s')
        /\ messages s' =
             (messages s
                ++ [message choice; toolMessage R toolCall (calledName toolCall) result])%list
        /\ role (toolMessage R toolCall (calledName toolCall) result) = "tool"
        /\ tool_call_id (toolMessage R toolCall (calledName toolCall) result)
           = Some (tc_id toolCall)
        /\ modelCalls (trace s') =
             (modelCalls (trace s) ++ [mkRequest "deepseek-chat" 1000 (messages s') None])%list)
  /\ (forall (R : Runtime) (query : string) (s : State R) (response : ChatResponse)
             (w : World R) (choice : Choice) (toolCall : ToolCall) (toolArgs : Json)
             (result : ToolResult) (w1 : World R),
         chat_completions_create R
           (mkRequest "deepseek-chat" 1000 [userMessage query] (Some (tools s))) (world s)
           = (inr response, w) ->
         firstChoice response = Some choice ->
         role (message choice) = "assistant" ->
         tool_calls (message choice) = Some [toolCall] ->
         tc_type toolCall = "function" ->
         JSON_parse R (argumentsText toolCall) = inr toolArgs ->
         mcp_callTool R (calledName toolCall) toolArgs w = (inr result, w1) ->
         exists s' output,
           processQuery R query s = (Return output, s')
           /\ messages s' =
                [ userMessage query; message choice;
                  toolMessage R toolCall (calledName toolCall) result ]
           /\ everyRequestAnswered (messages s') = true
           /\ modelCalls (trace s') =
                (modelCalls (trace s)
                   ++ [ mkRequest "deepseek-chat" 1000 [userMessage query] (Some (tools s));
                        mkRequest "deepseek-chat" 1000 (messages s') None ])%list).
Proof.
  split.
  - intros R choice toolCall toolArgs s result w1 Hf Hp Hc.
    destruct (handleToolCall_invoked R choice toolCall toolArgs s result w1 Hf Hp Hc)
      as (s' & H & _ & Hmsg & _ & Hmodel).
    exists s'. repeat split; assumption.
  - intros R query s response w choice toolCall toolArgs result w1
           Hm Hfc Hrole Htc Hf Hp Hc.
    destruct (processQuery_batch R query s response w choice toolCall [] Hm Hfc Htc)
      as (s1 & Hw & _ & Hmsg1 & _ & _ & Hmodel1 & Hrun).
    rewrite <- Hw in Hc.
    destruct (handleToolCall_invoked R choice toolCall toolArgs s1 result w1 Hf Hp Hc)
      as (s2 & H & _ & Hmsg2 & _ & Hmodel2).
    rewrite Hrun. cbn [forOf]. unfold bind at 1. rewrite H. unfold ret.
    rewrite Hmsg1 in Hmsg2. cbn [app] in Hmsg2.
    eexists; eexists; split; [reflexivity|].
    cbn [messages trace]. repeat split.
    + exact Hmsg2.
    + rewrite Hmsg2. unfold everyRequestAnswered, requestsIn, answersTo.
      cbn [flat_map userMessage toolMessage tool_calls app].
      rewrite Htc. cbn [app forallb filter role tool_call_id userMessage toolMessage].
      rewrite Hrole, !String.eqb_refl. reflexivity.
    + rewrite modelCalls_app, Hmodel2, Hmodel1, Hmsg2. cbn [modelCalls].
      rewrite List.app_nil_r, <- List.app_assoc. reflexivity.
Qed.

(** *** Input lines *)

Lemma startsWith_tool (message : string) :
  startsWith message "tool:" = true -> exists r, message = "tool:" ++ r.
Proof.
  unfold startsWith. intros H.
  do 5 (destruct message as [|? message]; [discriminate H|];
        cbn [String.prefix] in H;
        match type of H with
        | (if ?d then _ else _) = _ => destruct d as [<-|]; [|discriminate H]
        end).
  exists message. reflexivity.
Qed.



Lemma isWhiteSpace_space : isWhiteSpace space = true.
Proof. reflexivity. Qed.







Lemma append_empty (s : string) : s ++ "" = s.
Proof. induction s as [|c r IH]; [reflexivity|]. cbn. rewrite IH. reflexivity. Qed.


(** *** The interactive loop *)






Lemma whileTrue_quit (R : Runtime) (line : string) (rest : list string) (s : State R) :
  toLowerCase line = "quit" ->
  whileTrue R (line :: rest) s
  = (Return tt,
     mkState (world s) (trace s ++ [Question prompt]) (tools s)
             (messages s) (finalText s) (toolResults s)).
Proof.
  intros Hq. cbn [whileTrue]. rewrite Hq. open_store s. reflexivity.
Qed.

(** When the loop ends, [chatLoop] closes the line reader and
    returns. *)
Lemma chatLoop_returns (R : Runtime) (input : list string) (s s1 : State R) :
  whileTrue R input
    (mkState (world s) (trace s ++ banner) (tools s)
             (messages s) (finalText s) (toolResults s))
  = (Return tt, s1) ->
  chatLoop R input s
  = (Return tt,
     mkState (world s1) (trace s1 ++ [RlClose]) (tools s1)
             (messages s1) (finalText s1) (toolResults s1)).
Proof.
  intros H. open_store s. unfold chatLoop.
  cbv beta iota zeta delta [tryFinally tryCatch bind forOf banner emit ret].
  cbn [world trace tools messages finalText toolResults].
  rewrite <- !List.app_assoc. cbn [app].
  unfold banner in H. rewrite H. reflexivity.
Qed.



End ClientFacts.

(* ===================================================================== *)
(** ** Properties of the weather server *)
(* ===================================================================== *)

Module WeatherFacts.

Import Weather.

(** *** Decimal numerals and [parseInt] *)







(** *** Reading a trace that was extended *)

Lemma fetched_app (t u : list Event) : fetched (t ++ u) = (fetched t ++ fetched u)%list.
Proof.
  induction t as [|e t IH]; simpl; [reflexivity|].
  destruct e; simpl; rewrite IH; reflexivity.
Qed.


(** Runs the operations on the store, by value, down to [fetch]. *)
Ltac run :=
  cbv beta iota zeta delta
    [bind tryCatch logger_info logger_debug logger_warn logger_error
     emit sleep doFetch getWorld liftSum ret throw pending world trace].

(** *** One request *)

(** The helper never throws: its [catch] returns [null]. *)
Lemma makeNWSRequest_never_throws
      (R : Runtime) (fuel : nat) (url : string) (s s' : State R) (e : Thrown) :
  makeNWSRequest R fuel url s <> (Throw e, s').
Proof.
  destruct fuel as [|fuel]; cbn [makeNWSRequest]; [discriminate|].
  unfold tryCatch.
  match goal with |- (match ?b with _ => _ end) <> _ => destruct b as [[d|e'|] s1] end;
    discriminate.
Qed.

(** A 429 answer: the helper waits and calls itself. *)
Lemma makeNWSRequest_429
      (R : Runtime) (fuel : nat) (url : string) (w w1 : World R) (t : list Event)
      (r : Response) :
  fetch R url requestHeaders w = (inr r, w1) ->
  status r = 429%Z ->
  makeNWSRequest R (S fuel) url (mkState w t)
  = makeNWSRequest R fuel url
      (mkState w1
         (t ++ [ Log DEBUG ("发起请求: " ++ url);
                 SetTimeout (Some 500%Z);
                 Fetch url requestHeaders;
                 Log WARN ("请求速率受限，将在" ++ retryAfterOf r ++ "秒后重试: " ++ url);
                 SetTimeout (retryDelay (retryAfterOf r)) ])%list).
Proof.
  intros Hf Hs. cbn [makeNWSRequest]. run. rewrite Hf. run. rewrite Hs.
  cbn [Z.eqb Pos.eqb]. rewrite <- !List.app_assoc. cbn [app].
  match goal with
  | |- _ = ?m => destruct m as [[d|e|] s1] eqn:Hrec
  end; try reflexivity.
  elim (makeNWSRequest_never_throws _ _ _ _ _ _ Hrec).
Qed.

(** A successful answer whose body parses is returned. *)
Lemma makeNWSRequest_success
      (R : Runtime) (fuel : nat) (url : string) (w w1 : World R) (t : list Event)
      (r : Response) (data : Json) :
  fetch R url requestHeaders w = (inr r, w1) ->
  ok r = true ->
  json r = inr data ->
  makeNWSRequest R (S fuel) url (mkState w t)
  = (Return data,
     mkState w1
       (t ++ [ Log DEBUG ("发起请求: " ++ url);
               SetTimeout (Some 500%Z);
               Fetch url requestHeaders;
               Log DEBUG ("请求成功: " ++ url) ])%list).
Proof.
  intros Hf Hok Hj. cbn [makeNWSRequest]. run. rewrite Hf. run.
  assert (Hs : (status r =? 429)%Z = false).
  { unfold ok in Hok. apply andb_prop in Hok. destruct Hok as [_ H].
    apply Z.leb_le in H. apply Z.eqb_neq. lia. }
  rewrite Hs, Hok. cbn [negb]. rewrite Hj. rewrite <- !List.app_assoc. reflexivity.
Qed.

(** Any other status: the error is thrown inside the [try], logged by
    the [catch], and [null] is returned. *)
Lemma makeNWSRequest_http_error
      (R : Runtime) (fuel : nat) (url : string) (w w1 : World R) (t : list Event)
      (r : Response) :
  fetch R url requestHeaders w = (inr r, w1) ->
  ok r = false ->
  status r <> 429%Z ->
  makeNWSRequest R (S fuel) url (mkState w t)
  = (Return JNull,
     mkState w1
       (t ++ [ Log DEBUG ("发起请求: " ++ url);
               SetTimeout (Some 500%Z);
               Fetch url requestHeaders;
               LogError ("请求NWS API时发生错误: " ++ url) (httpError r url) ])%list).
Proof.
  intros Hf Hok Hs. cbn [makeNWSRequest]. run. rewrite Hf. run.
  apply Z.eqb_neq in Hs. rewrite Hs, Hok. cbn [negb].
  rewrite <- !List.app_assoc. reflexivity.
Qed.

(** *** The claims on the fetch helper and the tools *)


(** C6: when the upstream answers with a status that is neither a
    success nor 429, the helper returns [null] and does not throw; the
    handler of [get-alerts] then answers with the text
    [Failed to retrieve alerts data], and the handler of [get-forecast]
    with its own failure text, both as ordinary results. *)
Theorem http_error_becomes_a_failure_text
        (R : Runtime) (fuel : nat) (url : string) (w w1 : World R) (t : list Event)
        (r : Response) :
  fetch R url requestHeaders w = (inr r, w1) ->
  ok r = false ->
  status r <> 429%Z ->
  fst (makeNWSRequest R (S fuel) url (mkState w t)) = Return JNull
  /\ (forall args : AlertsArgs,
         alertsUrlOf (toUpperCase (state args)) = url ->
         fst (callback (getAlertsTool R (S fuel)) args (mkState w t))
         = Return [mkText "text" "Failed to retrieve alerts data"])
  /\ (forall args : ForecastArgs,
         pointsUrlOf R args = url ->
         fst (callback (getForecastTool R (S fuel)) args (mkState w t))
         = Return [mkText "text" (noPointsText R args)]).
Proof.
  intros Hf Hok Hs. repeat split.
  - rewrite (makeNWSRequest_http_error R fuel url w w1 t r Hf Hok Hs). reflexivity.
  - intros args Hurl. subst url.
    cbn [getAlertsTool callback]. unfold withErrorHandling, getAlertsHandler. run.
    rewrite (makeNWSRequest_http_error R fuel _ w w1 _ r Hf Hok Hs). reflexivity.
  - intros args Hurl. subst url.
    cbn [getForecastTool callback]. unfold withErrorHandling, getForecastHandler. run.
    rewrite (makeNWSRequest_http_error R fuel _ w w1 _ r Hf Hok Hs). reflexivity.
Qed.

Lemma below_minimum (lo hi x : Q) : (x < lo)%Q -> numberMinMax lo hi x = false.
Proof.
  intros H. unfold numberMinMax.
  destruct (Qle_bool lo x) eqn:E; [|reflexivity].
  apply Qle_bool_iff in E. elim (Qlt_not_le _ _ H E).
Qed.

Lemma above_maximum (lo hi x : Q) : (hi < x)%Q -> numberMinMax lo hi x = false.
Proof.
  intros H. unfold numberMinMax.
  destruct (Qle_bool x hi) eqn:E; [|apply andb_false_r].
  apply Qle_bool_iff in E. elim (Qlt_not_le _ _ H E).
Qed.

(** C8: a call of [get-forecast] whose latitude is below 24.396308 or
    above 49.384358, or whose longitude is below -124.848974 or above
    -66.885444, fails the input schema: it is rejected, the handler
    does not run, the store is unchanged and so no request is made. *)
Theorem out_of_range_forecast_is_rejected
        (R : Runtime) (fuel : nat) (args : ForecastArgs) (s : State R) :
  (latitude args < 24396308 # 1000000
   \/ 49384358 # 1000000 < latitude args
   \/ longitude args < (-124848974) # 1000000
   \/ (-66885444) # 1000000 < longitude args)%Q ->
  dispatch R (getForecastTool R fuel) args s = (Return InvalidParams, s)
  /\ fetched (trace (snd (dispatch R (getForecastTool R fuel) args s)))
     = fetched (trace s).
Proof.
  intros H.
  assert (Hschema : inputSchema (getForecastTool R fuel) args = false).
  { cbn [getForecastTool inputSchema].
    destruct H as [H | [H | [H | H]]].
    - rewrite (below_minimum LAT_MIN LAT_MAX _ H). reflexivity.
    - rewrite (above_maximum LAT_MIN LAT_MAX _ H). reflexivity.
    - rewrite (below_minimum LON_MIN LON_MAX _ H). apply andb_false_r.
    - rewrite (above_maximum LON_MIN LON_MAX _ H). apply andb_false_r. }
  unfold dispatch. rewrite Hschema. split; reflexivity.
Qed.

End WeatherFacts.

(* ===================================================================== *)
(** ** The properties on concrete runs *)
(* ===================================================================== *)

Module ClientRuns.

Import Client ClientDemo ClientFacts.

(** The model asks for [echo] with arguments that are not JSON and
    then for [date]: the query ends with the text of the outer
    [catch] and neither tool is invoked. *)
Lemma unparsable_arguments_abort_the_query_run :
  exists s',
    processQuery (runtime badThenGoodScript) "hi" (start badThenGoodScript)
    = (Return "处理查询时发生错误: Unexpected token b in JSON at position 1", s')
    /\ toolCallsMade (trace s') = []
    /\ modelCalls (trace s') = [mkRequest "deepseek-chat" 1000 [userMessage "hi"] (Some [])].
Proof.
  exact (unparsable_arguments_abort_the_query
           (runtime badThenGoodScript) "hi" (start badThenGoodScript)
           (mkResponse (Some [mkChoice badThenGood])) tt (mkChoice badThenGood)
           (call "call_1" "echo" "{bad") [call "call_2" "date" "{}"]
           (ErrorObject "SyntaxError" "Unexpected token b in JSON at position 1")
           eq_refl eq_refl eq_refl eq_refl eq_refl).
Defined.

(** The tool throws, or the tool returns and the follow-up call throws:
    the error line is recorded and the loop goes on with the call that
    remains. *)
Lemma tool_failure_does_not_abort_the_batch_run :
  (exists s' announced,
      handleToolCall (runtime oneCallBrokenScript) (mkChoice oneCall)
                     (call "call_1" "echo" xIsOne) (start oneCallBrokenScript)
      = (Return tt, s')
      /\ forOf [call "call_1" "echo" xIsOne; call "call_2" "date" "{}"]
               (handleToolCall (runtime oneCallBrokenScript) (mkChoice oneCall))
               (start oneCallBrokenScript)
         = forOf [call "call_2" "date" "{}"]
                 (handleToolCall (runtime oneCallBrokenScript) (mkChoice oneCall)) s'
      /\ finalText s' = (announced ++ ["[错误] 工具 echo 调用失败: tool crashed"])%list
      /\ (announced = []
          \/ announced = [toolCalledLine (runtime oneCallBrokenScript) "echo"
                                         (JObj [("x", JNum 1)])]))
  /\ (exists s' announced,
         handleToolCall (runtime oneCallNoFollowUpScript) (mkChoice oneCall)
                        (call "call_1" "echo" xIsOne) (start oneCallNoFollowUpScript)
         = (Return tt, s')
         /\ forOf [call "call_1" "echo" xIsOne; call "call_2" "date" "{}"]
                  (handleToolCall (runtime oneCallNoFollowUpScript) (mkChoice oneCall))
                  (start oneCallNoFollowUpScript)
            = forOf [call "call_2" "date" "{}"]
                    (handleToolCall (runtime oneCallNoFollowUpScript) (mkChoice oneCall)) s'
         /\ finalText s' = (announced ++ ["[错误] 工具 echo 调用失败: provider down"])%list
         /\ (announced = []
             \/ announced = [toolCalledLine (runtime oneCallNoFollowUpScript) "echo"
                                            (JObj [("x", JNum 1)])])).
Proof.
  split.
  - exact (tool_failure_does_not_abort_the_batch
             (runtime oneCallBrokenScript) (mkChoice oneCall)
             (call "call_1" "echo" xIsOne) [call "call_2" "date" "{}"]
             (JObj [("x", JNum 1)]) (start oneCallBrokenScript)
             (ErrorObject "Error" "tool crashed")
             eq_refl eq_refl (or_introl (ex_intro _ tt eq_refl))).
  - exact (tool_failure_does_not_abort_the_batch
             (runtime oneCallNoFollowUpScript) (mkChoice oneCall)
             (call "call_1" "echo" xIsOne) [call "call_2" "date" "{}"]
             (JObj [("x", JNum 1)]) (start oneCallNoFollowUpScript)
             (ErrorObject "Error" "provider down")
             eq_refl eq_refl
             (or_intror
                (ex_intro _ (mkToolResult (ContentArray [mkItem "text" (Some "ran echo")]))
                   (ex_intro _ tt (ex_intro _ tt (conj eq_refl eq_refl)))))).
Defined.

(** One call of [echo]: the tool message carries the id [call_1], the
    name and the text of the result. *)
Lemma tool_result_is_flattened_into_a_tool_message_run :
  exists s',
    handleToolCall (runtime oneCallScript) (mkChoice oneCall)
                   (call "call_1" "echo" xIsOne) (start oneCallScript)
    = (Return tt, s')
    /\ messages s' =
         [ oneCall;
           mkMessage "tool" (Some "ran echo") (Some "call_1") (Some "echo") None ].
Proof.
  exact (tool_result_is_flattened_into_a_tool_message
           (runtime oneCallScript) (mkChoice oneCall)
           (call "call_1" "echo" xIsOne) (JObj [("x", JNum 1)]) (start oneCallScript)
           (mkToolResult (ContentArray [mkItem "text" (Some "ran echo")])) tt
           eq_refl eq_refl eq_refl).
Defined.

(** The model answers "hello" to "hi": the query returns "hello". *)
Lemma text_only_response_is_returned_verbatim_run :
  exists s',
    processQuery (runtime helloScript) "hi" (start helloScript) = (Return "hello", s')
    /\ toolCallsMade (trace s') = []
    /\ modelCalls (trace s') = [mkRequest "deepseek-chat" 1000 [userMessage "hi"] (Some [])].
Proof.
  exact (text_only_response_is_returned_verbatim
           (runtime helloScript) "hi" (start helloScript)
           (mkResponse (Some [mkChoice (assistant (Some "hello") None)])) tt
           (mkChoice (assistant (Some "hello") None)) [] "hello"
           eq_refl eq_refl eq_refl (or_introl eq_refl)).
Defined.

(** One call of [echo] whose invocation returns: the conversation is
    the user message, the assistant message, the tool message. *)
Lemma tool_message_follows_the_assistant_message_run :
  (exists s',
      handleToolCall (runtime oneCallScript) (mkChoice oneCall)
                     (call "call_1" "echo" xIsOne) (start oneCallScript)
      = (Return tt, s')
      /\ messages s' =
           [ oneCall;
             toolMessage (runtime oneCallScript) (call "call_1" "echo" xIsOne) "echo"
                         (mkToolResult (ContentArray [mkItem "text" (Some "ran echo")])) ]
      /\ role (toolMessage (runtime oneCallScript) (call "call_1" "echo" xIsOne) "echo"
                           (mkToolResult (ContentArray [mkItem "text" (Some "ran echo")])))
         = "tool"
      /\ tool_call_id
           (toolMessage (runtime oneCallScript) (call "call_1" "echo" xIsOne) "echo"
                        (mkToolResult (ContentArray [mkItem "text" (Some "ran echo")])))
         = Some "call_1"
      /\ modelCalls (trace s') = [mkRequest "deepseek-chat" 1000 (messages s') None])
  /\ (exists s' output,
         processQuery (runtime oneCallScript) "hi" (start oneCallScript)
         = (Return output, s')
         /\ messages s' =
              [ userMessage "hi"; oneCall;
                mkMessage "tool" (Some "ran echo") (Some "call_1") (Some "echo") None ]
         /\ everyRequestAnswered (messages s') = true
         /\ modelCalls (trace s') =
              [ mkRequest "deepseek-chat" 1000 [userMessage "hi"] (Some []);
                mkRequest "deepseek-chat" 1000 (messages s') None ]).
Proof.
  split.
  - exact (proj1 tool_message_follows_the_assistant_message
             (runtime oneCallScript) (mkChoice oneCall)
             (call "call_1" "echo" xIsOne) (JObj [("x", JNum 1)]) (start oneCallScript)
             (mkToolResult (ContentArray [mkItem "text" (Some "ran echo")])) tt
             eq_refl eq_refl eq_refl).
  - exact (proj2 tool_message_follows_the_assistant_message
             (runtime oneCallScript) "hi" (start oneCallScript)
             (mkResponse (Some [mkChoice oneCall])) tt (mkChoice oneCall)
             (call "call_1" "echo" xIsOne) (JObj [("x", JNum 1)])
             (mkToolResult (ContentArray [mkItem "text" (Some "ran echo")])) tt
             eq_refl eq_refl eq_refl eq_refl eq_refl eq_refl eq_refl).
Defined.







End ClientRuns.

Module WeatherRuns.

Import Weather WeatherDemo WeatherFacts.


Lemma status_404_is_not_429 : status notFound <> 429%Z.
Proof. discriminate. Defined.

(** A 404 answer: the helper returns [null], and [get-alerts] and
    [get-forecast] answer with their failure texts. *)
Lemma http_error_becomes_a_failure_text_run :
  fst (makeNWSRequest (runtime alwaysNotFound) 1 alertsCA (start alwaysNotFound))
  = Return JNull
  /\ fst (callback (getAlertsTool (runtime alwaysNotFound) 1) (mkAlertsArgs "ca")
                   (start alwaysNotFound))
     = Return [mkText "text" "Failed to retrieve alerts data"]
  /\ fst (callback (getForecastTool (runtime alwaysNotFound) 1)
                   (mkForecastArgs (38 # 1) (-100 # 1)) (start alwaysNotFound))
     = Return [mkText "text"
                      (noPointsText (runtime alwaysNotFound)
                                    (mkForecastArgs (38 # 1) (-100 # 1)))].
Proof.
  split; [|split].
  - exact (proj1 (http_error_becomes_a_failure_text
                    (runtime alwaysNotFound) 0 alertsCA 0%nat 1%nat [] notFound
                    eq_refl eq_refl status_404_is_not_429)).
  - exact (proj1 (proj2 (http_error_becomes_a_failure_text
                           (runtime alwaysNotFound) 0 alertsCA 0%nat 1%nat [] notFound
                           eq_refl eq_refl status_404_is_not_429))
                 (mkAlertsArgs "ca") eq_refl).
  - exact (proj2 (proj2 (http_error_becomes_a_failure_text
                           (runtime alwaysNotFound) 0
                           (pointsUrlOf (runtime alwaysNotFound)
                                        (mkForecastArgs (38 # 1) (-100 # 1)))
                           0%nat 1%nat [] notFound
                           eq_refl eq_refl status_404_is_not_429))
                 (mkForecastArgs (38 # 1) (-100 # 1)) eq_refl).
Defined.

(** Latitude 10 is below the minimum: the call is rejected and the
    trace stays empty. *)
Lemma out_of_range_forecast_is_rejected_run :
  dispatch (runtime alwaysNotFound) (getForecastTool (runtime alwaysNotFound) 1)
           (mkForecastArgs (10 # 1) (-100 # 1)) (start alwaysNotFound)
  = (Return InvalidParams, start alwaysNotFound)
  /\ fetched (trace (snd (dispatch (runtime alwaysNotFound)
                                   (getForecastTool (runtime alwaysNotFound) 1)
                                   (mkForecastArgs (10 # 1) (-100 # 1))
                                   (start alwaysNotFound))))
     = [].
Proof.
  apply (out_of_range_forecast_is_rejected
           (runtime alwaysNotFound) 1 (mkForecastArgs (10 # 1) (-100 # 1))
           (start alwaysNotFound)).
  left. reflexivity.
Defined.

End WeatherRuns.

(* ===================================================================== *)
(** ** How the laws compose *)
(* ===================================================================== *)

Module LawFacts.

Import Laws.

Section Composition.

Context {S : Type}.

(** *** Programs that settle *)

Lemma Settles_ret {A : Type} (a : A) : Settles (@ret S A a).
Proof. intros s. discriminate. Qed.

Lemma Settles_throw {A : Type} (e : Thrown) : Settles (@throw S A e).
Proof. intros s. discriminate. Qed.

Lemma Settles_liftSum {A : Type} (r : Thrown + A) : Settles (@liftSum S A r).
Proof. destruct r; [apply Settles_throw | apply Settles_ret]. Qed.

Lemma Settles_bind {A B : Type} (m : M S A) (k : A -> M S B) :
  Settles m -> (forall a, Settles (k a)) -> Settles (bind m k).
Proof.
  intros Hm Hk s. unfold bind. specialize (Hm s).
  destruct (m s) as [[a|e|] s1]; cbn [fst] in *.
  - apply Hk.
  - discriminate.
  - congruence.
Qed.

Lemma Settles_tryCatch {A : Type} (m : M S A) (h : Thrown -> M S A) :
  Settles m -> (forall e, Settles (h e)) -> Settles (tryCatch m h).
Proof.
  intros Hm Hh s. unfold tryCatch. specialize (Hm s).
  destruct (m s) as [[a|e|] s1]; cbn [fst] in *.
  - discriminate.
  - apply Hh.
  - congruence.
Qed.

Lemma Settles_forOf {A : Type} (l : list A) (body : A -> M S unit) :
  (forall x, Settles (body x)) -> Settles (forOf l body).
Proof.
  intros Hb. induction l as [|x l IH]; cbn [forOf].
  - apply Settles_ret.
  - apply Settles_bind; [apply Hb | intros _; exact IH].
Qed.

(** *** Programs that return *)

Lemma Returns_ret {A : Type} (a : A) : Returns (@ret S A a).
Proof. intros s. exists a, s. reflexivity. Qed.

Lemma Returns_bind {A B : Type} (m : M S A) (k : A -> M S B) :
  Returns m -> (forall a, Returns (k a)) -> Returns (bind m k).
Proof.
  intros Hm Hk s. unfold bind. destruct (Hm s) as (a & s1 & ->). apply Hk.
Qed.

(** A [try] whose body settles and whose handler returns, returns. *)
Lemma Returns_tryCatch {A : Type} (m : M S A) (h : Thrown -> M S A) :
  Settles m -> (forall e, Returns (h e)) -> Returns (tryCatch m h).
Proof.
  intros Hm Hh s. unfold tryCatch. specialize (Hm s).
  destruct (m s) as [[a|e|] s1]; cbn [fst] in *.
  - exists a, s1. reflexivity.
  - apply Hh.
  - congruence.
Qed.

Lemma Returns_Settles {A : Type} (m : M S A) : Returns m -> Settles m.
Proof. intros H s. destruct (H s) as (a & s1 & ->). discriminate. Qed.

(** *** Programs that keep a relation *)

Context (P : S -> S -> Prop) {HP : PreOrder P}.

Lemma Keeps_ret {A : Type} (a : A) : Keeps P (@ret S A a).
Proof. intros s. reflexivity. Qed.

Lemma Keeps_throw {A : Type} (e : Thrown) : Keeps P (@throw S A e).
Proof. intros s. reflexivity. Qed.

Lemma Keeps_pending {A : Type} : Keeps P (@pending S A).
Proof. intros s. reflexivity. Qed.

Lemma Keeps_liftSum {A : Type} (r : Thrown + A) : Keeps P (@liftSum S A r).
Proof. destruct r; [apply Keeps_throw | apply Keeps_ret]. Qed.

Lemma Keeps_bind {A B : Type} (m : M S A) (k : A -> M S B) :
  Keeps P m -> (forall a, Keeps P (k a)) -> Keeps P (bind m k).
Proof.
  intros Hm Hk s. unfold bind. specialize (Hm s).
  destruct (m s) as [[a|e|] s1]; cbn [snd] in *; try exact Hm.
  transitivity s1; [exact Hm | apply Hk].
Qed.

Lemma Keeps_tryCatch {A : Type} (m : M S A) (h : Thrown -> M S A) :
  Keeps P m -> (forall e, Keeps P (h e)) -> Keeps P (tryCatch m h).
Proof.
  intros Hm Hh s. unfold tryCatch. specialize (Hm s).
  destruct (m s) as [[a|e|] s1]; cbn [snd] in *; try exact Hm.
  transitivity s1; [exact Hm | apply Hh].
Qed.

Lemma Keeps_tryFinally {A : Type} (m : M S A) (c : M S unit) :
  Keeps P m -> Keeps P c -> Keeps P (tryFinally m c).
Proof.
  intros Hm Hc s. unfold tryFinally. specialize (Hm s).
  destruct (m s) as [[a|e|] s1]; cbn [snd] in *; try exact Hm;
    specialize (Hc s1); destruct (c s1) as [[u|e'|] s2]; cbn [snd] in *;
    (transitivity s1; [exact Hm | exact Hc]).
Qed.

Lemma Keeps_forOf {A : Type} (l : list A) (body : A -> M S unit) :
  (forall x, Keeps P (body x)) -> Keeps P (forOf l body).
Proof.
  intros Hb. induction l as [|x l IH]; cbn [forOf].
  - apply Keeps_ret.
  - apply Keeps_bind; [apply Hb | intros _; exact IH].
Qed.

End Composition.

End LawFacts.

(* ===================================================================== *)
(** ** What every run of the client keeps *)
(* ===================================================================== *)

Module ClientInvariants.

Import Client ClientMore ClientFacts Laws LawFacts.

(** Splits a conjunction into its parts, and nothing else. *)
Ltac conjs := repeat match goal with |- _ /\ _ => split end.

Lemma extends_refl {A : Type} (l : list A) : extends l l.
Proof. exists []. symmetry. apply List.app_nil_r. Qed.

Lemma extends_trans {A : Type} (l1 l2 l3 : list A) :
  extends l1 l2 -> extends l2 l3 -> extends l1 l3.
Proof.
  intros [r1 ->] [r2 ->]. exists (r1 ++ r2)%list. symmetry. apply List.app_assoc.
Qed.

Lemma extends_app {A : Type} (l rest : list A) : extends l (l ++ rest).
Proof. exists rest. reflexivity. Qed.

Lemma Progress_refl (R : Runtime) (s : State R) : Progress R s s.
Proof.
  constructor; try apply extends_refl; [reflexivity|].
  exists []. split; [symmetry; apply List.app_nil_r | constructor].
Qed.

Lemma Progress_trans (R : Runtime) (s1 s2 s3 : State R) :
  Progress R s1 s2 -> Progress R s2 s3 -> Progress R s1 s3.
Proof.
  intros [T1 M1 O1 (n1 & E1 & F1)] [T2 M2 O2 (n2 & E2 & F2)]. constructor.
  - congruence.
  - eapply extends_trans; eassumption.
  - eapply extends_trans; eassumption.
  - exists (n1 ++ n2)%list. split.
    + rewrite E2, E1. symmetry. apply List.app_assoc.
    + apply Forall_app. split.
      * eapply Forall_impl; [|exact F1]. cbv beta.
        intros req (Hf & Ha & Hb). split; [exact Hf|]. split; [exact Ha|].
        eapply extends_trans; eassumption.
      * eapply Forall_impl; [|exact F2]. cbv beta.
        intros req (Hf & Ha & Hb). split; [exact Hf|]. split; [|exact Hb].
        eapply extends_trans; eassumption.
Qed.

(** Closes the side goals of a run that made no follow-up call. *)
Ltac finish :=
  first [ reflexivity
        | apply extends_refl
        | apply extends_app
        | apply Forall_nil
        | symmetry; apply List.app_nil_r ].

(** The three things the body of the loop can do with one tool call:
    skip it, throw on its arguments, or invoke the tool and go on. *)
Lemma handleToolCall_cases (R : Runtime) (choice : Choice) (toolCall : ToolCall)
      (s : State R) :
  ((tc_type toolCall =? "function") = false
   /\ handleToolCall R choice toolCall s = (Return tt, s))
  \/ ((tc_type toolCall =? "function") = true
      /\ exists e,
          JSON_parse R (argumentsText toolCall) = inl e
          /\ handleToolCall R choice toolCall s = (Throw e, s))
  \/ ((tc_type toolCall =? "function") = true
      /\ exists toolArgs s',
          JSON_parse R (argumentsText toolCall) = inr toolArgs
          /\ handleToolCall R choice toolCall s = (Return tt, s')
          /\ Progress R s s'
          /\ toolCallsMade (trace s') =
               (toolCallsMade (trace s) ++ [(calledName toolCall, toolArgs)])%list).
Proof.
  destruct (tc_type toolCall =? "function") eqn:Hty.
  - right. apply String.eqb_eq in Hty.
    destruct (JSON_parse R (argumentsText toolCall)) as [e|toolArgs] eqn:Hp.
    + left. split; [reflexivity|]. exists e. split; [reflexivity|].
      apply handleToolCall_parse_failure; assumption.
    + right. split; [reflexivity|]. exists toolArgs.
      destruct (mcp_callTool R (calledName toolCall) toolArgs (world s))
        as [[e|result] w1] eqn:Hc.
      * destruct (handleToolCall_invocation_failure R choice toolCall toolArgs s e w1
                    Hty Hp Hc) as (s' & H & _ & Ht & Hm & Hf & Htc & Hmc).
        exists s'. conjs; try assumption; try reflexivity. constructor.
        -- exact Ht.
        -- rewrite Hm. apply extends_refl.
        -- rewrite Hf. apply extends_app.
        -- exists []. rewrite Hmc. split; [symmetry; apply List.app_nil_r | constructor].
      * destruct (chat_completions_create R
                    (mkRequest "deepseek-chat" 1000
                       (messages s ++ [message choice;
                                       toolMessage R toolCall (calledName toolCall) result])
                       None) w1) as [[e|r] w2] eqn:Hm.
        -- destruct (handleToolCall_followUp_failure R choice toolCall toolArgs s result e
                       w1 w2 Hty Hp Hc Hm) as (s' & H & _ & Ht & Hmsg & Hf & Htc & Hmc).
           exists s'. conjs; try assumption; try reflexivity. constructor.
           ++ exact Ht.
           ++ rewrite Hmsg. apply extends_app.
           ++ rewrite Hf. apply extends_app.
           ++ eexists. split; [exact Hmc|]. constructor; [|constructor].
              split; [repeat split|]. split.
              ** rewrite Hmsg. apply extends_app.
              ** rewrite Hmsg. apply extends_refl.
        -- destruct (handleToolCall_success R choice toolCall toolArgs s result r
                       w1 w2 Hty Hp Hc Hm) as (s' & H & _ & Ht & Hmsg & Hf & Htc & Hmc).
           exists s'. conjs; try assumption; try reflexivity. constructor.
           ++ exact Ht.
           ++ rewrite Hmsg. apply extends_app.
           ++ rewrite Hf. apply extends_app.
           ++ eexists. split; [exact Hmc|]. constructor; [|constructor].
              split; [repeat split|]. split.
              ** rewrite Hmsg. apply extends_app.
              ** rewrite Hmsg. apply extends_refl.
  - left. split; [reflexivity|]. unfold handleToolCall. rewrite Hty. reflexivity.
Qed.

(** The loop over a batch: it ends normally or throws, never hangs;
    it keeps the invariants of [Progress]; and the tools it invokes are
    the planned invocations, in order, up to the point where it stopped. *)
Lemma forOf_handleToolCall (R : Runtime) (choice : Choice) (calls : list ToolCall) :
  forall s : State R,
  exists r s' done,
    forOf calls (handleToolCall R choice) s = (r, s')
    /\ (r = Return tt \/ exists e, r = Throw e)
    /\ Progress R s s'
    /\ toolCallsMade (trace s') = (toolCallsMade (trace s) ++ done)%list
    /\ extends done (planned R calls)
    /\ (r = Return tt -> done = planned R calls)
    /\ (forall e, r = Throw e ->
         exists toolCall,
           In toolCall calls
           /\ (tc_type toolCall =? "function") = true
           /\ JSON_parse R (argumentsText toolCall) = inl e).
Proof.
  induction calls as [|toolCall rest IH]; intros s.
  - exists (Return tt), s, []. cbn [forOf planned flat_map]. conjs.
    + reflexivity.
    + left; reflexivity.
    + apply Progress_refl.
    + symmetry; apply List.app_nil_r.
    + apply extends_refl.
    + reflexivity.
    + discriminate.
  - cbn [forOf]. unfold bind at 1. unfold planned. cbn [flat_map]. fold (planned R rest).
    destruct (handleToolCall_cases R choice toolCall s)
      as [[Hty H] | [[Hty (e & Hp & H)] | [Hty (toolArgs & s1 & Hp & H & Hprog & Htc)]]];
      rewrite H, Hty.
    + destruct (IH s) as (r & s' & done & Hrun & Hr & Hprog & Htc & Hext & Hall & Hthrow).
      exists r, s', done. cbn [app]. conjs; try assumption.
      intros e He. destruct (Hthrow e He) as (tc & Hin & Hrest).
      exists tc. split; [right; exact Hin | exact Hrest].
    + exists (Throw e), s, []. rewrite Hp. conjs.
      * reflexivity.
      * right. exists e. reflexivity.
      * apply Progress_refl.
      * symmetry; apply List.app_nil_r.
      * exists (planned R rest). reflexivity.
      * discriminate.
      * intros e' [= <-]. exists toolCall. conjs; [left; reflexivity | exact Hty | exact Hp].
    + destruct (IH s1) as (r & s' & done & Hrun & Hr & Hprog' & Htc' & Hext & Hall & Hthrow).
      exists r, s', ((calledName toolCall, toolArgs) :: done). rewrite Hp. conjs.
      * exact Hrun.
      * exact Hr.
      * eapply Progress_trans; eassumption.
      * rewrite Htc', Htc, <- List.app_assoc. reflexivity.
      * destruct Hext as [more ->]. exists more. reflexivity.
      * intros Hret. rewrite (Hall Hret). reflexivity.
      * intros e He. destruct (Hthrow e He) as (tc & Hin & Hrest).
        exists tc. split; [right; exact Hin | exact Hrest].
Qed.

(** Every way [processQuery] can run: it returns a text; the catalog
    is kept; the conversation starts with the user message; the first
    request carries the catalog and every later one is a follow-up on a
    conversation between the user message and the final conversation. *)
Lemma processQuery_run (R : Runtime) (query : string) (s : State R) :
  exists output s' follow done,
    processQuery R query s = (Return output, s')
    /\ tools s' = tools s
    /\ extends [userMessage query] (messages s')
    /\ modelCalls (trace s') =
         (modelCalls (trace s)
            ++ mkRequest "deepseek-chat" 1000 [userMessage query] (Some (tools s)) :: follow)%list
    /\ Forall (fun req => isFollowUp req
                          /\ extends [userMessage query] (req_messages req)
                          /\ extends (req_messages req) (messages s'))
              follow
    /\ toolCallsMade (trace s') = (toolCallsMade (trace s) ++ done)%list.
Proof.
  destruct (chat_completions_create R
              (mkRequest "deepseek-chat" 1000 [userMessage query] (Some (tools s))) (world s))
    as [[e|response] w] eqn:Hm.
  - open_store s. unfold processQuery. run. rewrite Hm.
    do 4 eexists. split; [reflexivity|]. readers. conjs; finish.
  - destruct (firstChoice response) as [choice|] eqn:Hfc.
    + destruct (tool_calls (message choice)) as [[|toolCall rest]|] eqn:Htc.
      * open_store s. unfold processQuery. run. rewrite Hm. run. rewrite Hfc. run.
        rewrite Htc.
        destruct (truthy (content (message choice))); run;
          (do 4 eexists; split; [reflexivity|]; readers; conjs; finish).
      * destruct (processQuery_batch R query s response w choice toolCall rest Hm Hfc Htc)
          as (s1 & _ & Ht1 & Hmsg1 & _ & Hcalls1 & Hmodel1 & Hrun).
        destruct (forOf_handleToolCall R choice (toolCall :: rest) s1)
          as (r & s2 & done & Hloop & Hr & [Ht2 Hm2 _ (new & Hnew & Hall)] & Hdone & _).
        rewrite Hmsg1 in Hm2, Hall.
        rewrite Hrun, Hloop.
        destruct Hr as [-> | [e ->]];
          (do 2 eexists; exists new, done; split; [reflexivity|];
           cbn [tools messages trace]; rewrite modelCalls_app, toolCallsMade_app;
           cbn [modelCalls toolCallsMade]; rewrite !List.app_nil_r; conjs;
           [ congruence
           | exact Hm2
           | rewrite Hnew, Hmodel1, <- List.app_assoc; reflexivity
           | exact Hall
           | rewrite Hdone, Hcalls1; reflexivity ]).
      * open_store s. unfold processQuery. run. rewrite Hm. run. rewrite Hfc. run.
        rewrite Htc.
        destruct (truthy (content (message choice))); run;
          (do 4 eexists; split; [reflexivity|]; readers; conjs; finish).
    + open_store s. unfold processQuery. run. rewrite Hm. run. rewrite Hfc. run.
      do 4 eexists. split; [reflexivity|]. readers. conjs; finish.
Qed.

(** *** The effects of a query *)

#[local] Instance Quietly_PreOrder (R : Runtime) : PreOrder (Quietly R).
Proof.
  split.
  - intros s. split; [reflexivity|]. exists []. split; [symmetry; apply List.app_nil_r|].
    reflexivity.
  - intros s1 s2 s3 [T1 (e1 & E1 & F1)] [T2 (e2 & E2 & F2)]. split; [congruence|].
    exists (e1 ++ e2)%list. split.
    + rewrite E2, E1. symmetry. apply List.app_assoc.
    + rewrite forallb_app, F1, F2. reflexivity.
Qed.

#[local] Instance Onward_PreOrder (R : Runtime) : PreOrder (Onward R).
Proof.
  split.
  - intros s. split; [reflexivity | apply extends_refl].
  - intros s1 s2 s3 [T1 E1] [T2 E2]. split; [congruence|].
    eapply extends_trans; eassumption.
Qed.

Lemma Quietly_Onward (R : Runtime) (s s' : State R) : Quietly R s s' -> Onward R s s'.
Proof. intros [T (evs & E & _)]. split; [exact T | exists evs; exact E]. Qed.

(** An operation that only touches the arrays of [processQuery]. *)
Ltac quiet_store_op :=
  intros s; split; [reflexivity|]; exists []; split;
  [symmetry; apply List.app_nil_r | reflexivity].

Lemma Quietly_emit (R : Runtime) (e : Event) :
  isQueryEvent e = true -> Keeps (Quietly R) (emit R e).
Proof.
  intros He s. split; [reflexivity|]. exists [e]. split; [reflexivity|].
  cbn [forallb]. rewrite He. reflexivity.
Qed.

Lemma Quietly_openai_create (R : Runtime) (req : ChatRequest) :
  Keeps (Quietly R) (openai_create R req).
Proof.
  intros s. unfold openai_create.
  destruct (chat_completions_create R req (world s)) as [[e|r] w];
    (split; [reflexivity|]; exists [ModelCall req]; split; reflexivity).
Qed.

Lemma Quietly_mcp_call (R : Runtime) (toolName : string) (args : Json) :
  Keeps (Quietly R) (mcp_call R toolName args).
Proof.
  intros s. unfold mcp_call.
  destruct (mcp_callTool R toolName args (world s)) as [[e|r] w];
    (split; [reflexivity|]; exists [McpCallTool toolName args]; split; reflexivity).
Qed.

(** Takes a program of the orchestrator apart, down to its operations. *)
Ltac quiet_step :=
  match goal with
  | |- Keeps _ (openai_create _ _) => apply Quietly_openai_create
  | |- Keeps _ (mcp_call _ _ _) => apply Quietly_mcp_call
  | |- Keeps _ (emit _ _) => apply Quietly_emit; reflexivity
  | |- Keeps _ (pushFinalText _ _) => quiet_store_op
  | |- Keeps _ (pushMessage _ _) => quiet_store_op
  | |- Keeps _ (pushToolResult _ _) => quiet_store_op
  | |- Keeps _ (newMessages _ _) => quiet_store_op
  | |- Keeps _ (newFinalText _) => quiet_store_op
  | |- Keeps _ (newToolResults _) => quiet_store_op
  | |- Keeps _ (getMessages _) => quiet_store_op
  | |- Keeps _ (getTools _) => quiet_store_op
  | |- Keeps _ (getFinalText _) => quiet_store_op
  | |- Keeps ?P (ret _) => apply (Keeps_ret P)
  | |- Keeps ?P (liftSum _) => apply (Keeps_liftSum P)
  | |- Keeps ?P (bind _ _) => apply (Keeps_bind P); [|intros ?]
  | |- Keeps ?P (tryCatch _ _) => apply (Keeps_tryCatch P); [|intros ?]
  | |- Keeps ?P (forOf _ _) => apply (Keeps_forOf P); intros ?
  | |- Keeps _ (if ?b then _ else _) => destruct b
  | |- Keeps _ (match ?x with _ => _ end) => destruct x
  end.

Ltac quiet := repeat quiet_step.

Lemma Quietly_handleToolCall (R : Runtime) (choice : Choice) (toolCall : ToolCall) :
  Keeps (Quietly R) (handleToolCall R choice toolCall).
Proof.
  unfold handleToolCall, logger_info, logger_debug, logger_error. cbv zeta. quiet.
Qed.

Lemma Quietly_processQuery (R : Runtime) (query : string) :
  Keeps (Quietly R) (processQuery R query).
Proof.
  unfold processQuery, logger_info, logger_debug, logger_warn, logger_error. quiet.
  all: apply Quietly_handleToolCall.
Qed.

(** *** One turn of the loop *)

Lemma Keeps_weaken {S A : Type} (P Q : S -> S -> Prop) (p : M S A) :
  (forall s s', P s s' -> Q s s') -> Keeps P p -> Keeps Q p.
Proof. intros H Hp s. apply H, Hp. Qed.

Lemma Onward_emit (R : Runtime) (e : Event) : Keeps (Onward R) (emit R e).
Proof. intros s. split; [reflexivity | exists [e]; reflexivity]. Qed.

Lemma Onward_mcp_call (R : Runtime) (toolName : string) (args : Json) :
  Keeps (Onward R) (mcp_call R toolName args).
Proof.
  apply (Keeps_weaken (Quietly R)); [apply Quietly_Onward | apply Quietly_mcp_call].
Qed.

Lemma Onward_processQuery (R : Runtime) (query : string) :
  Keeps (Onward R) (processQuery R query).
Proof.
  apply (Keeps_weaken (Quietly R)); [apply Quietly_Onward | apply Quietly_processQuery].
Qed.

Ltac onward_step :=
  match goal with
  | |- Keeps _ (processQuery _ _) => apply Onward_processQuery
  | |- Keeps _ (mcp_call _ _ _) => apply Onward_mcp_call
  | |- Keeps _ (emit _ _) => apply Onward_emit
  | |- Keeps ?P (ret _) => apply (Keeps_ret P)
  | |- Keeps ?P (throw _) => apply (Keeps_throw P)
  | |- Keeps ?P pending => apply (Keeps_pending P)
  | |- Keeps ?P (liftSum _) => apply (Keeps_liftSum P)
  | |- Keeps ?P (bind _ _) => apply (Keeps_bind P); [|intros ?]
  | |- Keeps ?P (tryCatch _ _) => apply (Keeps_tryCatch P); [|intros ?]
  | |- Keeps ?P (tryFinally _ _) => apply (Keeps_tryFinally P)
  | |- Keeps ?P (forOf _ _) => apply (Keeps_forOf P); intros ?
  | |- Keeps _ (if ?b then _ else _) => destruct b
  | |- Keeps _ (match ?x with _ => _ end) => destruct x
  end.

Ltac onward := repeat onward_step.

Lemma Settles_emit (R : Runtime) (e : Event) : Settles (emit R e).
Proof. intros s. discriminate. Qed.

Lemma Returns_emit (R : Runtime) (e : Event) : Returns (emit R e).
Proof. intros s. eexists; eexists; reflexivity. Qed.

Lemma Settles_mcp_call (R : Runtime) (toolName : string) (args : Json) :
  Settles (mcp_call R toolName args).
Proof.
  intros s. unfold mcp_call.
  destruct (mcp_callTool R toolName args (world s)) as [[e|r] w]; discriminate.
Qed.

Lemma Returns_processQuery (R : Runtime) (query : string) : Returns (processQuery R query).
Proof.
  intros s. destruct (processQuery_run R query s) as (output & s' & _ & _ & H & _).
  exists output, s'. exact H.
Qed.

Ltac settles :=
  repeat first
    [ apply Settles_emit
    | apply Settles_mcp_call
    | apply Returns_Settles; apply Returns_processQuery
    | apply Settles_ret
    | apply Settles_throw
    | apply Settles_liftSum
    | apply Settles_bind; [|intros ?]
    | apply Settles_tryCatch; [|intros ?]
    | match goal with
      | |- Settles (if ?b then _ else _) => destruct b
      | |- Settles (match ?x with _ => _ end) => destruct x
      end ].

Ltac returns :=
  repeat first
    [ apply Returns_emit
    | apply Returns_ret
    | apply Returns_bind; [|intros ?] ].

Lemma Returns_queryTurn (R : Runtime) (message : string) : Returns (queryTurn R message).
Proof.
  unfold queryTurn, logger_info, logger_error, console_log.
  apply Returns_tryCatch; [settles | intros e; returns].
Qed.

Lemma Returns_directTurn (R : Runtime) (message : string) : Returns (directTurn R message).
Proof.
  unfold directTurn, directArgs, directToolCall, logger_info, logger_debug, logger_warn,
    logger_error, console_log. cbv zeta.
  apply Returns_tryCatch; [settles | intros e; returns].
Qed.

Lemma Onward_queryTurn (R : Runtime) (message : string) : Keeps (Onward R) (queryTurn R message).
Proof. unfold queryTurn, logger_info, logger_error, console_log. onward. Qed.

Lemma Onward_directTurn (R : Runtime) (message : string) :
  Keeps (Onward R) (directTurn R message).
Proof.
  unfold directTurn, directArgs, directToolCall, logger_info, logger_debug, logger_warn,
    logger_error, console_log. cbv zeta. onward.
Qed.

(** The loop, one turn unfolded. *)
Lemma whileTrue_turn (R : Runtime) (message : string) (rest : list string) :
  whileTrue R (message :: rest)
  = (emit R (Question prompt) ;;
     if isQuit message then ret tt
     else if isDebug message then
       emit R (SetEnv "LOG_LEVEL" "debug") ;;
       console_log R (LF ++ "已切换到调试模式，将显示详细日志信息") ;;
       whileTrue R rest
     else if isInfo message then
       emit R (SetEnv "LOG_LEVEL" "info") ;;
       console_log R (LF ++ "已切换到标准模式，将只显示重要日志信息") ;;
       whileTrue R rest
     else if isDirect message then
       directTurn R message ;; whileTrue R rest
     else
       queryTurn R message ;; whileTrue R rest).
Proof. reflexivity. Qed.

(** A line that is not [quit] is dealt with and the loop goes on: the
    turn never throws, keeps the catalog and only adds to the trace,
    and what it does does not depend on the lines that follow. *)
Lemma whileTrue_goes_on (R : Runtime) (message : string) :
  isQuit message = false ->
  exists turn : State R -> State R,
    (forall rest s, whileTrue R (message :: rest) s = whileTrue R rest (turn s))
    /\ (forall s, Onward R s (turn s)).
Proof.
  intros Hq.
  destruct (isDebug message) eqn:Hd; [|destruct (isInfo message) eqn:Hi;
                                       [|destruct (isDirect message) eqn:Ht]].
  - exists (fun s => snd ((emit R (Question prompt) ;;
                           emit R (SetEnv "LOG_LEVEL" "debug") ;;
                           console_log R (LF ++ "已切换到调试模式，将显示详细日志信息")) s)).
    split.
    + intros rest s. rewrite whileTrue_turn, Hq, Hd. reflexivity.
    + unfold console_log. change (Keeps (Onward R)
        (emit R (Question prompt) ;; emit R (SetEnv "LOG_LEVEL" "debug") ;;
         emit R (ConsoleLog (LF ++ "已切换到调试模式，将显示详细日志信息")))). onward.
  - exists (fun s => snd ((emit R (Question prompt) ;;
                           emit R (SetEnv "LOG_LEVEL" "info") ;;
                           console_log R (LF ++ "已切换到标准模式，将只显示重要日志信息")) s)).
    split.
    + intros rest s. rewrite whileTrue_turn, Hq, Hd, Hi. reflexivity.
    + unfold console_log. change (Keeps (Onward R)
        (emit R (Question prompt) ;; emit R (SetEnv "LOG_LEVEL" "info") ;;
         emit R (ConsoleLog (LF ++ "已切换到标准模式，将只显示重要日志信息")))). onward.
  - exists (fun s => snd ((emit R (Question prompt) ;; directTurn R message) s)). split.
    + intros rest s. rewrite whileTrue_turn, Hq, Hd, Hi, Ht.
      unfold bind at 1 2 3. unfold emit at 1 2.
      destruct (Returns_directTurn R message
                  (mkState (world s) (trace s ++ [Question prompt]) (tools s)
                           (messages s) (finalText s) (toolResults s)))
        as ([] & s1 & ->). reflexivity.
    + change (Keeps (Onward R) (emit R (Question prompt) ;; directTurn R message)).
      apply (Keeps_bind (Onward R)); [apply Onward_emit | intros _; apply Onward_directTurn].
  - exists (fun s => snd ((emit R (Question prompt) ;; queryTurn R message) s)). split.
    + intros rest s. rewrite whileTrue_turn, Hq, Hd, Hi, Ht.
      unfold bind at 1 2 3. unfold emit at 1 2.
      destruct (Returns_queryTurn R message
                  (mkState (world s) (trace s ++ [Question prompt]) (tools s)
                           (messages s) (finalText s) (toolResults s)))
        as ([] & s1 & ->). reflexivity.
    + change (Keeps (Onward R) (emit R (Question prompt) ;; queryTurn R message)).
      apply (Keeps_bind (Onward R)); [apply Onward_emit | intros _; apply Onward_queryTurn].
Qed.

(** *** What a query does *)

(** X1: [processQuery] always returns a text: it never rejects and never
    hangs, whatever the model and the tools do. It leaves the catalog
    as it was, and all it does is log, call the model and invoke
    tools. *)
Theorem a_query_always_yields_text (R : Runtime) (query : string) (s : State R) :
  exists output s',
    processQuery R query s = (Return output, s')
    /\ tools s' = tools s
    /\ exists evs,
         trace s' = (trace s ++ evs)%list /\ forallb isQueryEvent evs = true.
Proof.
  destruct (Returns_processQuery R query s) as (output & s' & Hrun).
  exists output, s'. split; [exact Hrun|].
  pose proof (Quietly_processQuery R query s) as H. rewrite Hrun in H. exact H.
Qed.

(** X2: Every request of a query names the model [deepseek-chat] and
    allows 1000 tokens. The first one carries the conversation of the
    user message alone and the tool catalog; the later ones carry no
    catalog. *)
Theorem only_the_first_request_carries_the_catalog
        (R : Runtime) (query : string) (s : State R) :
  exists follow,
    modelCalls (trace (snd (processQuery R query s)))
    = (modelCalls (trace s)
         ++ mkRequest "deepseek-chat" 1000 [userMessage query] (Some (tools s)) :: follow)%list
    /\ Forall (fun req => req_model req = "deepseek-chat"
                          /\ req_max_tokens req = 1000%Z
                          /\ req_tools req = None)
              follow.
Proof.
  destruct (processQuery_run R query s)
    as (output & s' & follow & done & Hrun & _ & _ & Hcalls & Hall & _).
  exists follow. rewrite Hrun. split; [exact Hcalls|].
  eapply Forall_impl; [|exact Hall]. intros req (H & _). exact H.
Qed.

(** X3: The conversation of a query is only ever pushed to: it starts
    with the user message, every follow-up request carries a
    conversation that starts with the user message, and the
    conversation at the end continues each of them. *)
Theorem the_conversation_only_grows (R : Runtime) (query : string) (s : State R) :
  exists follow,
    modelCalls (trace (snd (processQuery R query s)))
    = (modelCalls (trace s)
         ++ mkRequest "deepseek-chat" 1000 [userMessage query] (Some (tools s)) :: follow)%list
    /\ extends [userMessage query] (messages (snd (processQuery R query s)))
    /\ Forall (fun req => extends [userMessage query] (req_messages req)
                          /\ extends (req_messages req)
                                     (messages (snd (processQuery R query s))))
              follow.
Proof.
  destruct (processQuery_run R query s)
    as (output & s' & follow & done & Hrun & _ & Hmsgs & Hcalls & Hall & _).
  exists follow. rewrite Hrun. conjs; [exact Hcalls | exact Hmsgs |].
  eapply Forall_impl; [|exact Hall]. intros req (_ & H). exact H.
Qed.

(** X4: The tools a query invokes are those the first choice of the
    model asks for, in the order of the batch and with the parsed
    arguments: calls of another type than [function] are skipped, and
    the invocations made are an initial segment of the calls whose
    arguments are JSON. When all arguments are JSON every requested
    tool is invoked, once. *)
Theorem tools_are_invoked_in_the_order_of_the_batch
        (R : Runtime) (query : string) (s : State R) (response : ChatResponse)
        (w : World R) :
  chat_completions_create R
    (mkRequest "deepseek-chat" 1000 [userMessage query] (Some (tools s))) (world s)
    = (inr response, w) ->
  exists done,
    toolCallsMade (trace (snd (processQuery R query s)))
    = (toolCallsMade (trace s) ++ done)%list
    /\ extends done (planned R (requested response))
    /\ (forallb (wellFormed R) (requested response) = true ->
        done = planned R (requested response)).
Proof.
  intros Hm. unfold requested.
  destruct (firstChoice response) as [choice|] eqn:Hfc.
  - destruct (tool_calls (message choice)) as [[|toolCall rest]|] eqn:Htc.
    + exists []. open_store s. unfold processQuery. run. rewrite Hm. run. rewrite Hfc. run.
      rewrite Htc.
      destruct (truthy (content (message choice))); run; cbn [snd trace]; readers;
        conjs; finish.
    + destruct (processQuery_batch R query s response w choice toolCall rest Hm Hfc Htc)
        as (s1 & _ & _ & _ & _ & Hcalls1 & _ & Hrun).
      destruct (forOf_handleToolCall R choice (toolCall :: rest) s1)
        as (r & s2 & done & Hloop & Hr & _ & Hdone & Hext & Hall & Hthrow).
      exists done. rewrite Hrun, Hloop. conjs.
      * destruct Hr as [-> | [e ->]]; cbn [snd trace]; rewrite toolCallsMade_app;
          cbn [toolCallsMade]; rewrite List.app_nil_r, Hdone, Hcalls1; reflexivity.
      * exact Hext.
      * intros Hwf. apply Hall. destruct Hr as [-> | [e ->]]; [reflexivity|].
        destruct (Hthrow e eq_refl) as (bad & Hin & Hty & Hp).
        rewrite forallb_forall in Hwf. specialize (Hwf bad Hin).
        unfold wellFormed in Hwf. rewrite Hty, Hp in Hwf. discriminate Hwf.
    + exists []. open_store s. unfold processQuery. run. rewrite Hm. run. rewrite Hfc. run.
      rewrite Htc.
      destruct (truthy (content (message choice))); run; cbn [snd trace]; readers;
        conjs; finish.
  - exists []. open_store s. unfold processQuery. run. rewrite Hm. run. rewrite Hfc. run.
    cbn [snd trace]. readers. conjs; finish.
Qed.

(** X5: When the first request to the model fails, the query returns
    the text [处理查询时发生错误: ] followed by the message of the error;
    no tool is invoked and the model is not asked again. *)
Theorem a_failed_first_request_becomes_the_answer
        (R : Runtime) (query : string) (s : State R) (e : Thrown) (w : World R) :
  chat_completions_create R
    (mkRequest "deepseek-chat" 1000 [userMessage query] (Some (tools s))) (world s)
    = (inl e, w) ->
  fst (processQuery R query s) = Return ("处理查询时发生错误: " ++ describe e)
  /\ toolCallsMade (trace (snd (processQuery R query s))) = toolCallsMade (trace s)
  /\ modelCalls (trace (snd (processQuery R query s)))
     = (modelCalls (trace s)
          ++ [mkRequest "deepseek-chat" 1000 [userMessage query] (Some (tools s))])%list.
Proof.
  intros Hm. open_store s. unfold processQuery. run. rewrite Hm.
  cbn [fst snd trace]. readers. conjs; reflexivity.
Qed.

(** X6: When the model returns no choice, or a first choice without
    text and without tool calls, the query returns the empty string
    and invokes no tool. *)
Theorem an_empty_response_gives_the_empty_text
        (R : Runtime) (query : string) (s : State R) (response : ChatResponse)
        (w : World R) :
  chat_completions_create R
    (mkRequest "deepseek-chat" 1000 [userMessage query] (Some (tools s))) (world s)
    = (inr response, w) ->
  match firstChoice response with
  | None => True
  | Some choice =>
      truthy (content (message choice)) = false
      /\ (tool_calls (message choice) = None \/ tool_calls (message choice) = Some [])
  end ->
  fst (processQuery R query s) = Return ""
  /\ toolCallsMade (trace (snd (processQuery R query s))) = toolCallsMade (trace s).
Proof.
  intros Hm Hc. open_store s. unfold processQuery. run. rewrite Hm. run.
  destruct (firstChoice response) as [choice|].
  - destruct Hc as (Hno & [Htc | Htc]); run; rewrite Hno; run; rewrite Htc;
      cbn [fst snd trace]; readers; conjs; reflexivity.
  - run. cbn [fst snd trace]. readers. conjs; reflexivity.
Qed.

(** *** What the loop does *)


Lemma whileTrue_before (R : Runtime) (before : list string) :
  existsb isQuit before = false ->
  exists turns : State R -> State R,
    (forall rest s, whileTrue R (before ++ rest) s = whileTrue R rest (turns s))
    /\ (forall s, Onward R s (turns s)).
Proof.
  induction before as [|line before IH]; intros Hq.
  - exists (fun s => s). split; [reflexivity | intros s; reflexivity].
  - cbn [existsb] in Hq. apply orb_false_elim in Hq. destruct Hq as [Hline Hq].
    destruct (whileTrue_goes_on R line Hline) as (turn & Hturn & Hon).
    destruct (IH Hq) as (turns & Hturns & Hons).
    exists (fun s => turns (turn s)). split.
    + intros rest s. rewrite <- List.app_comm_cons, Hturn. apply Hturns.
    + intros s. transitivity (turn s); [apply Hon | apply Hons].
Qed.

Lemma first_quit (input : list string) :
  existsb isQuit input = true ->
  exists before q after,
    input = (before ++ q :: after)%list
    /\ existsb isQuit before = false /\ isQuit q = true.
Proof.
  induction input as [|line input IH]; [discriminate|]. cbn [existsb].
  destruct (isQuit line) eqn:Hline.
  - intros _. exists [], line, input. conjs; [reflexivity | reflexivity | exact Hline].
  - cbn [orb]. intros H. destruct (IH H) as (before & q & after & -> & Hb & Hq).
    exists (line :: before), q, after. conjs; [reflexivity | | exact Hq].
    cbn [existsb]. rewrite Hline, Hb. reflexivity.
Qed.

Lemma chatLoop_waits (R : Runtime) (input : list string) (s s1 : State R) :
  whileTrue R input
    (mkState (world s) (trace s ++ banner) (tools s)
             (messages s) (finalText s) (toolResults s))
  = (Pending, s1) ->
  chatLoop R input s = (Pending, s1).
Proof.
  intros H. open_store s. unfold chatLoop.
  cbv beta iota zeta delta [tryFinally tryCatch bind forOf banner emit ret].
  cbn [world trace tools messages finalText toolResults].
  rewrite <- !List.app_assoc. cbn [app].
  unfold banner in H. rewrite H. reflexivity.
Qed.

Lemma chatLoop_until_quit (R : Runtime) (before : list string) (q : string) (s : State R) :
  existsb isQuit before = false ->
  isQuit q = true ->
  exists s' evs,
    (forall after, chatLoop R (before ++ q :: after) s = (Return tt, s'))
    /\ tools s' = tools s
    /\ trace s' = (trace s ++ banner ++ evs ++ [Question prompt; RlClose])%list.
Proof.
  intros Hb Hq. destruct (whileTrue_before R before Hb) as (turns & Hturns & Hon).
  set (s0 := mkState (world s) (trace s ++ banner) (tools s)
                     (messages s) (finalText s) (toolResults s)).
  destruct (Hon s0) as (Ht & evs & Hevs).
  exists (mkState (world (turns s0)) ((trace (turns s0) ++ [Question prompt]) ++ [RlClose])
                  (tools (turns s0)) (messages (turns s0)) (finalText (turns s0))
                  (toolResults (turns s0))), evs.
  conjs.
  - intros after.
    apply (chatLoop_returns R _ s
             (mkState (world (turns s0)) (trace (turns s0) ++ [Question prompt])
                      (tools (turns s0)) (messages (turns s0)) (finalText (turns s0))
                      (toolResults (turns s0)))).
    fold s0. rewrite Hturns.
    apply whileTrue_quit. unfold isQuit in Hq. apply String.eqb_eq in Hq. exact Hq.
  - exact Ht.
  - cbn [trace]. rewrite Hevs. subst s0. cbn [trace].
    rewrite <- !List.app_assoc. reflexivity.
Qed.

Lemma chatLoop_without_quit (R : Runtime) (input : list string) (s : State R) :
  existsb isQuit input = false ->
  exists s' evs,
    chatLoop R input s = (Pending, s')
    /\ tools s' = tools s
    /\ trace s' = (trace s ++ banner ++ evs ++ [Question prompt])%list.
Proof.
  intros Hb. destruct (whileTrue_before R input Hb) as (turns & Hturns & Hon).
  set (s0 := mkState (world s) (trace s ++ banner) (tools s)
                     (messages s) (finalText s) (toolResults s)).
  destruct (Hon s0) as (Ht & evs & Hevs).
  exists (mkState (world (turns s0)) (trace (turns s0) ++ [Question prompt])
                  (tools (turns s0)) (messages (turns s0)) (finalText (turns s0))
                  (toolResults (turns s0))), evs.
  conjs.
  - apply chatLoop_waits. fold s0.
    rewrite <- (List.app_nil_r input), Hturns. destruct (turns s0). reflexivity.
  - exact Ht.
  - cbn [trace]. rewrite Hevs. subst s0. cbn [trace].
    rewrite <- !List.app_assoc. reflexivity.
Qed.

(** X7: The loop ends at the first line that is [quit] in any casing:
    the lines typed after it are never read, the catalog is kept, and
    the last two things the loop does are to ask for that line and to
    close the readline interface. *)
Theorem the_loop_ends_at_the_first_quit
        (R : Runtime) (before : list string) (q : string) (s : State R) :
  existsb isQuit before = false ->
  isQuit q = true ->
  exists s' evs,
    (forall after, chatLoop R (before ++ q :: after) s = (Return tt, s'))
    /\ tools s' = tools s
    /\ trace s' = (trace s ++ banner ++ evs ++ [Question prompt; RlClose])%list.
Proof. apply chatLoop_until_quit. Qed.

(** X8: [chatLoop] never throws, whatever is typed and whatever the
    model and the tools do: it returns when some line is [quit], and
    otherwise it is left waiting for the next line. *)
Theorem the_loop_never_throws (R : Runtime) (input : list string) (s : State R) :
  fst (chatLoop R input s) = if existsb isQuit input then Return tt else Pending.
Proof.
  destruct (existsb isQuit input) eqn:Hq.
  - destruct (first_quit input Hq) as (before & q & after & -> & Hb & Hlast).
    destruct (chatLoop_until_quit R before q s Hb Hlast) as (s' & evs & Hrun & _).
    rewrite Hrun. reflexivity.
  - destruct (chatLoop_without_quit R input s Hq) as (s' & evs & Hrun & _).
    rewrite Hrun. reflexivity.
Qed.


(** X10: A line that is no command is handed to [processQuery] as it
    was typed, and what [processQuery] returns is printed after a line
    feed; the loop then goes on with the next line. The [catch] around
    the query is never entered. *)
Theorem a_line_is_sent_to_the_model_as_typed
        (R : Runtime) (message : string) (s : State R) :
  isQuit message = false ->
  isDebug message = false ->
  isInfo message = false ->
  isDirect message = false ->
  exists output s1,
    processQuery R message
      (mkState (world s) (trace s ++ [Question prompt; Log INFO "开始处理查询..."])
               (tools s) (messages s) (finalText s) (toolResults s))
    = (Return output, s1)
    /\ forall rest,
         whileTrue R (message :: rest) s
         = whileTrue R rest
             (mkState (world s1)
                      (trace s1 ++ [Log INFO "查询处理完成"; ConsoleLog (LF ++ output)])
                      (tools s1) (messages s1) (finalText s1) (toolResults s1)).
Proof.
  intros Hq Hd Hi Ht.
  destruct (Returns_processQuery R message
              (mkState (world s) (trace s ++ [Question prompt; Log INFO "开始处理查询..."])
                       (tools s) (messages s) (finalText s) (toolResults s)))
    as (output & s1 & Hrun).
  exists output, s1. split; [exact Hrun|]. intros rest.
  rewrite whileTrue_turn, Hq, Hd, Hi, Ht. unfold queryTurn.
  open_store s.
  cbv beta iota zeta delta [bind tryCatch logger_info emit console_log].
  cbn [world trace tools messages finalText toolResults].
  rewrite <- !List.app_assoc. cbn [app]. rewrite Hrun.
  cbn [world trace tools messages finalText toolResults].
  rewrite <- !List.app_assoc. reflexivity.
Qed.

(** X11: The commands [debug] and [info], in any casing, set
    [LOG_LEVEL] in the process environment and print a confirmation;
    they reach neither the model nor a tool, and the loop goes on. *)
Theorem level_commands_only_set_the_environment
        (R : Runtime) (line : string) (rest : list string) (s : State R) :
  (In line (casings "debug") ->
   whileTrue R (line :: rest) s
   = whileTrue R rest
       (mkState (world s)
                (trace s ++ [Question prompt; SetEnv "LOG_LEVEL" "debug";
                             ConsoleLog (LF ++ "已切换到调试模式，将显示详细日志信息")])
                (tools s) (messages s) (finalText s) (toolResults s)))
  /\ (In line (casings "info") ->
      whileTrue R (line :: rest) s
      = whileTrue R rest
          (mkState (world s)
                   (trace s ++ [Question prompt; SetEnv "LOG_LEVEL" "info";
                                ConsoleLog (LF ++ "已切换到标准模式，将只显示重要日志信息")])
                   (tools s) (messages s) (finalText s) (toolResults s))).
Proof.
  split; intros Hin.
  - assert (Hl : toLowerCase line = "debug").
    { cbn in Hin. repeat (destruct Hin as [<- | Hin]; [reflexivity|]). contradiction. }
    cbn [whileTrue]. rewrite Hl. open_store s.
    cbv beta iota zeta delta [bind emit console_log String.eqb Ascii.eqb Bool.eqb].
    cbn [world trace tools messages finalText toolResults].
    rewrite <- !List.app_assoc. reflexivity.
  - assert (Hl : toLowerCase line = "info").
    { cbn in Hin. repeat (destruct Hin as [<- | Hin]; [reflexivity|]). contradiction. }
    cbn [whileTrue]. rewrite Hl. open_store s.
    cbv beta iota zeta delta [bind emit console_log String.eqb Ascii.eqb Bool.eqb].
    cbn [world trace tools messages finalText toolResults].
    rewrite <- !List.app_assoc. reflexivity.
Qed.

(** *** Direct calls *)

Lemma splitOn_join (sep : ascii) (s : string) :
  exists h t,
    splitOn sep s = h :: t
    /\ (forall c, In c (list_ascii_of_string h) -> c <> sep)
    /\ s = (h ++ match t with
                 | [] => ""
                 | _ => String sep (join (String sep "") t)
                 end)%string.
Proof.
  induction s as [|c r IH].
  - exists "", []. conjs; [reflexivity | intros c [] | reflexivity].
  - destruct IH as (h & t & Hs & Hh & Hr). cbn [splitOn].
    destruct (Ascii.eqb c sep) eqn:Hc.
    + apply Ascii.eqb_eq in Hc. subst c. exists "", (splitOn sep r). rewrite Hs.
      conjs; [reflexivity | intros c [] |].
      cbn [append]. f_equal. rewrite Hr at 1. unfold join. cbn [String.concat].
      destruct t; [rewrite append_empty; reflexivity | reflexivity].
    + rewrite Hs. exists (String c h), t. conjs; [reflexivity | |].
      * intros c' [<- | Hin]; [|apply Hh, Hin].
        intros ->. rewrite Ascii.eqb_refl in Hc. discriminate.
      * cbn [append]. f_equal. exact Hr.
Qed.


(** X13: Splitting the text after [tool:] at the spaces loses nothing:
    there is always a first piece, the tool name, which holds no space,
    and the pieces after it, joined with spaces again, are exactly what
    follows the first space of the trimmed text. *)
Theorem the_argument_text_survives_the_split (message : string) :
  exists toolName pieces,
    toolPartsOf message = toolName :: pieces
    /\ (forall c, In c (list_ascii_of_string toolName) -> c <> space)
    /\ trim (substringFrom 5 message)
       = (toolName ++ match pieces with
                      | [] => ""
                      | _ => " " ++ join " " pieces
                      end)%string.
Proof. apply splitOn_join. Qed.

End ClientInvariants.

(* ===================================================================== *)
(** ** Invariants of the weather server *)
(* ===================================================================== *)

Module WeatherInvariants.

Import Weather WeatherMore WeatherFacts.

Ltac conjs := repeat match goal with |- _ /\ _ => split end.

(** What one call of the helper adds to the trace. *)
Lemma makeNWSRequest_shape (R : Runtime) (url : string) (fuel : nat) :
  forall s : State R,
  exists evs n,
    trace (snd (makeNWSRequest R fuel url s)) = (trace s ++ evs)%list
    /\ Paced url (network evs)
    /\ fetched evs = repeat url n
    /\ (n <= fuel)%nat.
Proof.
  induction fuel as [|fuel IH]; intros [w t].
  - exists [], 0%nat. cbn. rewrite List.app_nil_r. conjs; [reflexivity | constructor | reflexivity | lia].
  - cbn [makeNWSRequest]. run.
    destruct (fetch R url requestHeaders w) as [[e|r] w1] eqn:Hf; run.
    + eexists; exists 1%nat. cbn [snd trace]. rewrite <- !List.app_assoc. cbn [app].
      conjs; [reflexivity | apply Paced_last | reflexivity | lia].
    + destruct (status r =? 429)%Z eqn:Hs.
      * match goal with
        | |- context [makeNWSRequest R fuel url ?st] =>
            destruct (IH st) as (evs & n & Htr & Hp & Hfe & Hn);
            destruct (makeNWSRequest R fuel url st) as [[d|e|] [w2 t2]] eqn:Hrec
        end; cbn [snd trace] in *;
          try (elim (makeNWSRequest_never_throws _ _ _ _ _ _ Hrec));
          (subst t2; eexists; exists (S n); rewrite <- !List.app_assoc; cbn [app];
           conjs; [reflexivity | apply Paced_retry; exact Hp
                  | cbn [fetched repeat]; rewrite Hfe; reflexivity | lia]).
      * destruct (ok r); cbn [negb]; run.
        -- destruct (json r) as [e|data]; run;
             (eexists; exists 1%nat; cbn [snd trace]; rewrite <- !List.app_assoc; cbn [app];
              conjs; [reflexivity | apply Paced_last | reflexivity | lia]).
        -- eexists; exists 1%nat. cbn [snd trace]. rewrite <- !List.app_assoc. cbn [app].
           conjs; [reflexivity | apply Paced_last | reflexivity | lia].
Qed.

(** X14: Every request of the helper goes to the URL it was given,
    with the two fixed headers, right after a timer of 500 ms; between
    two requests exactly one more timer is set, the delay of the retry.
    The helper does nothing else on the network, and with [fuel]
    unrollings it makes at most [fuel] requests. *)
Theorem every_request_waits_half_a_second
        (R : Runtime) (url : string) (fuel : nat) (s : State R) :
  exists evs n,
    trace (snd (makeNWSRequest R fuel url s)) = (trace s ++ evs)%list
    /\ Paced url (network evs)
    /\ fetched evs = repeat url n
    /\ (n <= fuel)%nat.
Proof. apply makeNWSRequest_shape. Qed.

Lemma makeNWSRequest_keeps_retrying
      (R : Runtime) (url : string) (Inv : World R -> Prop) :
  alwaysRateLimited R url Inv ->
  forall (fuel : nat) (s : State R),
    Inv (world s) ->
    exists s',
      makeNWSRequest R fuel url s = (Pending, s')
      /\ Inv (world s')
      /\ fetched (trace s') = (fetched (trace s) ++ repeat url fuel)%list.
Proof.
  intros Hup. induction fuel as [|fuel IH]; intros [w t] Hw; cbn [world trace] in *.
  - eexists. conjs; [reflexivity | exact Hw |]. cbn. rewrite List.app_nil_r. reflexivity.
  - destruct (Hup w Hw) as (r & w1 & Hf & Hs & Hw1).
    rewrite (makeNWSRequest_429 R fuel url w w1 t r Hf Hs).
    match goal with
    | |- context [makeNWSRequest R fuel url ?st] =>
        destruct (IH st Hw1) as (s' & Hrun & Hinv & Hfe)
    end.
    exists s'. conjs; [exact Hrun | exact Hinv |].
    rewrite Hfe. cbn [trace]. rewrite fetched_app. cbn [fetched repeat].
    rewrite <- List.app_assoc. reflexivity.
Qed.

(** X15: The helper never gives up on a 429: while the upstream keeps
    answering 429 it keeps asking, so for every bound on the number of
    retries it has made that many requests and has not returned. *)
Theorem a_persistent_429_is_retried_without_end
        (R : Runtime) (url : string) (Inv : World R -> Prop) (fuel : nat) (s : State R) :
  alwaysRateLimited R url Inv ->
  Inv (world s) ->
  fst (makeNWSRequest R fuel url s) = Pending
  /\ fetched (trace (snd (makeNWSRequest R fuel url s)))
     = (fetched (trace s) ++ repeat url fuel)%list.
Proof.
  intros Hup Hw.
  destruct (makeNWSRequest_keeps_retrying R url Inv Hup fuel s Hw) as (s' & -> & _ & Hfe).
  split; [reflexivity | exact Hfe].
Qed.

Lemma makeNWSRequest_fetch_rejects
      (R : Runtime) (fuel : nat) (url : string) (w w1 : World R) (t : list Event)
      (e : Thrown) :
  fetch R url requestHeaders w = (inl e, w1) ->
  makeNWSRequest R (S fuel) url (mkState w t)
  = (Return JNull,
     mkState w1
       (t ++ [ Log DEBUG ("发起请求: " ++ url);
               SetTimeout (Some 500%Z);
               Fetch url requestHeaders;
               LogError ("请求NWS API时发生错误: " ++ url) e ])%list).
Proof.
  intros Hf. cbn [makeNWSRequest]. run. rewrite Hf. run.
  rewrite <- !List.app_assoc. reflexivity.
Qed.

Lemma status_of_ok (r : Response) : ok r = true -> (status r =? 429)%Z = false.
Proof.
  unfold ok. intros H. apply andb_prop in H. destruct H as [_ H].
  apply Z.leb_le in H. apply Z.eqb_neq. lia.
Qed.

Lemma makeNWSRequest_body_rejects
      (R : Runtime) (fuel : nat) (url : string) (w w1 : World R) (t : list Event)
      (r : Response) (e : Thrown) :
  fetch R url requestHeaders w = (inr r, w1) ->
  ok r = true ->
  json r = inl e ->
  makeNWSRequest R (S fuel) url (mkState w t)
  = (Return JNull,
     mkState w1
       (t ++ [ Log DEBUG ("发起请求: " ++ url);
               SetTimeout (Some 500%Z);
               Fetch url requestHeaders;
               LogError ("请求NWS API时发生错误: " ++ url) e ])%list).
Proof.
  intros Hf Hok Hj. cbn [makeNWSRequest]. run. rewrite Hf. run.
  rewrite (status_of_ok r Hok), Hok, Hj. cbn [negb]. run.
  rewrite <- !List.app_assoc. reflexivity.
Qed.

(** X16: When [fetch] rejects, or the body of a successful answer is
    not JSON, the helper logs the error and returns [null]; it has made
    one request and does not retry. *)
Theorem a_failed_request_gives_null
        (R : Runtime) (fuel : nat) (url : string) (w w1 : World R) (t : list Event)
        (e : Thrown) :
  fetch R url requestHeaders w = (inl e, w1)
  \/ (exists r, fetch R url requestHeaders w = (inr r, w1)
                /\ ok r = true /\ json r = inl e) ->
  makeNWSRequest R (S fuel) url (mkState w t)
  = (Return JNull,
     mkState w1
       (t ++ [ Log DEBUG ("发起请求: " ++ url);
               SetTimeout (Some 500%Z);
               Fetch url requestHeaders;
               LogError ("请求NWS API时发生错误: " ++ url) e ])%list).
Proof.
  intros [Hf | (r & Hf & Hok & Hj)].
  - apply makeNWSRequest_fetch_rejects, Hf.
  - apply (makeNWSRequest_body_rejects R fuel url w w1 t r e Hf Hok Hj).
Qed.

(** X17: A tool wrapped by [withErrorHandling] never throws, whatever
    its handler does: when the handler throws, the tool answers with
    the text [执行工具时发生错误: ] followed by the message of the
    error. *)
Theorem a_wrapped_tool_never_throws
        (R : Runtime) (A : Type) (name : string) (handler : A -> Prog R ToolResponse)
        (args : A) (s : State R) :
  (forall e, fst (withErrorHandling R name handler args s) <> Throw e)
  /\ (forall e s1,
         handler args (mkState (world s)
                               (trace s ++ [Log DEBUG ("执行工具: " ++ name ++ ", 参数:")]))
         = (Throw e, s1) ->
         fst (withErrorHandling R name handler args s)
         = Return (textResponse ("执行工具时发生错误: " ++ describe e))).
Proof.
  destruct s as [w t]. unfold withErrorHandling. run. split.
  - intros e.
    destruct (handler args _) as [[r|e'|] s1]; discriminate.
  - intros e s1 ->. reflexivity.
Qed.



(** X19: A successful answer whose body is a falsy value ([null],
    [false], [0] or the empty string) is taken for a failure:
    [get-alerts] and [get-forecast] answer with their failure texts. *)
Theorem a_falsy_body_counts_as_a_failure
        (R : Runtime) (fuel : nat) (url : string) (w w1 : World R) (t : list Event)
        (r : Response) (data : Json) :
  fetch R url requestHeaders w = (inr r, w1) ->
  ok r = true ->
  json r = inr data ->
  falsy data = true ->
  (forall args : AlertsArgs,
      alertsUrlOf (toUpperCase (state args)) = url ->
      fst (callback (getAlertsTool R (S fuel)) args (mkState w t))
      = Return [mkText "text" "Failed to retrieve alerts data"])
  /\ (forall args : ForecastArgs,
         pointsUrlOf R args = url ->
         fst (callback (getForecastTool R (S fuel)) args (mkState w t))
         = Return [mkText "text" (noPointsText R args)]).
Proof.
  intros Hf Hok Hj Hfalsy. split.
  - intros args Hurl. subst url.
    cbn [getAlertsTool callback]. unfold withErrorHandling, getAlertsHandler. run.
    rewrite (makeNWSRequest_success R fuel _ w w1 _ r data Hf Hok Hj), Hfalsy. reflexivity.
  - intros args Hurl. subst url.
    cbn [getForecastTool callback]. unfold withErrorHandling, getForecastHandler. run.
    rewrite (makeNWSRequest_success R fuel _ w w1 _ r data Hf Hok Hj), Hfalsy. reflexivity.
Qed.


(** X21: When the grid point body names no forecast URL (the field
    is missing or empty), [get-forecast] answers
    [无法从网格点数据中获取天气预报URL] and makes no second request. *)
Theorem a_grid_point_without_forecast_url_ends_the_call
        (R : Runtime) (fuel : nat) (args : ForecastArgs) (w w1 : World R) (t : list Event)
        (r : Response) (data : Json) :
  fetch R (pointsUrlOf R args) requestHeaders w = (inr r, w1) ->
  ok r = true ->
  json r = inr data ->
  falsy data = false ->
  points_forecast (asPointsResponse R data) = None
  \/ points_forecast (asPointsResponse R data) = Some "" ->
  fst (callback (getForecastTool R (S fuel)) args (mkState w t))
  = Return [mkText "text" "无法从网格点数据中获取天气预报URL"]
  /\ fetched (trace (snd (callback (getForecastTool R (S fuel)) args (mkState w t))))
     = (fetched t ++ [pointsUrlOf R args])%list.
Proof.
  intros Hf Hok Hj Hfalsy Hno.
  cbn [getForecastTool callback]. unfold withErrorHandling, getForecastHandler. run.
  rewrite (makeNWSRequest_success R fuel _ w w1 _ r data Hf Hok Hj), Hfalsy.
  destruct Hno as [-> | ->]; cbn [truthy negb String.eqb]; run; cbn [fst snd trace];
    rewrite !fetched_app; cbn [fetched]; rewrite ?List.app_nil_r; (split; reflexivity).
Qed.

(** X22: [get-forecast] asks for the grid point and then for the
    forecast URL the grid point body names, once each when both
    answers are successful. Without periods in the second body, or
    with an empty list of them, it answers [没有可用的天气预报周期数据];
    otherwise it answers the header line for the coordinates, an empty
    line, and the formatted periods in the order of the body. *)
Theorem get_forecast_follows_the_forecast_url
        (R : Runtime) (fuel : nat) (args : ForecastArgs) (w w1 w2 : World R)
        (t : list Event) (r r2 : Response) (data data2 : Json) (forecastUrl : string) :
  fetch R (pointsUrlOf R args) requestHeaders w = (inr r, w1) ->
  ok r = true ->
  json r = inr data ->
  falsy data = false ->
  points_forecast (asPointsResponse R data) = Some forecastUrl ->
  forecastUrl <> "" ->
  fetch R forecastUrl requestHeaders w1 = (inr r2, w2) ->
  ok r2 = true ->
  json r2 = inr data2 ->
  falsy data2 = false ->
  fst (callback (getForecastTool R (S fuel)) args (mkState w t))
  = Return
      [mkText "text"
         match periods (asForecastResponse R data2) with
         | None | Some [] => "没有可用的天气预报周期数据"
         | Some ps =>
             "位置" ++ coordText R args ++ "的天气预报:" ++ LF ++ LF
               ++ join LF (map (formatPeriod R) ps)
         end]
  /\ fetched (trace (snd (callback (getForecastTool R (S fuel)) args (mkState w t))))
     = (fetched t ++ [pointsUrlOf R args; forecastUrl])%list.
Proof.
  intros Hf Hok Hj Hfalsy Hurl Hne Hf2 Hok2 Hj2 Hfalsy2.
  cbn [getForecastTool callback]. unfold withErrorHandling, getForecastHandler. run.
  rewrite (makeNWSRequest_success R fuel _ w w1 _ r data Hf Hok Hj), Hfalsy, Hurl.
  apply String.eqb_neq in Hne. cbn [truthy orElse]. rewrite Hne. cbn [negb]. run.
  rewrite (makeNWSRequest_success R fuel _ w1 w2 _ r2 data2 Hf2 Hok2 Hj2), Hfalsy2.
  destruct (periods (asForecastResponse R data2)) as [[|p ps]|]; run;
    cbn [fst snd trace length Nat.eqb]; run; cbn [fst snd trace];
    rewrite !fetched_app; cbn [fetched]; rewrite ?List.app_nil_r, <- ?List.app_assoc;
    (split; reflexivity).
Qed.

(** X23: When the request for the forecast fails (an HTTP error that
    is not 429, a rejected [fetch], or a body that is not JSON),
    [get-forecast] answers [无法获取天气预报数据]; the grid point was
    asked for once and the forecast once. *)
Theorem a_failed_forecast_request_is_reported
        (R : Runtime) (fuel : nat) (args : ForecastArgs) (w w1 w2 : World R)
        (t : list Event) (r : Response) (data : Json) (forecastUrl : string) :
  fetch R (pointsUrlOf R args) requestHeaders w = (inr r, w1) ->
  ok r = true ->
  json r = inr data ->
  falsy data = false ->
  points_forecast (asPointsResponse R data) = Some forecastUrl ->
  forecastUrl <> "" ->
  (exists e, fetch R forecastUrl requestHeaders w1 = (inl e, w2))
  \/ (exists r2, fetch R forecastUrl requestHeaders w1 = (inr r2, w2)
                 /\ ((ok r2 = false /\ status r2 <> 429%Z)
                     \/ (ok r2 = true /\ exists e, json r2 = inl e))) ->
  fst (callback (getForecastTool R (S fuel)) args (mkState w t))
  = Return [mkText "text" "无法获取天气预报数据"]
  /\ fetched (trace (snd (callback (getForecastTool R (S fuel)) args (mkState w t))))
     = (fetched t ++ [pointsUrlOf R args; forecastUrl])%list.
Proof.
  intros Hf Hok Hj Hfalsy Hurl Hne Hsecond.
  cbn [getForecastTool callback]. unfold withErrorHandling, getForecastHandler. run.
  rewrite (makeNWSRequest_success R fuel _ w w1 _ r data Hf Hok Hj), Hfalsy, Hurl.
  apply String.eqb_neq in Hne. cbn [truthy orElse]. rewrite Hne. cbn [negb]. run.
  destruct Hsecond as [(e & Hf2) | (r2 & Hf2 & [(Hok2 & Hs2) | (Hok2 & e & Hj2)])].
  - rewrite (makeNWSRequest_fetch_rejects R fuel _ w1 w2 _ e Hf2).
    cbn [falsy]. run. cbn [fst snd trace].
    rewrite !fetched_app. cbn [fetched]. rewrite ?List.app_nil_r, <- ?List.app_assoc.
    split; reflexivity.
  - rewrite (makeNWSRequest_http_error R fuel _ w1 w2 _ r2 Hf2 Hok2 Hs2).
    cbn [falsy]. run. cbn [fst snd trace].
    rewrite !fetched_app. cbn [fetched]. rewrite ?List.app_nil_r, <- ?List.app_assoc.
    split; reflexivity.
  - rewrite (makeNWSRequest_body_rejects R fuel _ w1 w2 _ r2 e Hf2 Hok2 Hj2).
    cbn [falsy]. run. cbn [fst snd trace].
    rewrite !fetched_app. cbn [fetched]. rewrite ?List.app_nil_r, <- ?List.app_assoc.
    split; reflexivity.
Qed.



End WeatherInvariants.

(* ===================================================================== *)
(** ** Properties of connecting and of [main] *)
(* ===================================================================== *)

Module StartupFacts.

Import Startup Laws LawFacts.

Ltac conjs := repeat match goal with |- _ /\ _ => split end.

Ltac run :=
  cbv beta iota zeta delta
    [bind tryCatch tryFinally emit logger_debug logger_info logger_error console_log
     getTransport setTransport setTools connect listTools close process_exit
     liftSum ret throw pending world trace tools transport].

Lemma sdkCalls_app (t u : list Event) : sdkCalls (t ++ u) = (sdkCalls t ++ sdkCalls u)%list.
Proof.
  induction t as [|e t IH]; [reflexivity|].
  destruct e; cbn [sdkCalls app]; rewrite IH; reflexivity.
Qed.

Lemma sdkCalls_InClient (l : list Client.Event) : sdkCalls (map InClient l) = [].
Proof. induction l as [|e l IH]; [reflexivity | exact IH]. Qed.

Lemma sdkCalls_of_logs {A : Type} (f : A -> Client.Event) (l : list A) :
  sdkCalls (map (fun a => InClient (f a)) l) = [].
Proof. induction l as [|a l IH]; [reflexivity | exact IH]. Qed.


(** The logger calls of the [map] over the listed tools. *)
Lemma forOf_debug (E : Env) (f : McpTool -> string) (l : list McpTool) :
  forall (w : Client.World (base E)) (t : list Event)
         (c : list Client.ChatCompletionTool) (tr : option Transport),
    forOf l (fun tool => logger_debug E (f tool)) (mkState w t c tr)
    = (Return tt,
       mkState w (t ++ map (fun tool => InClient (Client.Log Client.DEBUG (f tool))) l)%list
               c tr).
Proof.
  induction l as [|tool l IH]; intros w t c tr.
  - cbn. rewrite List.app_nil_r. reflexivity.
  - cbn [forOf map]. unfold bind at 1. unfold logger_debug at 1. unfold emit at 1.
    cbn [world trace tools transport]. rewrite IH, <- List.app_assoc. reflexivity.
Qed.

(** *** Connecting *)

(** X25: A server script whose path ends neither in [.js] nor in
    [.py] is refused before anything is done with it: no transport is
    made, the MCP client is not called, the catalog is left as it was,
    and the error is logged and thrown again. *)
Theorem a_script_that_is_neither_js_nor_py_is_refused
        (E : Env) (serverScriptPath : string) (s : State E) :
  endsWith serverScriptPath ".js" = false ->
  endsWith serverScriptPath ".py" = false ->
  connectToServer E serverScriptPath s
  = (Throw (ErrorObject "Error" "Server script must be a .js or .py file"),
     mkState (world s)
       (trace s
          ++ [ InClient (Client.Log Client.INFO
                           ("尝试连接到本地服务器脚本: " ++ serverScriptPath));
               InClient (Client.LogError "连接MCP服务器失败"
                           (ErrorObject "Error"
                              "Server script must be a .js or .py file")) ])%list
       (tools s) (transport s)).
Proof.
  intros Hjs Hpy. destruct s as [w t c tr]. unfold connectToServer. run.
  rewrite Hjs, Hpy. cbn [negb andb]. rewrite <- List.app_assoc. reflexivity.
Qed.

(** X26: After a connection the catalog mirrors the tools the server
    lists: one entry of type [function] for each, in the same order,
    with its name, description and input schema.  A script is run by
    [python] on Windows and [python3] elsewhere when its path ends in
    [.py], and by the Node executable otherwise; a remote server gets
    the transport of the mode.  The MCP client is asked to connect and
    then to list the tools, once each. *)
Theorem the_catalog_mirrors_the_listed_tools (E : Env) (s : State E)
        (listed : list McpTool) (w' : Client.World (base E)) :
  (forall serverScriptPath : string,
      let t := StdioClientTransport
                 (if endsWith serverScriptPath ".py"
                  then if process_platform E =? "win32" then "python" else "python3"
                  else process_execPath E)
                 [serverScriptPath] in
      endsWith serverScriptPath ".js" = true \/ endsWith serverScriptPath ".py" = true ->
      mcp_listTools E (mcp_connect E t (world s)) = (inr listed, w') ->
      exists s',
        connectToServer E serverScriptPath s = (Return tt, s')
        /\ world s' = w'
        /\ transport s' = Some t
        /\ tools s' = map toChatTool listed
        /\ sdkCalls (trace s') = (sdkCalls (trace s) ++ [McpConnect t; McpListTools])%list)
  /\ (forall (serverUrl url : string) (mode : ConnectionMode),
         let t := match mode with
                  | SSE => SSEClientTransport url
                  | _ => WebSocketClientTransport url
                  end in
         mode <> LOCAL_SCRIPT ->
         newURL E serverUrl = inr url ->
         mcp_listTools E (mcp_connect E t (world s)) = (inr listed, w') ->
         exists s',
           connectToRemoteServer E serverUrl mode s = (Return tt, s')
           /\ world s' = w'
           /\ transport s' = Some t
           /\ tools s' = map toChatTool listed
           /\ sdkCalls (trace s') = (sdkCalls (trace s) ++ [McpConnect t; McpListTools])%list)
  /\ map Client.tool_name (map toChatTool listed) = map mcp_name listed
  /\ map Client.tool_type (map toChatTool listed) = map (fun _ => "function") listed.
Proof.
  conjs.
  - intros path t Hext Hlist. destruct s as [w tr c old]. cbn [world] in *.
    unfold connectToServer, commandFor. run.
    assert (Hno : negb (endsWith path ".js") && negb (endsWith path ".py") = false).
    { destruct Hext as [-> | ->]; cbn; [reflexivity | apply andb_false_r]. }
    rewrite Hno. fold t. rewrite Hlist.
    match goal with
    | |- context [forOf listed ?f ?st] =>
        change (forOf listed f st)
          with (forOf listed (fun tool => logger_debug E ("处理工具: " ++ mcp_name tool)) st)
    end.
    rewrite forOf_debug.
    eexists. split; [reflexivity|]. cbn [world transport tools trace].
    conjs; try reflexivity.
    rewrite !sdkCalls_app. cbn [sdkCalls].
    rewrite sdkCalls_of_logs.
    rewrite ?List.app_nil_r, <- ?List.app_assoc. reflexivity.
  - intros serverUrl url mode t Hmode Hurl Hlist. destruct s as [w tr c old].
    cbn [world] in *. unfold connectToRemoteServer. run. rewrite Hurl.
    destruct mode; [elim Hmode; reflexivity | |]; cbn [t] in *; subst t; rewrite Hlist;
      (eexists; split; [reflexivity|]; cbn [world transport tools trace];
       conjs; try reflexivity;
       rewrite !sdkCalls_app; cbn [sdkCalls];
       rewrite ?List.app_nil_r, <- ?List.app_assoc; reflexivity).
  - rewrite map_map. reflexivity.
  - rewrite map_map. reflexivity.
Qed.

Ltac logged_last :=
  rewrite <- !List.app_assoc; cbn [app];
  match goal with
  | |- exists before, (_ ++ ?l)%list = _ => exists (removelast l); reflexivity
  end.

(** X27: When a connection fails, whatever the reason, the catalog is
    left as it was, and the last thing done before the error is thrown
    again is to log it. *)
Theorem a_failed_connection_leaves_the_catalog (E : Env) (s s' : State E) (e : Thrown) :
  (forall serverScriptPath : string,
      connectToServer E serverScriptPath s = (Throw e, s') ->
      tools s' = tools s
      /\ exists before,
           trace s' = (trace s ++ before
                         ++ [InClient (Client.LogError "连接MCP服务器失败" e)])%list)
  /\ (forall (serverUrl : string) (mode : ConnectionMode),
         connectToRemoteServer E serverUrl mode s = (Throw e, s') ->
         tools s' = tools s
         /\ exists before,
              trace s' = (trace s ++ before
                            ++ [InClient (Client.LogError "连接MCP服务器失败" e)])%list).
Proof.
  split.
  - intros path. destruct s as [w tr c old]. unfold connectToServer. run.
    destruct (negb (endsWith path ".js") && negb (endsWith path ".py")).
    + intros H. injection H as <- <-. cbn [tools trace]. split; [reflexivity|].
      logged_last.
    + match goal with
      | |- context [mcp_listTools E ?x] => destruct (mcp_listTools E x) as [[e0|listed] w1]
      end.
      * intros H. injection H as <- <-. cbn [tools trace]. split; [reflexivity|].
        logged_last.
      * match goal with
        | |- context [forOf listed ?f ?st] =>
            change (forOf listed f st)
              with (forOf listed
                          (fun tool => logger_debug E ("处理工具: " ++ mcp_name tool)) st)
        end.
        rewrite forOf_debug. discriminate.
  - intros serverUrl mode. destruct s as [w tr c old]. unfold connectToRemoteServer. run.
    destruct (newURL E serverUrl) as [e0|url].
    + intros H. injection H as <- <-. cbn [tools trace]. split; [reflexivity|].
      logged_last.
    + destruct mode; [destruct old as [t|]| |];
        try match goal with
            | |- context [mcp_listTools E ?x] =>
                destruct (mcp_listTools E x) as [[e0|listed] w1]
            end;
        try discriminate;
        (intros H; injection H as <- <-; cbn [tools trace]; split; [reflexivity|];
         logged_last).
Qed.

(** *** [main] *)

(** What [cleanup] logs after the call of [mcp.close]. *)
Lemma cleanup_then_exit (E : Env) (s : State E) :
  (cleanup E ;; @process_exit E unit 0) s
  = (Pending,
     mkState (snd (mcp_close E (world s)))
       (trace s
          ++ [ InClient (Client.Log Client.INFO "清理资源...");
               McpClose;
               InClient (match fst (mcp_close E (world s)) with
                         | inl e => Client.LogError "清理资源时发生错误" e
                         | inr _ => Client.Log Client.INFO "MCP客户端已关闭"
                         end);
               ProcessExit 0 ])%list
       (tools s) (transport s)).
Proof.
  destruct s as [w tr c old]. unfold cleanup. run.
  destruct (mcp_close E w) as [[e|u] w1]; cbn [fst snd];
    rewrite <- !List.app_assoc; reflexivity.
Qed.

Lemma constructor_returns (E : Env) (s : State E) :
  newClients E = inr tt ->
  constructor E s
  = (Return tt,
     mkState (world s)
       (trace s ++ [ InClient (Client.Log Client.INFO "初始化OpenAI和MCP客户端");
                     InClient (Client.Log Client.INFO "客户端初始化成功") ])%list
       (tools s) (transport s)).
Proof.
  intros H. destruct s as [w tr c old]. unfold constructor. run. rewrite H.
  rewrite <- !List.app_assoc. reflexivity.
Qed.

Lemma forOf_console_log (E : Env) (l : list string) :
  forall (w : Client.World (base E)) (t : list Event)
         (c : list Client.ChatCompletionTool) (tr : option Transport),
    forOf l (console_log E) (mkState w t c tr)
    = (Return tt,
       mkState w (t ++ map (fun line => InClient (Client.ConsoleLog line)) l)%list c tr).
Proof.
  induction l as [|line l IH]; intros w t c tr.
  - cbn. rewrite List.app_nil_r. reflexivity.
  - cbn [forOf map]. unfold bind at 1. unfold console_log at 1. unfold emit at 1.
    cbn [world trace tools transport]. rewrite IH, <- List.app_assoc. reflexivity.
Qed.

(** X28: Started without an argument and without [MCP_SERVER_URL],
    the program prints the six lines of the usage, connects to
    nothing and asks nothing, cleans up and exits with code 0. *)
Theorem without_arguments_the_usage_is_printed
        (E : Env) (argv input : list string) (s : State E) :
  (length argv < 3)%nat ->
  MCP_SERVER_URL E = "" ->
  newClients E = inr tt ->
  main E argv input s
  = (Pending,
     mkState (snd (mcp_close E (world s)))
       (trace s
          ++ [ InClient (Client.Log Client.INFO "初始化OpenAI和MCP客户端");
               InClient (Client.Log Client.INFO "客户端初始化成功") ]
          ++ map (fun line => InClient (Client.ConsoleLog line)) usage
          ++ [ InClient (Client.Log Client.INFO "清理资源...");
               McpClose;
               InClient (match fst (mcp_close E (world s)) with
                         | inl e => Client.LogError "清理资源时发生错误" e
                         | inr _ => Client.Log Client.INFO "MCP客户端已关闭"
                         end);
               ProcessExit 0 ])%list
       (tools s) (transport s)).
Proof.
  intros Hlen Hurl Hnew. unfold main.
  unfold bind at 1. rewrite (constructor_returns E s Hnew).
  apply Nat.ltb_lt in Hlen. rewrite Hlen, Hurl. cbn [String.eqb negb].
  unfold tryFinally, tryCatch. unfold bind at 1.
  rewrite forOf_console_log. unfold ret at 1.
  rewrite cleanup_then_exit. cbn [world trace tools transport].
  rewrite <- !List.app_assoc. reflexivity.
Qed.

(** X29: [--ws], [--websocket] or [--sse] without a URL after it is
    a fatal error: it is logged and the process exits with code 1,
    without a connection and without the cleanup. *)
Theorem a_flag_without_url_exits_with_1
        (E : Env) (node script flag : string) (input : list string) (s : State E) :
  In flag ["--ws"; "--websocket"; "--sse"] ->
  newClients E = inr tt ->
  main E [node; script; flag] input s
  = (Pending,
     mkState (world s)
       (trace s
          ++ [ InClient (Client.Log Client.INFO "初始化OpenAI和MCP客户端");
               InClient (Client.Log Client.INFO "客户端初始化成功");
               InClient (Client.LogError "程序运行时发生致命错误"
                           (ErrorObject "Error"
                              (if flag =? "--sse" then "缺少SSE服务器URL"
                               else "缺少WebSocket服务器URL")));
               ProcessExit 1 ])%list
       (tools s) (transport s)).
Proof.
  intros Hflag Hnew. unfold main.
  unfold bind at 1. rewrite (constructor_returns E s Hnew).
  destruct s as [w tr c old]. cbn [world trace tools transport].
  cbn in Hflag. destruct Hflag as [<- | [<- | [<- | []]]]; cbn; rewrite <- !List.app_assoc;
    reflexivity.
Qed.

(** *** How the process ends *)

#[local] Instance Running_PreOrder (E : Env) : PreOrder (Running E).
Proof.
  split.
  - intros s. exists []. split; [symmetry; apply List.app_nil_r | reflexivity].
  - intros s1 s2 s3 (e1 & H1 & F1) (e2 & H2 & F2). exists (e1 ++ e2)%list. split.
    + rewrite H2, H1, List.app_assoc. reflexivity.
    + rewrite forallb_app, F1, F2. reflexivity.
Qed.










End StartupFacts.

(* ===================================================================== *)
(** ** The invariants on concrete runs *)
(* ===================================================================== *)

Module ClientMoreRuns.

Import Client ClientMore ClientDemo ClientMoreDemo ClientInvariants.

(** The model asks for [echo] and then for [date]: both are invoked,
    in that order. *)
Lemma tools_are_invoked_in_the_order_of_the_batch_run :
  exists done,
    toolCallsMade (trace (snd (processQuery (runtime twoCallsScript) "hi"
                                            (start twoCallsScript))))
    = ([] ++ done)%list
    /\ extends done
               (planned (runtime twoCallsScript)
                        (requested (mkResponse (Some [mkChoice twoCalls]))))
    /\ (forallb (wellFormed (runtime twoCallsScript))
                (requested (mkResponse (Some [mkChoice twoCalls]))) = true ->
        done = planned (runtime twoCallsScript)
                       (requested (mkResponse (Some [mkChoice twoCalls])))).
Proof.
  exact (tools_are_invoked_in_the_order_of_the_batch
           (runtime twoCallsScript) "hi" (start twoCallsScript)
           (mkResponse (Some [mkChoice twoCalls])) tt eq_refl).
Defined.

(** The provider is down: the query returns the text of the error. *)
Lemma a_failed_first_request_becomes_the_answer_run :
  fst (processQuery (runtime providerDownScript) "hi" (start providerDownScript))
  = Return "处理查询时发生错误: provider down"
  /\ toolCallsMade (trace (snd (processQuery (runtime providerDownScript) "hi"
                                             (start providerDownScript))))
     = []
  /\ modelCalls (trace (snd (processQuery (runtime providerDownScript) "hi"
                                          (start providerDownScript))))
     = [mkRequest "deepseek-chat" 1000 [userMessage "hi"] (Some [])].
Proof.
  exact (a_failed_first_request_becomes_the_answer
           (runtime providerDownScript) "hi" (start providerDownScript)
           (ErrorObject "Error" "provider down") tt eq_refl).
Defined.

(** The model returns no choice: the query returns the empty string. *)
Lemma an_empty_response_gives_the_empty_text_run :
  fst (processQuery (runtime silentScript) "hi" (start silentScript)) = Return ""
  /\ toolCallsMade (trace (snd (processQuery (runtime silentScript) "hi"
                                             (start silentScript))))
     = [].
Proof.
  exact (an_empty_response_gives_the_empty_text
           (runtime silentScript) "hi" (start silentScript)
           (mkResponse (Some [])) tt eq_refl I).
Defined.

(** The operator types [hello] and then [QUIT]: what is typed after
    that is not read. *)
Lemma the_loop_ends_at_the_first_quit_run :
  exists s' evs,
    (forall after,
        chatLoop (runtime helloScript) (["hello"] ++ "QUIT" :: after) (start helloScript)
        = (Return tt, s'))
    /\ tools s' = []
    /\ trace s' = ([] ++ banner ++ evs ++ [Question prompt; RlClose])%list.
Proof.
  exact (the_loop_ends_at_the_first_quit
           (runtime helloScript) ["hello"] "QUIT" (start helloScript) eq_refl eq_refl).
Defined.


(** The line [ hello ] is sent with its spaces. *)
Lemma a_line_is_sent_to_the_model_as_typed_run :
  exists output s1,
    processQuery (runtime helloScript) " hello "
      (mkState (world (start helloScript))
               (trace (start helloScript)
                  ++ [Question prompt; Log INFO "开始处理查询..."])
               (tools (start helloScript)) (messages (start helloScript))
               (finalText (start helloScript)) (toolResults (start helloScript)))
    = (Return output, s1)
    /\ forall rest,
         whileTrue (runtime helloScript) (" hello " :: rest) (start helloScript)
         = whileTrue (runtime helloScript) rest
             (mkState (world s1)
                      (trace s1 ++ [Log INFO "查询处理完成"; ConsoleLog (LF ++ output)])
                      (tools s1) (messages s1) (finalText s1) (toolResults s1)).
Proof.
  exact (a_line_is_sent_to_the_model_as_typed
           (runtime helloScript) " hello " (start helloScript)
           eq_refl eq_refl eq_refl eq_refl).
Defined.

Lemma DEBUG_is_a_casing : In "DEBUG" (casings "debug").
Proof. simpl. tauto. Defined.

Lemma Info_is_a_casing : In "Info" (casings "info").
Proof. simpl. tauto. Defined.

(** [DEBUG] and [Info] set the level. *)
Lemma level_commands_only_set_the_environment_run :
  whileTrue (runtime helloScript) ["DEBUG"] (start helloScript)
  = whileTrue (runtime helloScript) []
      (mkState (world (start helloScript))
               (trace (start helloScript)
                  ++ [Question prompt; SetEnv "LOG_LEVEL" "debug";
                      ConsoleLog (LF ++ "已切换到调试模式，将显示详细日志信息")])
               (tools (start helloScript)) (messages (start helloScript))
               (finalText (start helloScript)) (toolResults (start helloScript)))
  /\ whileTrue (runtime helloScript) ["Info"] (start helloScript)
     = whileTrue (runtime helloScript) []
         (mkState (world (start helloScript))
                  (trace (start helloScript)
                     ++ [Question prompt; SetEnv "LOG_LEVEL" "info";
                         ConsoleLog (LF ++ "已切换到标准模式，将只显示重要日志信息")])
                  (tools (start helloScript)) (messages (start helloScript))
                  (finalText (start helloScript)) (toolResults (start helloScript))).
Proof.
  split.
  - exact (proj1 (level_commands_only_set_the_environment
                    (runtime helloScript) "DEBUG" [] (start helloScript))
                 DEBUG_is_a_casing).
  - exact (proj2 (level_commands_only_set_the_environment
                    (runtime helloScript) "Info" [] (start helloScript))
                 Info_is_a_casing).
Defined.


End ClientMoreRuns.

Module WeatherMoreRuns.

Import Weather WeatherMore WeatherDemo WeatherMoreDemo WeatherFacts WeatherInvariants.

Lemma alwaysThrottled_is_always_rate_limited :
  alwaysRateLimited (runtime alwaysThrottled) alertsCA (fun _ => True).
Proof.
  intros w _. exists (tooManyRequests None), (S w).
  split; [reflexivity | split; [reflexivity | exact I]].
Defined.

(** An upstream that always answers 429: after three unrollings three
    requests were made and the helper has not returned. *)
Lemma a_persistent_429_is_retried_without_end_run :
  fst (makeNWSRequest (runtime alwaysThrottled) 3 alertsCA (start alwaysThrottled))
  = Pending
  /\ fetched (trace (snd (makeNWSRequest (runtime alwaysThrottled) 3 alertsCA
                                         (start alwaysThrottled))))
     = ([] ++ repeat alertsCA 3)%list.
Proof.
  exact (a_persistent_429_is_retried_without_end
           (runtime alwaysThrottled) alertsCA (fun _ => True) 3 (start alwaysThrottled)
           alwaysThrottled_is_always_rate_limited I).
Defined.

(** The network is down: the helper returns [null] after one request. *)
Lemma a_failed_request_gives_null_run :
  makeNWSRequest (runtime unreachable) 1 alertsCA (start unreachable)
  = (Return JNull,
     @mkState (runtime unreachable) 1%nat
       ([] ++ [ Log DEBUG ("发起请求: " ++ alertsCA);
                SetTimeout (Some 500%Z);
                Fetch alertsCA requestHeaders;
                LogError ("请求NWS API时发生错误: " ++ alertsCA) fetchFailed ])%list).
Proof.
  exact (a_failed_request_gives_null
           (runtime unreachable) 0 alertsCA O 1%nat [] fetchFailed (or_introl eq_refl)).
Defined.

(** A handler that throws [boom]: the tool answers with the text of
    the error. *)
Lemma a_wrapped_tool_never_throws_run :
  fst (withErrorHandling (runtime alwaysNotFound) "boom-tool"
                         (failingHandler (runtime alwaysNotFound)) tt
                         (start alwaysNotFound))
  = Return (textResponse "执行工具时发生错误: boom").
Proof.
  exact (proj2 (a_wrapped_tool_never_throws
                  (runtime alwaysNotFound) unit "boom-tool"
                  (failingHandler (runtime alwaysNotFound)) tt (start alwaysNotFound))
               (ErrorObject "Error" "boom")
               (@mkState (runtime alwaysNotFound) O [Log DEBUG "执行工具: boom-tool, 参数:"])
               eq_refl).
Defined.

(** The upstream answers 200 with the body [null]. *)
Lemma a_falsy_body_counts_as_a_failure_run :
  fst (callback (getAlertsTool (runtime alwaysNull) 1) (mkAlertsArgs "ca")
                (start alwaysNull))
  = Return [mkText "text" "Failed to retrieve alerts data"].
Proof.
  exact (proj1 (a_falsy_body_counts_as_a_failure
                  (runtime alwaysNull) 0 alertsCA O 1%nat [] (success JNull) JNull
                  eq_refl eq_refl eq_refl eq_refl)
               (mkAlertsArgs "ca") eq_refl).
Defined.


(** A grid point body without a forecast URL. *)
Lemma a_grid_point_without_forecast_url_ends_the_call_run :
  fst (callback (getForecastTool (runtime alwaysOk) 1) topeka (start alwaysOk))
  = Return [mkText "text" "无法从网格点数据中获取天气预报URL"]
  /\ fetched (trace (snd (callback (getForecastTool (runtime alwaysOk) 1) topeka
                                   (start alwaysOk))))
     = ([] ++ [pointsUrlOf (runtime alwaysOk) topeka])%list.
Proof.
  exact (a_grid_point_without_forecast_url_ends_the_call
           (runtime alwaysOk) 0 topeka O 1%nat [] (success someBody) someBody
           eq_refl eq_refl eq_refl eq_refl (or_introl eq_refl)).
Defined.

(** A grid point that names a forecast URL, and a forecast of one
    period. *)
Lemma get_forecast_follows_the_forecast_url_run :
  fst (callback (getForecastTool
                   (runtimeWith alwaysOk (mkAlerts None) (mkPoints (Some forecastOfTopeka))
                                (mkForecast (Some [tonight]))) 1)
                topeka (startWith alwaysOk (mkAlerts None) (mkPoints (Some forecastOfTopeka)) (mkForecast (Some [tonight]))))
  = Return
      [mkText "text"
         ("位置"
            ++ coordText (runtimeWith alwaysOk (mkAlerts None)
                                      (mkPoints (Some forecastOfTopeka))
                                      (mkForecast (Some [tonight]))) topeka
            ++ "的天气预报:" ++ LF ++ LF
            ++ join LF
                 [formatPeriod (runtimeWith alwaysOk (mkAlerts None)
                                            (mkPoints (Some forecastOfTopeka))
                                            (mkForecast (Some [tonight]))) tonight])]
  /\ fetched (trace (snd (callback
                            (getForecastTool
                               (runtimeWith alwaysOk (mkAlerts None)
                                            (mkPoints (Some forecastOfTopeka))
                                            (mkForecast (Some [tonight]))) 1)
                            topeka (startWith alwaysOk (mkAlerts None) (mkPoints (Some forecastOfTopeka)) (mkForecast (Some [tonight]))))))
     = ([] ++ [pointsUrlOf (runtimeWith alwaysOk (mkAlerts None)
                                        (mkPoints (Some forecastOfTopeka))
                                        (mkForecast (Some [tonight]))) topeka;
               forecastOfTopeka])%list.
Proof.
  refine (get_forecast_follows_the_forecast_url
            (runtimeWith alwaysOk (mkAlerts None) (mkPoints (Some forecastOfTopeka))
                         (mkForecast (Some [tonight])))
            0 topeka O 1%nat 2%nat [] (success someBody) (success someBody)
            someBody someBody forecastOfTopeka
            eq_refl eq_refl eq_refl eq_refl eq_refl _ eq_refl eq_refl eq_refl eq_refl).
  discriminate.
Defined.

(** The grid point is found and the forecast is answered 404. *)
Lemma a_failed_forecast_request_is_reported_run :
  fst (callback (getForecastTool
                   (runtimeWith okThenNotFound (mkAlerts None)
                                (mkPoints (Some forecastOfTopeka)) (mkForecast None)) 1)
                topeka (startWith okThenNotFound (mkAlerts None) (mkPoints (Some forecastOfTopeka)) (mkForecast None)))
  = Return [mkText "text" "无法获取天气预报数据"]
  /\ fetched (trace (snd (callback
                            (getForecastTool
                               (runtimeWith okThenNotFound (mkAlerts None)
                                            (mkPoints (Some forecastOfTopeka))
                                            (mkForecast None)) 1)
                            topeka (startWith okThenNotFound (mkAlerts None) (mkPoints (Some forecastOfTopeka)) (mkForecast None)))))
     = ([] ++ [pointsUrlOf (runtimeWith okThenNotFound (mkAlerts None)
                                        (mkPoints (Some forecastOfTopeka))
                                        (mkForecast None)) topeka;
               forecastOfTopeka])%list.
Proof.
  refine (a_failed_forecast_request_is_reported
            (runtimeWith okThenNotFound (mkAlerts None) (mkPoints (Some forecastOfTopeka))
                         (mkForecast None))
            0 topeka O 1%nat 2%nat [] (success someBody) someBody forecastOfTopeka
            eq_refl eq_refl eq_refl eq_refl eq_refl _
            (or_intror (ex_intro _ notFound (conj eq_refl (or_introl (conj eq_refl _)))))).
  - discriminate.
  - discriminate.
Defined.


End WeatherMoreRuns.

Module StartupRuns.

Import Startup StartupDemo StartupFacts.

(** A Ruby script is refused. *)
Lemma a_script_that_is_neither_js_nor_py_is_refused_run :
  connectToServer env "server.rb" start
  = (Throw (ErrorObject "Error" "Server script must be a .js or .py file"),
     mkState (world start)
       (trace start
          ++ [ InClient (Client.Log Client.INFO "尝试连接到本地服务器脚本: server.rb");
               InClient (Client.LogError "连接MCP服务器失败"
                           (ErrorObject "Error"
                              "Server script must be a .js or .py file")) ])%list
       (tools start) (transport start)).
Proof.
  exact (a_script_that_is_neither_js_nor_py_is_refused env "server.rb" start
           eq_refl eq_refl).
Defined.

(** A Python script on Linux is run by [python3], and a WebSocket
    server gets a WebSocket transport; the catalog holds [echo]. *)
Lemma the_catalog_mirrors_the_listed_tools_run :
  (exists s',
      connectToServer env "server.py" start = (Return tt, s')
      /\ world s' = tt
      /\ transport s' = Some (StdioClientTransport "python3" ["server.py"])
      /\ tools s' = map toChatTool [mkMcpTool "echo" (Some "Echoes its input") emptyObject]
      /\ sdkCalls (trace s')
         = (sdkCalls (trace start)
              ++ [McpConnect (StdioClientTransport "python3" ["server.py"]);
                  McpListTools])%list)
  /\ (exists s',
         connectToRemoteServer env "ws://localhost:8080/mcp" WEBSOCKET start
         = (Return tt, s')
         /\ world s' = tt
         /\ transport s' = Some (WebSocketClientTransport "ws://localhost:8080/mcp")
         /\ tools s'
            = map toChatTool [mkMcpTool "echo" (Some "Echoes its input") emptyObject]
         /\ sdkCalls (trace s')
            = (sdkCalls (trace start)
                 ++ [McpConnect (WebSocketClientTransport "ws://localhost:8080/mcp");
                     McpListTools])%list).
Proof.
  split.
  - exact (proj1 (the_catalog_mirrors_the_listed_tools
                    env start [mkMcpTool "echo" (Some "Echoes its input") emptyObject] tt)
                 "server.py" (or_intror eq_refl) eq_refl).
  - refine (proj1 (proj2 (the_catalog_mirrors_the_listed_tools
                            env start
                            [mkMcpTool "echo" (Some "Echoes its input") emptyObject] tt))
                  "ws://localhost:8080/mcp" "ws://localhost:8080/mcp" WEBSOCKET
                  _ eq_refl eq_refl).
    discriminate.
Defined.

(** The refused script again: the catalog is as it was. *)
Lemma a_failed_connection_leaves_the_catalog_run :
  tools (snd (connectToServer env "server.rb" start)) = tools start
  /\ exists before,
       trace (snd (connectToServer env "server.rb" start))
       = (trace start ++ before
            ++ [InClient (Client.LogError "连接MCP服务器失败"
                            (ErrorObject "Error"
                               "Server script must be a .js or .py file"))])%list.
Proof.
  exact (proj1 (a_failed_connection_leaves_the_catalog
                  env start (snd (connectToServer env "server.rb" start))
                  (ErrorObject "Error" "Server script must be a .js or .py file"))
               "server.rb" eq_refl).
Defined.

(** [node build/index.js] alone. *)
Lemma without_arguments_the_usage_is_printed_run :
  sdkCalls (trace (snd (main env ["node"; "build/index.js"] [] start)))
  = [McpClose; ProcessExit 0].
Proof.
  rewrite (without_arguments_the_usage_is_printed
             env ["node"; "build/index.js"] [] start (le_n 3) eq_refl eq_refl).
  reflexivity.
Defined.

(** [node build/index.js --sse]. *)
Lemma a_flag_without_url_exits_with_1_run :
  sdkCalls (trace (snd (main env ["node"; "build/index.js"; "--sse"] [] start)))
  = [ProcessExit 1].
Proof.
  rewrite (a_flag_without_url_exits_with_1
             env "node" "build/index.js" "--sse" [] start
             (or_intror (or_intror (or_introl eq_refl))) eq_refl).
  reflexivity.
Defined.


End StartupRuns.
